(** * Creatio connector: session client, tool dispatch and session-routed transport

    A shallow embedding of [server/creatio-client.ts], [server/mcp-server.ts],
    [server/mcp-sse-server.ts], the routes of [server/routes.ts] for the
    connection, single records, tool execution and health, and the tool
    table of the dashboard panel [mcp-tools-panel.tsx].

    Conventions.
    - JavaScript values are the inductive [jsval]; numbers are integers
      ([Z]), so fractional numbers, infinities and NaN are outside the model,
      and an integer is printed with all its digits, which is what a template
      literal does for the integers of magnitude below 2^53.
    - Text is [string] (a list of 8-bit code units).  Header text is read one
      code unit per byte, as the fetch [Headers] object delivers it; text that
      is percent-encoded is given by its UTF-8 bytes.
    - Stateful code runs in the monad [M]: a function of the [World] that
      returns a value or a thrown exception together with the new world.
    - Library functions that are not part of the repository (the upstream
      server behind [fetch], [JSON.parse], [JSON.stringify] with indentation,
      [Date.prototype.toISOString], the URL test of the config schema, the
      SDK's [server.connect] and the transport's [handlePostMessage]) are
      variables of the sections. *)

From Stdlib Require Import ZArith Ascii String List DecimalString Lia.
From stdpp Require Import base option list gmap strings.

Set Warnings "-register-all".
Local Open Scope string_scope.
Local Open Scope Z_scope.

(** ** Text primitives *)

Module Text.

Definition code (c : ascii) : nat := nat_of_ascii c.

Definition in_range (lo hi : nat) (c : ascii) : bool :=
  (Nat.leb lo (code c)) && (Nat.leb (code c) hi).

Definition is_upper : ascii -> bool := in_range 65 90.
Definition is_lower : ascii -> bool := in_range 97 122.
Definition is_digit : ascii -> bool := in_range 48 57.
Definition is_alpha (c : ascii) : bool := is_upper c || is_lower c.

(** [\s] and the characters removed by [trim], restricted to one-byte code
    units: TAB, LF, VT, FF, CR, SPACE and NBSP. *)
Definition is_space (c : ascii) : bool :=
  in_range 9 13 c || Nat.eqb (code c) 32 || Nat.eqb (code c) 160.

Definition to_lower (c : ascii) : ascii :=
  if is_upper c then ascii_of_nat (code c + 32) else c.

Fixpoint drop_while (p : ascii -> bool) (s : string) : string :=
  match s with
  | String c s' => if p c then drop_while p s' else s
  | EmptyString => EmptyString
  end.

Fixpoint take_while (p : ascii -> bool) (s : string) : string :=
  match s with
  | String c s' => if p c then String c (take_while p s') else EmptyString
  | EmptyString => EmptyString
  end.

Fixpoint rev_acc (s acc : string) : string :=
  match s with
  | String c s' => rev_acc s' (String c acc)
  | EmptyString => acc
  end.

Definition rev (s : string) : string := rev_acc s EmptyString.

(** [String.prototype.trim]. *)
Definition trim (s : string) : string :=
  rev (drop_while is_space (rev (drop_while is_space s))).

(** [String.prototype.includes] with a literal needle. *)
Fixpoint includes (needle s : string) : bool :=
  String.prefix needle s ||
  match s with
  | String _ s' => includes needle s'
  | EmptyString => false
  end.

(** [Array.prototype.join]. *)
Fixpoint join (sep : string) (l : list string) : string :=
  match l with
  | [] => ""
  | [x] => x
  | x :: rest => x +:+ sep +:+ join sep rest
  end.

(** [String.prototype.substring(0, n)]. *)
Fixpoint take (n : nat) (s : string) : string :=
  match n, s with
  | S n', String c s' => String c (take n' s')
  | _, _ => EmptyString
  end.

(** Remove a prefix of known length. *)
Fixpoint skip (n : nat) (s : string) : string :=
  match n, s with
  | S n', String _ s' => skip n' s'
  | _, _ => s
  end.

(** Case-insensitive prefix test for the [i] flag; [lit] is lower case. *)
Fixpoint prefix_ci (lit s : string) : bool :=
  match lit, s with
  | EmptyString, _ => true
  | String a lit', String b s' =>
      if Ascii.eqb a (to_lower b) then prefix_ci lit' s' else false
  | String _ _, EmptyString => false
  end.

(** Longest prefix whose characters satisfy [p], and the remainder. *)
Fixpoint span (p : ascii -> bool) (s : string) : string * string :=
  match s with
  | String c s' =>
      if p c then let '(a, b) := span p s' in (String c a, b)
      else (EmptyString, s)
  | EmptyString => (EmptyString, EmptyString)
  end.

Definition is_char (a : ascii) (c : ascii) : bool := Ascii.eqb c a.
Definition not_char (a : ascii) (c : ascii) : bool := negb (Ascii.eqb c a).

Definition nonempty (s : string) : bool := negb (String.eqb s "").

(** Number-to-string conversion of an integer, with all its digits: the
    text that a template literal gives for an integer of magnitude below
    2^53.  (Larger numbers are printed with rounded digits, and from 10^21 on
    in exponent form; they are outside the model.) *)
Definition of_Z (n : Z) : string := NilEmpty.string_of_int (Z.to_int n).

End Text.

(** ** JavaScript values *)

Inductive jsval : Type :=
| JUndefined
| JNull
| JBool (b : bool)
| JNum (n : Z)
| JStr (s : string)
| JArr (items : list jsval)
| JObj (fields : list (string * jsval)).

(** Truthiness, as tested by [if (v)], [!v] and [v || d]. *)
Definition truthy (v : jsval) : bool :=
  match v with
  | JUndefined | JNull => false
  | JBool b => b
  | JNum n => negb (n =? 0)
  | JStr s => negb (String.eqb s "")
  | JArr _ | JObj _ => true
  end.

(** [a || b]. *)
Definition js_or (a b : jsval) : jsval := if truthy a then a else b.

(** The abstract operation ToString, used by template literals,
    [encodeURIComponent] and the [Error] constructor. *)
Fixpoint ToString (v : jsval) : string :=
  match v with
  | JUndefined => "undefined"
  | JNull => "null"
  | JBool true => "true"
  | JBool false => "false"
  | JNum n => Text.of_Z n
  | JStr s => s
  | JArr items =>
      Text.join ","
        (List.map (fun x => match x with
                            | JUndefined | JNull => ""
                            | _ => ToString x
                            end) items)
  | JObj _ => "[object Object]"
  end.

Fixpoint assoc (k : string) (fields : list (string * jsval)) : option jsval :=
  match fields with
  | [] => None
  | (k', v) :: rest => if String.eqb k k' then Some v else assoc k rest
  end.

(** Own keys of an object value. *)
Definition keys (v : jsval) : list string :=
  match v with
  | JObj fields => List.map fst fields
  | _ => []
  end.

(** Exceptions: the constructor name and the message. *)
Record exn : Type := Exn { exn_name : string; exn_message : string }.

Definition Error (msg : string) : exn := Exn "Error" msg.
Definition TypeError (msg : string) : exn := Exn "TypeError" msg.

Inductive result (A : Type) : Type :=
| Ok (a : A)
| Throw (e : exn).
Arguments Ok {A} a.
Arguments Throw {A} e.

(** Property read [v.k]: reading a property of [undefined] or [null] throws;
    a property that is missing reads as [undefined].  The keys read by the
    modelled code are not properties of strings, numbers or booleans; of an
    array they read as [undefined] too, except [filter], which is a method of
    arrays: an argument bag that is an array is outside the model. *)
Definition get_prop (v : jsval) (k : string) : result jsval :=
  match v with
  | JUndefined | JNull =>
      Throw (TypeError ("Cannot read properties of " +:+ ToString v))
  | JObj fields => Ok (default JUndefined (assoc k fields))
  | _ => Ok JUndefined
  end.

(** ** Credential extraction ([CreatioClient.authenticate], lines 56-93) *)

Module Cookies.
Import Text.

(** [[A-Za-z_]] and [[A-Za-z0-9_-]]. *)
Definition is_name_start (c : ascii) : bool := is_alpha c || is_char "_" c.
Definition is_name_char (c : ascii) : bool :=
  is_alpha c || is_digit c || is_char "_" c || is_char "-" c.

(** The lookahead [(?=\s*[A-Za-z_][A-Za-z0-9_-]*=)] tried on the text that
    follows a comma.  Each greedy star is followed by a character outside
    its class, so the match is decided without backtracking. *)
Definition lookahead (s : string) : bool :=
  match drop_while is_space s with
  | String c s' =>
      is_name_start c &&
      match drop_while is_name_char s' with
      | String e _ => is_char "=" e
      | EmptyString => false
      end
  | EmptyString => false
  end.

(** [rawCookie.split(/,(?=...)/)]: cut at every comma whose lookahead
    succeeds; the comma is dropped. *)
Fixpoint split (s : string) : list string :=
  match s with
  | EmptyString => [EmptyString]
  | String c s' =>
      if is_char "," c && lookahead s' then EmptyString :: split s'
      else match split s' with
           | seg :: rest => String c seg :: rest
           | [] => [String c EmptyString]
           end
  end.

(** [Headers.get("set-cookie")]: [null] without such a header, otherwise
    the header lines joined by a comma and a space. *)
Definition headers_get_set_cookie (lines : list string) : option string :=
  match lines with
  | [] => None
  | _ => Some (join ", " lines)
  end.

(** Lines 56-65.  [has_getSetCookie] tells whether the runtime's [Headers]
    has the multi-value accessor. *)
Definition setCookieHeaders (has_getSetCookie : bool) (lines : list string)
  : list string :=
  if has_getSetCookie then lines
  else match headers_get_set_cookie lines with
       | Some rawCookie => if nonempty rawCookie then split rawCookie else []
       | None => []
       end.

(** [cookieHeader.match] with the pattern of line 71: at the start of the
    text, one or more characters other than [=], then [=], then the
    characters up to the first [;].  The result is the two groups. *)
Definition cookieMatch (cookieHeader : string) : option (string * string) :=
  let '(name, rest) := span (not_char "=") cookieHeader in
  match name, rest with
  | String _ _, String _ after => Some (name, fst (span (not_char ";") after))
  | _, _ => None
  end.

Definition KNOWN : list string := ["BPMCSRF"; ".ASPXAUTH"; "BPMLOADER"; "UserName"].

Definition is_known (name : string) : bool :=
  existsb (String.eqb name) KNOWN.

(** One iteration of the loop of lines 70-84 on the pair
    ([cookieParts], [csrfToken]). *)
Definition step (st : list string * string) (cookieHeader : string)
  : list string * string :=
  let '(cookieParts, csrfToken) := st in
  match cookieMatch cookieHeader with
  | Some (n, v) =>
      let name := trim n in
      let value := trim v in
      let csrfToken := if String.eqb name "BPMCSRF" then value else csrfToken in
      let cookieParts :=
        if is_known name then (cookieParts ++ [name +:+ "=" +:+ value])%list
        else cookieParts in
      (cookieParts, csrfToken)
  | None => st
  end.

Definition scan (headers : list string) : list string * string :=
  fold_left step headers ([], "").

(** [cookies.match(/BPMCSRF=([^;]+)/)], giving the group of the leftmost
    match. *)
Fixpoint bpmcsrfMatch (s : string) : option string :=
  let here :=
    if String.prefix "BPMCSRF=" s then
      let v := fst (span (not_char ";") (skip 8 s)) in
      if nonempty v then Some v else None
    else None in
  match here, s with
  | Some v, _ => Some v
  | None, String _ s' => bpmcsrfMatch s'
  | None, EmptyString => None
  end.

(** Lines 67-93: the assembled [cookies] string and the [csrfToken]. *)
Definition extract (headers : list string) : string * string :=
  let '(cookieParts, csrfToken) := scan headers in
  let cookies := join "; " cookieParts in
  let csrfToken :=
    if negb (nonempty csrfToken) && nonempty cookies then
      match bpmcsrfMatch cookies with
      | Some v => v
      | None => csrfToken
      end
    else csrfToken in
  (cookies, csrfToken).

(** Lines 56-93 on the [Set-Cookie] lines of the login response. *)
Definition fromResponse (has_getSetCookie : bool) (lines : list string)
  : string * string :=
  extract (setCookieHeaders has_getSetCookie lines).

End Cookies.

(** ** Query strings and response pages *)

Module Uri.
Import Text.

(** Characters that [encodeURIComponent] leaves as they are. *)
Definition unreserved (c : ascii) : bool :=
  is_alpha c || is_digit c ||
  existsb (Ascii.eqb c)
    ["-"; "_"; "."; "!"; "~"; "*"; "'"; "("; ")"]%char.

Definition hex_digit (n : nat) : ascii :=
  if Nat.ltb n 10 then ascii_of_nat (48 + n) else ascii_of_nat (55 + n).

Definition percent (c : ascii) : string :=
  String "%" (String (hex_digit (code c / 16))
                (String (hex_digit (code c mod 16)) EmptyString)).

(** [encodeURIComponent] on the UTF-8 bytes of a text. *)
Fixpoint encodeURIComponent (s : string) : string :=
  match s with
  | EmptyString => EmptyString
  | String c s' =>
      if unreserved c then String c (encodeURIComponent s')
      else percent c +:+ encodeURIComponent s'
  end.

End Uri.

Module Html.
Import Text.

(** [responseText.match(/<title>([^<]+)<\/title>/i)], giving the group of
    the leftmost match. *)
Fixpoint titleMatch (s : string) : option string :=
  let here :=
    if prefix_ci "<title>" s then
      let '(t, rest) := span (not_char "<") (skip 7 s) in
      if nonempty t && prefix_ci "</title>" rest then Some t else None
    else None in
  match here, s with
  | Some t, _ => Some t
  | None, String _ s' => titleMatch s'
  | None, EmptyString => None
  end.

End Html.

(** ** The world and the monad of stateful code *)

(** [CreatioSession] of creatio-client.ts. *)
Record CreatioSession : Type := {
  cookies : string;
  csrfToken : string;
  expiresAt : Z;
}.

(** The mutable part of a [CreatioClient] object.  [config] is the object
    handed to the constructor: the tool path passes the argument bag itself,
    unchecked, so it is a [jsval]. *)
Record CreatioClient : Type := {
  config : jsval;
  session : option CreatioSession;
}.

Definition sessionTimeout : Z := 30 * 60 * 1000.

Record Request : Type := {
  req_method : string;
  req_url : string;
  req_headers : list (string * string);
  (** the value that the source serialises with [JSON.stringify] *)
  req_body : option jsval;
}.

Record Response : Type := {
  status : Z;
  statusText : string;
  (** [headers.get("content-type")] *)
  content_type : option string;
  (** the [Set-Cookie] header lines, in the order received *)
  set_cookie : list string;
  (** the body as text *)
  text : string;
}.

(** [response.ok]. *)
Definition ok (r : Response) : bool := (200 <=? status r) && (status r <=? 299).

(** Identity of a streaming transport object. *)
Definition Transport : Type := nat.

Record World : Type := {
  (** [Date.now()]; the clock stands still while one operation runs *)
  now : Z;
  (** the [CreatioClient] objects, by reference; a reference is read only
      after its object was created *)
  clients : nat -> CreatioClient;
  (** number of objects created so far *)
  allocated : nat;
  (** [let currentClient] of creatio-client.ts *)
  currentClient : option nat;
  (** the field [client] of the exported [mcpServer] *)
  mcpServer_client : option nat;
  (** [const activeTransports] of mcp-sse-server.ts *)
  activeTransports : gmap string Transport;
  (** every request handed to [fetch] so far, oldest first *)
  sent : list Request;
}.

Definition with_clients (f : nat -> CreatioClient) (n : nat) (w : World) : World :=
  {| now := now w; clients := f; allocated := n;
     currentClient := currentClient w; mcpServer_client := mcpServer_client w;
     activeTransports := activeTransports w; sent := sent w |}.

Definition with_currentClient (p : option nat) (w : World) : World :=
  {| now := now w; clients := clients w; allocated := allocated w;
     currentClient := p; mcpServer_client := mcpServer_client w;
     activeTransports := activeTransports w; sent := sent w |}.

Definition with_mcpServer_client (p : option nat) (w : World) : World :=
  {| now := now w; clients := clients w; allocated := allocated w;
     currentClient := currentClient w; mcpServer_client := p;
     activeTransports := activeTransports w; sent := sent w |}.

Definition with_activeTransports (m : gmap string Transport) (w : World) : World :=
  {| now := now w; clients := clients w; allocated := allocated w;
     currentClient := currentClient w; mcpServer_client := mcpServer_client w;
     activeTransports := m; sent := sent w |}.

Definition with_sent (l : list Request) (w : World) : World :=
  {| now := now w; clients := clients w; allocated := allocated w;
     currentClient := currentClient w; mcpServer_client := mcpServer_client w;
     activeTransports := activeTransports w; sent := l |}.

Definition M (A : Type) : Type := World -> result A * World.

Definition ret {A} (a : A) : M A := fun w => (Ok a, w).

Definition bind {A B} (m : M A) (k : A -> M B) : M B :=
  fun w => match m w with
           | (Ok a, w') => k a w'
           | (Throw e, w') => (Throw e, w')
           end.

Definition throw {A} (e : exn) : M A := fun w => (Throw e, w).

(** [try { m } catch (e) { h e }]. *)
Definition try_catch {A} (m : M A) (h : exn -> M A) : M A :=
  fun w => match m w with
           | (Ok a, w') => (Ok a, w')
           | (Throw e, w') => h e w'
           end.

Definition lift {A} (r : result A) : M A := fun w => (r, w).

Definition gets {A} (f : World -> A) : M A := fun w => (Ok (f w), w).

Definition modify (f : World -> World) : M unit := fun w => (Ok tt, f w).

Notation "'let*' x ':=' m 'in' k" := (bind m (fun x => k))
  (at level 10, x pattern, m at level 100, k at level 200).
Notation "m ';;' k" := (bind m (fun _ => k))
  (at level 100, k at level 200, right associativity, only parsing).

(** [QueryParams] of shared/schema.ts; a field that is absent is
    [JUndefined].  The tool path fills it from an unchecked argument bag. *)
Record QueryParams : Type := {
  q_filter : jsval;
  q_select : jsval;
  q_top : jsval;
  q_skip : jsval;
  q_orderby : jsval;
  q_expand : jsval;
}.

(** The four failures that [queryAccounts] raises on the response of its
    request. *)
Inductive QueryFailure : Type :=
| PermissionOrAuthError (title : string)
| RequestFailure (st : Z) (stt : string) (body : string)
| UnexpectedContentType (title : string)
| MalformedResponse (snippet : string).

(** ** The session client ([CreatioClient]) *)

Section Client.

(** The upstream server: the answer to a request, given the requests seen
    before it; [Throw] is a rejected [fetch]. *)
Variable upstream : list Request -> Request -> result Response.
(** [JSON.parse] (also behind [response.json()]). *)
Variable JSON_parse : string -> result jsval.
(** Whether [Headers.prototype.getSetCookie] exists in the runtime. *)
Variable has_getSetCookie : bool.

Definition fetch (r : Request) : M Response :=
  fun w => (upstream (sent w) r, with_sent (sent w ++ [r])%list w).

Definition response_json (r : Response) : M jsval := lift (JSON_parse (text r)).

Definition Date_now : M Z := gets now.

Definition this_config (this : nat) : M jsval :=
  gets (fun w => config (clients w this)).

Definition this_session (this : nat) : M (option CreatioSession) :=
  gets (fun w => session (clients w this)).

Definition set_session (this : nat) (s : option CreatioSession) : M unit :=
  modify (fun w =>
    with_clients
      (fun l => if Nat.eqb l this
                then {| config := config (clients w this); session := s |}
                else clients w l)
      (allocated w) w).

(** [new CreatioClient(config)]. *)
Definition new_CreatioClient (cfg : jsval) : M nat :=
  fun w =>
    let l := allocated w in
    (Ok l,
     with_clients
       (fun l' => if Nat.eqb l' l then {| config := cfg; session := None |}
                  else clients w l')
       (S l) w).

(** [s.replace(/\/$/, "")]: one trailing slash is removed. *)
Fixpoint strip_trailing_slash (s : string) : string :=
  match s with
  | EmptyString => EmptyString
  | String c EmptyString => if Text.is_char "/" c then EmptyString else s
  | String c s' => String c (strip_trailing_slash s')
  end.

(** The getter [baseUrl]. *)
Definition baseUrl (this : nat) : M string :=
  let* cfg := this_config this in
  let* b := lift (get_prop cfg "baseUrl") in
  match b with
  | JStr s => ret (strip_trailing_slash s)
  | JUndefined | JNull =>
      throw (TypeError ("Cannot read properties of " +:+ ToString b))
  | _ => throw (TypeError "this.config.baseUrl.replace is not a function")
  end.

Definition isSessionValid (this : nat) : M bool :=
  let* s := this_session this in
  match s with
  | None => ret false
  | Some s => let* t := Date_now in ret (t <? expiresAt s)
  end.

Definition loginRequest (base : string) (cfg : jsval) : result Request :=
  match get_prop cfg "username", get_prop cfg "password" with
  | Ok u, Ok p =>
      Ok {| req_method := "POST";
            req_url := base +:+ "/ServiceModel/AuthService.svc/Login";
            req_headers := [("Content-Type", "application/json")];
            req_body := Some (JObj [("UserName", u); ("UserPassword", p)]) |}
  | Throw e, _ | _, Throw e => Throw e
  end.

(** [result.Code !== 0]. *)
Definition is_zero (v : jsval) : bool :=
  match v with
  | JNum n => n =? 0
  | _ => false
  end.

(** The two warnings of lines 95-99 go to the console only. *)
Definition authenticate (this : nat) : M unit :=
  let* base := baseUrl this in
  let* cfg := this_config this in
  let* request := lift (loginRequest base cfg) in
  let* response := fetch request in
  if negb (ok response) then
    throw (Error ("Authentication failed: " +:+ Text.of_Z (status response)
                  +:+ " " +:+ statusText response))
  else
    let* result := response_json response in
    let* code := lift (get_prop result "Code") in
    if negb (is_zero code) then
      let* message := lift (get_prop result "Message") in
      throw (Error (ToString (js_or message (JStr "Authentication failed"))))
    else
      let '(cookies, csrfToken) :=
        Cookies.fromResponse has_getSetCookie (set_cookie response) in
      let* t := Date_now in
      set_session this
        (Some {| cookies := cookies; csrfToken := csrfToken;
                 expiresAt := t + sessionTimeout |}).

Definition ensureAuthenticated (this : nat) : M unit :=
  let* valid := isSessionValid this in
  if valid then ret tt else authenticate this.

Definition getHeaders (this : nat) : M (list (string * string)) :=
  let* s := this_session this in
  match s with
  | None => throw (Error "Not authenticated")
  | Some s =>
      ret [("Accept", "application/json");
           ("Content-Type", "application/json; charset=utf-8; IEEE754Compatible=true");
           ("ForceUseSession", "true");
           ("BPMCSRF", csrfToken s);
           ("Cookie", cookies s)]
  end.

Definition testConnection (this : nat) : M (bool * string) :=
  try_catch
    (authenticate this ;;
     ret (true, "Successfully connected to Creatio instance"))
    (fun error => ret (false, exn_message error)).

(** *** [queryAccounts] *)

(** Lines 146-172: the query string. *)
Definition queryParts (params : QueryParams) : list string :=
  ((if truthy (q_filter params)
    then ["$filter=" +:+ Uri.encodeURIComponent (ToString (q_filter params))]
    else []) ++
   (if truthy (q_select params)
    then ["$select=" +:+ Uri.encodeURIComponent (ToString (q_select params))]
    else []) ++
   (if truthy (q_top params)
    then ["$top=" +:+ ToString (q_top params)] else []) ++
   (if truthy (q_skip params)
    then ["$skip=" +:+ ToString (q_skip params)] else []) ++
   (if truthy (q_orderby params)
    then ["$orderby=" +:+ Uri.encodeURIComponent (ToString (q_orderby params))]
    else []) ++
   (if truthy (q_expand params)
    then ["$expand=" +:+ Uri.encodeURIComponent (ToString (q_expand params))]
    else []))%list.

Definition queryString (params : QueryParams) : string :=
  match queryParts params with
  | [] => ""
  | parts => "?" +:+ Text.join "&" parts
  end.

Definition errorTitle (responseText fallback : string) : string :=
  default fallback (Html.titleMatch responseText).

(** Lines 180-203: the failure raised on the response, or the value
    returned. *)
Definition classifyQuery (response : Response) : QueryFailure + jsval :=
  let contentType := default "" (content_type response) in
  let responseText := text response in
  if negb (ok response) then
    if Text.includes "text/html" contentType then
      inl (PermissionOrAuthError (errorTitle responseText "Access Denied"))
    else
      inl (RequestFailure (status response) (statusText response) responseText)
  else if Text.includes "text/html" contentType then
    inl (UnexpectedContentType (errorTitle responseText "Unknown Error"))
  else
    match JSON_parse responseText with
    | Ok data =>
        match get_prop data "value" with
        | Ok v => inr (js_or v (JArr []))
        | Throw _ => inl (MalformedResponse (Text.take 200 responseText))
        end
    | Throw _ => inl (MalformedResponse (Text.take 200 responseText))
    end.

Definition queryError (f : QueryFailure) : exn :=
  match f with
  | PermissionOrAuthError t =>
      Error ("Creatio returned an error page: " +:+ t +:+
             ". Your API user may need the 'CanUseODataService' permission.")
  | RequestFailure st stt body =>
      Error ("Query failed: " +:+ Text.of_Z st +:+ " " +:+ stt +:+ " - " +:+ body)
  | UnexpectedContentType t =>
      Error ("Creatio returned HTML instead of JSON: " +:+ t +:+
             ". Check that your user has OData API access permissions.")
  | MalformedResponse snippet =>
      Error ("Invalid response from Creatio. Expected JSON but received: "
             +:+ snippet +:+ "...")
  end.

Definition queryResult (response : Response) : result jsval :=
  match classifyQuery response with
  | inr v => Ok v
  | inl f => Throw (queryError f)
  end.

Definition queryRequest (base : string) (params : QueryParams)
    (hdrs : list (string * string)) : Request :=
  {| req_method := "GET";
     req_url := base +:+ "/0/odata/Account" +:+ queryString params;
     req_headers := hdrs; req_body := None |}.

Definition queryAccounts (this : nat) (params : QueryParams) : M jsval :=
  ensureAuthenticated this ;;
  let* base := baseUrl this in
  let* hdrs := getHeaders this in
  let* response := fetch (queryRequest base params hdrs) in
  lift (queryResult response).

(** *** Single-record operations *)

Definition accountUrl (base : string) (id : jsval) : string :=
  base +:+ "/0/odata/Account(" +:+ ToString id +:+ ")".

Definition failure (what : string) (response : Response) : exn :=
  Error (what +:+ " failed: " +:+ Text.of_Z (status response) +:+ " " +:+
         statusText response +:+ " - " +:+ text response).

Definition getAccountById (this : nat) (id : jsval) : M jsval :=
  ensureAuthenticated this ;;
  let* base := baseUrl this in
  let* hdrs := getHeaders this in
  let* response :=
    fetch {| req_method := "GET"; req_url := accountUrl base id;
             req_headers := hdrs; req_body := None |} in
  if status response =? 404 then ret JNull
  else if negb (ok response) then throw (failure "Get account" response)
  else response_json response.

Definition createAccount (this : nat) (account : jsval) : M jsval :=
  ensureAuthenticated this ;;
  let* base := baseUrl this in
  let* hdrs := getHeaders this in
  let* response :=
    fetch {| req_method := "POST"; req_url := base +:+ "/0/odata/Account";
             req_headers := hdrs; req_body := Some account |} in
  if negb (ok response) then throw (failure "Create account" response)
  else response_json response.

Definition updateAccount (this : nat) (id : jsval) (updates : jsval) : M unit :=
  ensureAuthenticated this ;;
  let* base := baseUrl this in
  let* hdrs := getHeaders this in
  let* response :=
    fetch {| req_method := "PATCH"; req_url := accountUrl base id;
             req_headers := hdrs; req_body := Some updates |} in
  if negb (ok response) then throw (failure "Update account" response)
  else ret tt.

Definition deleteAccount (this : nat) (id : jsval) : M unit :=
  ensureAuthenticated this ;;
  let* base := baseUrl this in
  let* hdrs := getHeaders this in
  let* response :=
    fetch {| req_method := "DELETE"; req_url := accountUrl base id;
             req_headers := hdrs; req_body := None |} in
  if negb (ok response) && negb (status response =? 204)
  then throw (failure "Delete account" response)
  else ret tt.

(** *** The module variable [currentClient] *)

Definition getCreatioClient : M (option nat) := gets currentClient.

Definition setCreatioClient (client : option nat) : M unit :=
  modify (with_currentClient client).

Definition createCreatioClient (cfg : jsval) : M nat :=
  let* client := new_CreatioClient cfg in
  setCreatioClient (Some client) ;;
  ret client.

End Client.

(** ** Tool dispatch *)

(** [MCPToolResult]; [isError] is an optional field. *)
Record ToolResult : Type := {
  content : list string;
  isError : option bool;
}.

Definition notConnected : ToolResult :=
  {| content := ["Not connected. Use test_creatio_connection first."];
     isError := Some true |}.

(** The tool functions are written twice in the repository, as the private
    methods of [MCPServer] (mcp-server.ts) and as the functions of
    mcp-sse-server.ts.  The two texts differ only in the place that holds the
    active client: [this.client] for the first, the module variable
    [currentClient] for the second.  They are embedded once, over the
    accessors of that place. *)
Section Tools.

Variable upstream : list Request -> Request -> result Response.
Variable JSON_parse : string -> result jsval.
Variable has_getSetCookie : bool.
(** [JSON.stringify(v, null, 2)]. *)
Variable JSON_stringify : jsval -> string.
(** [new Date(t).toISOString()]. *)
Variable toISOString : Z -> string.

Variable getClient : M (option nat).
Variable setClient : nat -> M unit.

Definition timestamp : M jsval :=
  let* t := Date_now in ret (JStr (toISOString t)).

Definition tool_testConnection (cfg : jsval) : M ToolResult :=
  let* client := new_CreatioClient cfg in
  let* result := testConnection upstream JSON_parse has_getSetCookie client in
  (if fst result then setClient client else ret tt) ;;
  let* ts := timestamp in
  ret {| content :=
           [JSON_stringify
              (JObj [("success", JBool (fst result));
                     ("message", JStr (snd result));
                     ("timestamp", ts)])];
         isError := Some (negb (fst result)) |}.

(** One step of [accounts.map(a => ({ Id: a.Id, ... }))]. *)
Definition summary (a : jsval) : result jsval :=
  match get_prop a "Id", get_prop a "Name", get_prop a "Phone",
        get_prop a "Email", get_prop a "Web", get_prop a "City" with
  | Ok i, Ok n, Ok p, Ok e, Ok w, Ok c =>
      Ok (JObj [("Id", i); ("Name", n); ("Phone", p);
                ("Email", e); ("Web", w); ("City", c)])
  | Throw e, _, _, _, _, _ | _, Throw e, _, _, _, _ | _, _, Throw e, _, _, _
  | _, _, _, Throw e, _, _ | _, _, _, _, Throw e, _ | _, _, _, _, _, Throw e =>
      Throw e
  end.

Fixpoint map_result {A B} (f : A -> result B) (l : list A) : result (list B) :=
  match l with
  | [] => Ok []
  | x :: rest =>
      match f x with
      | Ok y => match map_result f rest with
                | Ok ys => Ok (y :: ys)
                | Throw e => Throw e
                end
      | Throw e => Throw e
      end
  end.

(** [{ count: accounts.length, accounts: accounts.map(...) }]; only an
    array has [map]. *)
Definition summaries (accounts : jsval) : result jsval :=
  match accounts with
  | JArr items =>
      match map_result summary items with
      | Ok l => Ok (JObj [("count", JNum (Z.of_nat (length items)));
                          ("accounts", JArr l)])
      | Throw e => Throw e
      end
  | _ => Throw (TypeError "accounts.map is not a function")
  end.

Definition tool_queryAccounts (params : jsval) : M ToolResult :=
  let* client := getClient in
  match client with
  | None => ret notConnected
  | Some client =>
      let* f := lift (get_prop params "filter") in
      let* s := lift (get_prop params "select") in
      let* t := lift (get_prop params "top") in
      let* o := lift (get_prop params "orderby") in
      let* accounts :=
        queryAccounts upstream JSON_parse has_getSetCookie client
          {| q_filter := f; q_select := s; q_top := js_or t (JNum 25);
             q_skip := JUndefined; q_orderby := js_or o (JStr "Name asc");
             q_expand := JUndefined |} in
      let* listing := lift (summaries accounts) in
      ret {| content := [JSON_stringify listing]; isError := None |}
  end.

Definition tool_getAccount (id : jsval) : M ToolResult :=
  let* client := getClient in
  match client with
  | None => ret notConnected
  | Some client =>
      let* account :=
        getAccountById upstream JSON_parse has_getSetCookie client id in
      if negb (truthy account) then
        ret {| content := ["Account not found: " +:+ ToString id];
               isError := Some true |}
      else ret {| content := [JSON_stringify account]; isError := None |}
  end.

(** [if (args.k) data.K = args.k]. *)
Definition optional (K : string) (v : jsval) : list (string * jsval) :=
  if truthy v then [(K, v)] else [].

Definition arg (args : jsval) (k : string) : M jsval := lift (get_prop args k).

Definition tool_createAccount (args : jsval) : M ToolResult :=
  let* client := getClient in
  match client with
  | None => ret notConnected
  | Some client =>
      let* name := arg args "name" in
      let* phone := arg args "phone" in
      let* email := arg args "email" in
      let* web := arg args "web" in
      let* address := arg args "address" in
      let* city := arg args "city" in
      let accountData :=
        JObj ([("Name", name)] ++ optional "Phone" phone ++
              optional "Email" email ++ optional "Web" web ++
              optional "Address" address ++ optional "City" city)%list in
      let* created :=
        createAccount upstream JSON_parse has_getSetCookie client accountData in
      ret {| content :=
               [JSON_stringify
                  (JObj [("success", JBool true);
                         ("message", JStr "Account created successfully");
                         ("account", created)])];
             isError := None |}
  end.

Definition tool_updateAccount (args : jsval) : M ToolResult :=
  let* client := getClient in
  match client with
  | None => ret notConnected
  | Some client =>
      let* id := arg args "id" in
      let* name := arg args "name" in
      let* phone := arg args "phone" in
      let* email := arg args "email" in
      let* web := arg args "web" in
      let* address := arg args "address" in
      let* city := arg args "city" in
      let updates :=
        JObj (optional "Name" name ++ optional "Phone" phone ++
              optional "Email" email ++ optional "Web" web ++
              optional "Address" address ++ optional "City" city)%list in
      updateAccount upstream JSON_parse has_getSetCookie client id updates ;;
      ret {| content :=
               [JSON_stringify
                  (JObj [("success", JBool true);
                         ("message",
                          JStr ("Account " +:+ ToString id +:+
                                " updated successfully"))])];
             isError := None |}
  end.

Definition tool_deleteAccount (id : jsval) : M ToolResult :=
  let* client := getClient in
  match client with
  | None => ret notConnected
  | Some client =>
      deleteAccount upstream JSON_parse has_getSetCookie client id ;;
      ret {| content :=
               [JSON_stringify
                  (JObj [("success", JBool true);
                         ("message",
                          JStr ("Account " +:+ ToString id +:+
                                " deleted successfully"))])];
             isError := None |}
  end.

(** The [switch] of [executeTool] and of the call-tool handler. *)
Definition dispatch (name : string) (args : jsval) : M ToolResult :=
  if String.eqb name "test_creatio_connection" then tool_testConnection args
  else if String.eqb name "query_creatio_accounts" then tool_queryAccounts args
  else if String.eqb name "get_creatio_account" then
    let* id := arg args "id" in tool_getAccount id
  else if String.eqb name "create_creatio_account" then tool_createAccount args
  else if String.eqb name "update_creatio_account" then tool_updateAccount args
  else if String.eqb name "delete_creatio_account" then
    let* id := arg args "id" in tool_deleteAccount id
  else ret {| content := ["Unknown tool: " +:+ name]; isError := Some true |}.

Definition execute (name : string) (args : jsval) : M ToolResult :=
  try_catch (dispatch name args)
    (fun error =>
       ret {| content := ["Error executing " +:+ name +:+ ": " +:+
                          exn_message error];
              isError := Some true |}).

End Tools.

(** ** The two dispatchers, the connect route and the streaming routes *)

(** What a route answers: the status code and the JSON payload. *)
Record HttpResponse : Type := {
  code : Z;
  payload : jsval;
}.

(** The response object [res] of one request: [None] until an answer has
    been sent on it. *)
Definition Res : Type := option HttpResponse.

(** [res.status(c).json(p)].  Once an answer has been sent, Express throws
    when another one is attempted. *)
Definition res_json (a : HttpResponse) (res : Res) : result unit * Res :=
  match res with
  | None => (Ok tt, Some a)
  | Some _ =>
      (Throw (Error "Cannot set headers after they are sent to the client"), res)
  end.

Section Server.

Variable upstream : list Request -> Request -> result Response.
Variable JSON_parse : string -> result jsval.
Variable has_getSetCookie : bool.
Variable JSON_stringify : jsval -> string.
Variable toISOString : Z -> string.
(** The URL test behind [z.string().url()]. *)
Variable is_url : string -> bool.
(** [server.connect(transport)] of the SDK, which starts the transport on
    the response of the stream; the second argument is [res.headersSent] of
    that response at the call. *)
Variable server_connect : Transport -> bool -> result unit.
(** [SSEServerTransport.handlePostMessage(req, res)]: the transport answers
    on [res] itself and then returns or throws.  The result is whether it
    returned, what it has sent on [res] and the new world. *)
Variable handlePostMessage :
  Transport -> jsval -> World -> result unit * Res * World.

(** *** [MCPServer] (mcp-server.ts) *)

Definition MCPServer_setClient (client : nat) : M unit :=
  modify (with_mcpServer_client (Some client)).

Definition MCPServer_executeTool (name : string) (args : jsval) : M ToolResult :=
  execute upstream JSON_parse has_getSetCookie JSON_stringify toISOString
    (gets mcpServer_client) MCPServer_setClient name args.

(** *** The call-tool handler of [createMCPServer] (mcp-sse-server.ts) *)

Definition callTool (name : string) (args : jsval) : M ToolResult :=
  execute upstream JSON_parse has_getSetCookie JSON_stringify toISOString
    getCreatioClient (fun client => setCreatioClient (Some client)) name args.

(** *** [POST /api/creatio/connect] and [POST /api/creatio/disconnect] *)

Definition ZodError : exn := Exn "ZodError" "Invalid configuration".

(** [creatioConfigSchema.parse]: an object with a URL [baseUrl] and
    non-empty [username] and [password]; other keys are dropped. *)
Definition creatioConfigSchema_parse (body : jsval) : result jsval :=
  match body with
  | JObj fields =>
      match assoc "baseUrl" fields, assoc "username" fields,
            assoc "password" fields with
      | Some (JStr b), Some (JStr u), Some (JStr p) =>
          if is_url b && Text.nonempty u && Text.nonempty p
          then Ok (JObj [("baseUrl", JStr b); ("username", JStr u);
                         ("password", JStr p)])
          else Throw ZodError
      | _, _, _ => Throw ZodError
      end
  | _ => Throw ZodError
  end.

Definition route_connect (body : jsval) : M HttpResponse :=
  try_catch
    (let* validatedConfig := lift (creatioConfigSchema_parse body) in
     let* client := createCreatioClient validatedConfig in
     let* result := testConnection upstream JSON_parse has_getSetCookie client in
     (if fst result then MCPServer_setClient client else ret tt) ;;
     let* ts := timestamp toISOString in
     ret {| code := 200;
            payload := JObj [("success", JBool (fst result));
                             ("message", JStr (snd result));
                             ("timestamp", ts)] |})
    (fun error =>
       if String.eqb (exn_name error) "ZodError" then
         ret {| code := 400;
                payload := JObj [("success", JBool false);
                                 ("error", JStr "Invalid configuration provided")] |}
       else
         ret {| code := 500;
                payload := JObj [("success", JBool false);
                                 ("error", JStr (exn_message error))] |}).

Definition route_disconnect : M HttpResponse :=
  setCreatioClient None ;;
  ret {| code := 200;
         payload := JObj [("success", JBool true);
                          ("message", JStr "Disconnected from Creatio")] |}.

(** *** [GET /mcp/sse], its close event, [POST /mcp/messages] *)

(** The listener of the [close] event of a stream (lines 512-516); the
    [server.close()] of the SDK is not modelled. *)
Definition sse_close (sessionId : string) : M unit :=
  modify (fun w =>
    with_activeTransports (delete sessionId (activeTransports w)) w).

(** The handler of [/mcp/sse]; [sessionId] is the value drawn by
    [crypto.randomUUID()] and [transport] the object of line 499.  Lines
    489-493 set the headers of the stream and flush them, so
    [res.headersSent] is true when [server.connect] is called.  The value
    returned is the listener that line 512 registers on the request: when
    [server.connect] throws, the handler ends there and no listener is
    registered.  What is written on the stream is not modelled. *)
Definition sse_open (sessionId : string) (transport : Transport) : M (M unit) :=
  modify (fun w =>
    with_activeTransports (<[sessionId := transport]> (activeTransports w)) w) ;;
  lift (server_connect transport true) ;;
  ret (sse_close sessionId).

(** The [close] event of the request of a stream whose handler has ended
    with [handled]: the listener runs, if one was registered. *)
Definition close_event (handled : result (M unit)) : M unit :=
  match handled with
  | Ok listener => listener
  | Throw _ => ret tt
  end.

Definition sessionRequired : HttpResponse :=
  {| code := 400; payload := JObj [("error", JStr "Session ID required")] |}.

Definition sessionNotFound : HttpResponse :=
  {| code := 404; payload := JObj [("error", JStr "Session not found")] |}.

Definition internalError : HttpResponse :=
  {| code := 500; payload := JObj [("error", JStr "Internal server error")] |}.

(** The handler of [POST /mcp/messages]; [sessionId] is
    [req.query.sessionId], [None] when the query has no such parameter.  The
    result is whether the handler returned or threw, what was sent on [res],
    and the new world. *)
Definition post_messages (sessionId : option string) (message : jsval)
    (w : World) : result unit * Res * World :=
  match sessionId with
  | None => (res_json sessionRequired None, w)
  | Some sid =>
      if negb (Text.nonempty sid) then (res_json sessionRequired None, w)
      else
        match activeTransports w !! sid with
        | None => (res_json sessionNotFound None, w)
        | Some transport =>
            match handlePostMessage transport message w with
            | (Ok _, res, w') => (Ok tt, res, w')
            | (Throw _, res, w') => (res_json internalError res, w')
            end
        end
  end.

(** [activeSessions] of [GET /mcp/health]. *)
Definition activeSessions : M nat := gets (fun w => size (activeTransports w)).

End Server.

(** ** The request/response routes of routes.ts *)

(** The routes for single records, [/api/mcp/execute] and [/api/health].
    ([/api/creatio/accounts/query] calls [parseInt], whose NaN result has no
    counterpart among the integer numbers of [jsval]; [/api/mcp/tools] only
    serialises the registry.) *)
Section Routes.

Variable upstream : list Request -> Request -> result Response.
Variable JSON_parse : string -> result jsval.
Variable has_getSetCookie : bool.
Variable JSON_stringify : jsval -> string.
Variable toISOString : Z -> string.

Definition notConnectedResponse : HttpResponse :=
  {| code := 401;
     payload := JObj [("success", JBool false);
                      ("error", JStr "Not connected to Creatio. Please connect first.")] |}.

(** The [catch] branch of the routes: every exception of the model is an
    [Error], so the message is the exception's. *)
Definition serverError (error : exn) : M HttpResponse :=
  ret {| code := 500;
         payload := JObj [("success", JBool false);
                          ("error", JStr (exn_message error))] |}.

(** [GET /api/creatio/accounts/:id]. *)
Definition route_getAccount (id : string) : M HttpResponse :=
  try_catch
    (let* client := getCreatioClient in
     match client with
     | None => ret notConnectedResponse
     | Some client =>
         let* account :=
           getAccountById upstream JSON_parse has_getSetCookie client (JStr id) in
         if negb (truthy account) then
           ret {| code := 404;
                  payload := JObj [("success", JBool false);
                                   ("error", JStr "Account not found")] |}
         else
           ret {| code := 200;
                  payload := JObj [("success", JBool true); ("data", account)] |}
     end)
    serverError.

(** [POST /api/creatio/accounts]; [body] is [req.body]. *)
Definition route_createAccount (body : jsval) : M HttpResponse :=
  try_catch
    (let* client := getCreatioClient in
     match client with
     | None => ret notConnectedResponse
     | Some client =>
         let* name := lift (get_prop body "Name") in
         if negb (truthy name) then
           ret {| code := 400;
                  payload := JObj [("success", JBool false);
                                   ("error", JStr "Account name is required")] |}
         else
           let* account :=
             createAccount upstream JSON_parse has_getSetCookie client body in
           ret {| code := 201;
                  payload := JObj [("success", JBool true); ("data", account)] |}
     end)
    serverError.

(** [PATCH /api/creatio/accounts/:id]. *)
Definition route_updateAccount (id : string) (body : jsval) : M HttpResponse :=
  try_catch
    (let* client := getCreatioClient in
     match client with
     | None => ret notConnectedResponse
     | Some client =>
         updateAccount upstream JSON_parse has_getSetCookie client (JStr id) body ;;
         ret {| code := 200;
                payload := JObj [("success", JBool true);
                                 ("message", JStr "Account updated successfully")] |}
     end)
    serverError.

(** [DELETE /api/creatio/accounts/:id]. *)
Definition route_deleteAccount (id : string) : M HttpResponse :=
  try_catch
    (let* client := getCreatioClient in
     match client with
     | None => ret notConnectedResponse
     | Some client =>
         deleteAccount upstream JSON_parse has_getSetCookie client (JStr id) ;;
         ret {| code := 200;
                payload := JObj [("success", JBool true);
                                 ("message", JStr "Account deleted successfully")] |}
     end)
    serverError.

(** [mcpServer.executeTool(tool, args)] for a [tool] that is any value: the
    [switch] compares with [===], so a value that is not a text reaches the
    default branch. *)
Definition executeTool_of (tool : jsval) (args : jsval) : M ToolResult :=
  match tool with
  | JStr name =>
      MCPServer_executeTool upstream JSON_parse has_getSetCookie JSON_stringify
        toISOString name args
  | _ => ret {| content := ["Unknown tool: " +:+ ToString tool];
                isError := Some true |}
  end.

(** [result.content] as it is serialised. *)
Definition blocks (t : ToolResult) : jsval :=
  JArr (List.map (fun x => JObj [("type", JStr "text"); ("text", JStr x)])
          (content t)).

(** [!result.isError] and [result.isError]. *)
Definition succeeded (t : ToolResult) : bool :=
  match isError t with
  | Some b => negb b
  | None => true
  end.

Definition isError_value (t : ToolResult) : jsval :=
  match isError t with
  | Some b => JBool b
  | None => JUndefined
  end.

(** [POST /api/mcp/execute]. *)
Definition route_execute (body : jsval) : M HttpResponse :=
  try_catch
    (let* tool := lift (get_prop body "tool") in
     let* args := lift (get_prop body "args") in
     if negb (truthy tool) then
       ret {| code := 400;
              payload := JObj [("success", JBool false);
                               ("error", JStr "Tool name is required")] |}
     else
       let* result := executeTool_of tool (js_or args (JObj [])) in
       ret {| code := 200;
              payload := JObj [("success", JBool (succeeded result));
                               ("result", blocks result);
                               ("isError", isError_value result)] |})
    serverError.

(** [GET /api/health]. *)
Definition route_health : M HttpResponse :=
  let* client := getCreatioClient in
  let* ts := timestamp toISOString in
  ret {| code := 200;
         payload := JObj [("status", JStr "healthy"); ("timestamp", ts);
                          ("creatioConnected", JBool (bool_decide (is_Some client)));
                          ("version", JStr "1.0.0")] |}.

End Routes.

(** ** The tool catalogue, as declared in three places *)

(** A double quote, for the descriptions that contain one. *)
Definition dq : string := String "034"%char EmptyString.

(** The declared surface of one parameter: its name, its type and whether it
    is required; and of one tool: its name and its parameters. *)
Definition Param : Type := string * string * bool.
Definition Shape : Type := string * list Param.

(** [MCPTool] and [MCP_TOOLS] of mcp-server.ts, served by [/api/mcp/tools]
    and by [MCPServer.getTools]. *)
Module Registry.

Record Property : Type := {
  prop_type : string;
  prop_description : string;
}.

Record InputSchema : Type := {
  schema_type : string;
  properties : list (string * Property);
  required : option (list string);
}.

Record MCPTool : Type := {
  name : string;
  description : string;
  inputSchema : InputSchema;
}.

Definition MCP_TOOLS : list MCPTool := [
  {| name := "test_creatio_connection";
     description :=
       "Test connection to a Creatio CRM instance using Forms authentication";
     inputSchema := {|
       schema_type := "object";
       properties := [
         ("baseUrl",
          {| prop_type := "string";
             prop_description :=
               "The base URL of the Creatio instance (e.g., https://yourcompany.creatio.com)" |});
         ("username",
          {| prop_type := "string";
             prop_description :=
               "Creatio username for authentication" |});
         ("password",
          {| prop_type := "string";
             prop_description :=
               "Creatio password for authentication" |}) ];
       required := Some ["baseUrl"; "username"; "password"] |} |};
  {| name := "query_creatio_accounts";
     description :=
       "Query Creatio Account (Customer) records with OData filter expressions";
     inputSchema := {|
       schema_type := "object";
       properties := [
         ("filter",
          {| prop_type := "string";
             prop_description :=
               "OData $filter expression (e.g., " +:+ dq
               +:+ "contains(Name,'Tech')" +:+ dq +:+ " or " +:+ dq
               +:+ "Name eq 'Acme'" +:+ dq +:+ ")" |});
         ("select",
          {| prop_type := "string";
             prop_description :=
               "Comma-separated list of fields to return (e.g., " +:+ dq
               +:+ "Id,Name,Phone,Email" +:+ dq +:+ ")" |});
         ("top",
          {| prop_type := "number";
             prop_description :=
               "Maximum number of records to return (1-100, default 25)" |});
         ("orderby",
          {| prop_type := "string";
             prop_description :=
               "Sort order (e.g., " +:+ dq +:+ "Name asc" +:+ dq
               +:+ " or " +:+ dq +:+ "CreatedOn desc" +:+ dq +:+ ")" |}) ];
       required := None |} |};
  {| name := "get_creatio_account";
     description :=
       "Get a single Creatio Account by its unique ID (GUID)";
     inputSchema := {|
       schema_type := "object";
       properties := [
         ("id",
          {| prop_type := "string";
             prop_description :=
               "The GUID of the account to retrieve" |}) ];
       required := Some ["id"] |} |};
  {| name := "create_creatio_account";
     description :=
       "Create a new Account record in Creatio CRM";
     inputSchema := {|
       schema_type := "object";
       properties := [
         ("name",
          {| prop_type := "string";
             prop_description :=
               "Account/Company name (required)" |});
         ("phone",
          {| prop_type := "string";
             prop_description :=
               "Primary phone number" |});
         ("email",
          {| prop_type := "string";
             prop_description :=
               "Primary email address" |});
         ("web",
          {| prop_type := "string";
             prop_description :=
               "Website URL" |});
         ("address",
          {| prop_type := "string";
             prop_description :=
               "Street address" |});
         ("city",
          {| prop_type := "string";
             prop_description :=
               "City" |}) ];
       required := Some ["name"] |} |};
  {| name := "update_creatio_account";
     description :=
       "Update an existing Account record in Creatio CRM";
     inputSchema := {|
       schema_type := "object";
       properties := [
         ("id",
          {| prop_type := "string";
             prop_description :=
               "The GUID of the account to update" |});
         ("name",
          {| prop_type := "string";
             prop_description :=
               "Account/Company name" |});
         ("phone",
          {| prop_type := "string";
             prop_description :=
               "Primary phone number" |});
         ("email",
          {| prop_type := "string";
             prop_description :=
               "Primary email address" |});
         ("web",
          {| prop_type := "string";
             prop_description :=
               "Website URL" |});
         ("address",
          {| prop_type := "string";
             prop_description :=
               "Street address" |});
         ("city",
          {| prop_type := "string";
             prop_description :=
               "City" |}) ];
       required := Some ["id"] |} |};
  {| name := "delete_creatio_account";
     description :=
       "Delete an Account record from Creatio CRM";
     inputSchema := {|
       schema_type := "object";
       properties := [
         ("id",
          {| prop_type := "string";
             prop_description :=
               "The GUID of the account to delete" |}) ];
       required := Some ["id"] |} |} ].

Definition is_required (t : MCPTool) (k : string) : bool :=
  existsb (String.eqb k) (default [] (required (inputSchema t))).

Definition shape (t : MCPTool) : Shape :=
  (name t,
   List.map (fun kp => (fst kp, prop_type (snd kp), is_required t (fst kp)))
     (properties (inputSchema t))).

End Registry.

(** The list answered by the list-tools handler of [createMCPServer]
    (mcp-sse-server.ts). *)
Module Streaming.
Import Registry.

Definition listTools : list MCPTool := [
  {| name := "test_creatio_connection";
     description :=
       "Test connection to a Creatio CRM instance using Forms authentication";
     inputSchema := {|
       schema_type := "object";
       properties := [
         ("baseUrl",
          {| prop_type := "string";
             prop_description :=
               "The base URL of the Creatio instance (e.g., https://yourcompany.creatio.com)" |});
         ("username",
          {| prop_type := "string";
             prop_description :=
               "Creatio username for authentication" |});
         ("password",
          {| prop_type := "string";
             prop_description :=
               "Creatio password for authentication" |}) ];
       required := Some ["baseUrl"; "username"; "password"] |} |};
  {| name := "query_creatio_accounts";
     description :=
       "Query Creatio Account (Customer) records with OData filter expressions";
     inputSchema := {|
       schema_type := "object";
       properties := [
         ("filter",
          {| prop_type := "string";
             prop_description :=
               "OData $filter expression (e.g., " +:+ dq
               +:+ "contains(Name,'Tech')" +:+ dq +:+ " or " +:+ dq
               +:+ "Name eq 'Acme'" +:+ dq +:+ ")" |});
         ("select",
          {| prop_type := "string";
             prop_description :=
               "Comma-separated list of fields to return (e.g., " +:+ dq
               +:+ "Id,Name,Phone,Email" +:+ dq +:+ ")" |});
         ("top",
          {| prop_type := "number";
             prop_description :=
               "Maximum number of records to return (1-100, default 25)" |});
         ("orderby",
          {| prop_type := "string";
             prop_description :=
               "Sort order (e.g., " +:+ dq +:+ "Name asc" +:+ dq
               +:+ " or " +:+ dq +:+ "CreatedOn desc" +:+ dq +:+ ")" |}) ];
       required := None |} |};
  {| name := "get_creatio_account";
     description :=
       "Get a single Creatio Account by its unique ID (GUID)";
     inputSchema := {|
       schema_type := "object";
       properties := [
         ("id",
          {| prop_type := "string";
             prop_description :=
               "The GUID of the account to retrieve" |}) ];
       required := Some ["id"] |} |};
  {| name := "create_creatio_account";
     description :=
       "Create a new Account record in Creatio CRM";
     inputSchema := {|
       schema_type := "object";
       properties := [
         ("name",
          {| prop_type := "string";
             prop_description :=
               "Account/Company name (required)" |});
         ("phone",
          {| prop_type := "string";
             prop_description :=
               "Primary phone number" |});
         ("email",
          {| prop_type := "string";
             prop_description :=
               "Primary email address" |});
         ("web",
          {| prop_type := "string";
             prop_description :=
               "Website URL" |});
         ("address",
          {| prop_type := "string";
             prop_description :=
               "Street address" |});
         ("city",
          {| prop_type := "string";
             prop_description :=
               "City" |}) ];
       required := Some ["name"] |} |};
  {| name := "update_creatio_account";
     description :=
       "Update an existing Account record in Creatio CRM";
     inputSchema := {|
       schema_type := "object";
       properties := [
         ("id",
          {| prop_type := "string";
             prop_description :=
               "The GUID of the account to update" |});
         ("name",
          {| prop_type := "string";
             prop_description :=
               "Account/Company name" |});
         ("phone",
          {| prop_type := "string";
             prop_description :=
               "Primary phone number" |});
         ("email",
          {| prop_type := "string";
             prop_description :=
               "Primary email address" |});
         ("web",
          {| prop_type := "string";
             prop_description :=
               "Website URL" |});
         ("address",
          {| prop_type := "string";
             prop_description :=
               "Street address" |});
         ("city",
          {| prop_type := "string";
             prop_description :=
               "City" |}) ];
       required := Some ["id"] |} |};
  {| name := "delete_creatio_account";
     description :=
       "Delete an Account record from Creatio CRM";
     inputSchema := {|
       schema_type := "object";
       properties := [
         ("id",
          {| prop_type := "string";
             prop_description :=
               "The GUID of the account to delete" |}) ];
       required := Some ["id"] |} |} ].

End Streaming.

(** [MCPTool] and [mcpTools] of the dashboard panel (mcp-tools-panel.tsx). *)
Module Panel.

Record ParamDecl : Type := {
  type : string;
  param_description : string;
  required : option bool;
}.

Record MCPTool : Type := {
  name : string;
  description : string;
  parameters : list (string * ParamDecl);
}.

Definition mcpTools : list MCPTool := [
  {| name := "query_creatio_accounts";
     description := "Query Creatio Account (Customer) records with OData filters";
     parameters := [
       ("filter",
        {| type := "string";
           param_description := "OData $filter expression (e.g., contains(Name,'Tech'))";
           required := Some false |});
       ("select",
        {| type := "string";
           param_description := "Comma-separated fields to return";
           required := Some false |});
       ("top",
        {| type := "number";
           param_description := "Maximum number of records (1-100)";
           required := Some false |});
       ("orderby",
        {| type := "string";
           param_description := "Sort order (e.g., 'Name asc')";
           required := Some false |}) ] |};
  {| name := "get_creatio_account";
     description := "Get a single Creatio Account by ID";
     parameters := [
       ("id",
        {| type := "string";
           param_description := "The GUID of the account to retrieve";
           required := Some true |}) ] |};
  {| name := "test_creatio_connection";
     description := "Test connection to Creatio instance";
     parameters := [
       ("baseUrl",
        {| type := "string";
           param_description := "Creatio instance URL";
           required := Some true |});
       ("username",
        {| type := "string";
           param_description := "Creatio username";
           required := Some true |});
       ("password",
        {| type := "string";
           param_description := "Creatio password";
           required := Some true |}) ] |} ].

(** The panel shows the badge when [param.required] is truthy. *)
Definition shape (t : MCPTool) : Shape :=
  (name t,
   List.map (fun kp => (fst kp, type (snd kp), default false (required (snd kp))))
     (parameters t)).

End Panel.

(** Two parameter lists declare the same parameters. *)
Definition same_params (ps qs : list Param) : Prop :=
  forall x : Param, In x ps <-> In x qs.

(** Every tool of catalogue [A] is in catalogue [B] under the same name and
    with the same parameters. *)
Definition covered (A B : list Shape) : Prop :=
  forall n ps, In (n, ps) A -> exists qs, In (n, qs) B /\ same_params ps qs.

Definition agree (A B : list Shape) : Prop := covered A B /\ covered B A.

(** ** Vocabulary of the statements *)

(** The two dispatchers and the place where each keeps the active client. *)
Inductive Dispatcher : Type :=
| ViaRegistry   (* MCPServer.executeTool, behind /api/mcp/execute *)
| ViaStream.    (* the call-tool handler of the streaming server *)

Definition activeClient (d : Dispatcher) (w : World) : option nat :=
  match d with
  | ViaRegistry => mcpServer_client w
  | ViaStream => currentClient w
  end.

Section Run.

Variable upstream : list Request -> Request -> result Response.
Variable JSON_parse : string -> result jsval.
Variable has_getSetCookie : bool.
Variable JSON_stringify : jsval -> string.
Variable toISOString : Z -> string.

Definition run (d : Dispatcher) : string -> jsval -> M ToolResult :=
  match d with
  | ViaRegistry =>
      MCPServer_executeTool upstream JSON_parse has_getSetCookie
        JSON_stringify toISOString
  | ViaStream =>
      callTool upstream JSON_parse has_getSetCookie JSON_stringify toISOString
  end.

End Run.

(** One connection to [/mcp/sse], from its request to the [close] event of
    that request. *)
Definition register_then_close (server_connect : Transport -> bool -> result unit)
    (sessionId : string) (transport : Transport) : M unit :=
  fun w =>
    close_event (fst (sse_open server_connect sessionId transport w))
      (snd (sse_open server_connect sessionId transport w)).

(** What a request handler has sent on [res]. *)
Definition delivered (handled : result unit * Res * World) : Res :=
  snd (fst handled).

(** A response that declares HTML, in the words of the claim: the media type
    of its content type, the text before the first semicolon without
    surrounding blanks, is [text/html]; media types do not distinguish
    letter case. *)
Fixpoint lower (s : string) : string :=
  match s with
  | EmptyString => EmptyString
  | String c s' => String (Text.to_lower c) (lower s')
  end.

Definition mediaType (contentType : string) : string :=
  lower (Text.trim (fst (Text.span (Text.not_char ";") contentType))).

Definition declaresHtml (response : Response) : bool :=
  match content_type response with
  | Some contentType => String.eqb (mediaType contentType) "text/html"
  | None => false
  end.

(** The names of the registry. *)
Definition toolNames : list string := List.map Registry.name Registry.MCP_TOOLS.

(** The login exchange of [authenticate], read off the world. *)
Section Login.

Variable upstream : list Request -> Request -> result Response.
Variable JSON_parse : string -> result jsval.
Variable has_getSetCookie : bool.

(** The request that [authenticate] sends for the client [this], when it
    gets as far as sending one. *)
Definition loginRequestOf (this : nat) (w : World) : option Request :=
  match baseUrl this w with
  | (Ok base, _) =>
      match loginRequest base (config (clients w this)) with
      | Ok r => Some r
      | Throw _ => None
      end
  | (Throw _, _) => None
  end.

(** The response to it, unless [fetch] rejects. *)
Definition loginResponse (this : nat) (w : World) : option Response :=
  match loginRequestOf this w with
  | Some r => match upstream (sent w) r with
              | Ok response => Some response
              | Throw _ => None
              end
  | None => None
  end.

(** A failed login: a non-success status, a body that does not parse, or a
    body whose [Code] is not the number zero. *)
Definition loginFails (response : Response) : bool :=
  negb (ok response) ||
  match JSON_parse (text response) with
  | Throw _ => true
  | Ok result =>
      match get_prop result "Code" with
      | Ok c => negb (is_zero c)
      | Throw _ => true
      end
  end.

(** The session built from a login response at instant [t]. *)
Definition newSession (response : Response) (t : Z) : CreatioSession :=
  {| cookies := fst (Cookies.fromResponse has_getSetCookie (set_cookie response));
     csrfToken := snd (Cookies.fromResponse has_getSetCookie (set_cookie response));
     expiresAt := t + sessionTimeout |}.

End Login.

(** ** The query string as the schema types its parameters *)

(** [QueryParams] with the types of [queryParamsSchema]: texts and integers,
    each optional. *)
Record TypedParams : Type := {
  t_filter : option string;
  t_select : option string;
  t_top : option Z;
  t_skip : option Z;
  t_orderby : option string;
  t_expand : option string;
}.

Definition ofText (o : option string) : jsval :=
  match o with Some s => JStr s | None => JUndefined end.

Definition ofNumber (o : option Z) : jsval :=
  match o with Some n => JNum n | None => JUndefined end.

Definition untyped (p : TypedParams) : QueryParams :=
  {| q_filter := ofText (t_filter p); q_select := ofText (t_select p);
     q_top := ofNumber (t_top p); q_skip := ofNumber (t_skip p);
     q_orderby := ofText (t_orderby p); q_expand := ofText (t_expand p) |}.








Definition noParams : TypedParams :=
  {| t_filter := None; t_select := None; t_top := None; t_skip := None;
     t_orderby := None; t_expand := None |}.



(** ** Cookie extraction, header by header *)

Module CookieSpec.
Import Text Cookies.

(** The trimmed name and value of a header line, when the pattern of
    line 71 matches it. *)
Definition parsed (cookieHeader : string) : option (string * string) :=
  match cookieMatch cookieHeader with
  | Some (n, v) => Some (trim n, trim v)
  | None => None
  end.

Definition render (nv : string * string) : string :=
  fst nv +:+ "=" +:+ snd nv.

(** The pairs kept from a list of header lines, in their order. *)
Fixpoint kept (headers : list string) : list (string * string) :=
  match headers with
  | [] => []
  | h :: rest =>
      match parsed h with
      | Some nv => if is_known (fst nv) then nv :: kept rest else kept rest
      | None => kept rest
      end
  end.

(** The value of the last header named [BPMCSRF], or [tok] without one. *)
Fixpoint direct (headers : list string) (tok : string) : string :=
  match headers with
  | [] => tok
  | h :: rest =>
      match parsed h with
      | Some nv => direct rest (if String.eqb (fst nv) "BPMCSRF" then snd nv else tok)
      | None => direct rest tok
      end
  end.

End CookieSpec.

(** The three catalogues as shapes, and the agreement that is claimed. *)
Definition registryShapes : list Shape := List.map Registry.shape Registry.MCP_TOOLS.
Definition streamingShapes : list Shape := List.map Registry.shape Streaming.listTools.
Definition panelShapes : list Shape := List.map Panel.shape Panel.mcpTools.

Definition cataloguesAgree : Prop :=
  agree registryShapes streamingShapes /\
  agree registryShapes panelShapes /\
  agree streamingShapes panelShapes.

(** ** Requests sent during a run *)

(** The login request of [authenticate]. *)
Definition isLogin (r : Request) : Prop :=
  req_method r = "POST" /\
  exists u p, req_body r = Some (JObj [("UserName", u); ("UserPassword", p)]).

(** From [w] to [w'] the log of requests grew by requests that satisfy [P]. *)
Definition sends (P : Request -> Prop) (w w' : World) : Prop :=
  exists l, sent w' = (sent w ++ l)%list /\ Forall P l.

(** The requests handed to [fetch] while [m] runs from [w]. *)
Definition requestsOf {A} (m : M A) (w : World) : list Request :=
  skipn (length (sent w)) (sent (snd (m w))).

(** A login request, or the request of the data operation with the given
    method and body. *)
Definition carries (method : string) (body : jsval) (r : Request) : Prop :=
  isLogin r \/ (req_method r = method /\ req_body r = Some body).

(** The optional fields of the two writing tools: the tool, the name of the
    argument and the name of the record field. *)
Definition optionalFields : list (string * (string * string)) :=
  [("create_creatio_account", ("phone", "Phone"));
   ("create_creatio_account", ("email", "Email"));
   ("create_creatio_account", ("web", "Web"));
   ("create_creatio_account", ("address", "Address"));
   ("create_creatio_account", ("city", "City"));
   ("update_creatio_account", ("name", "Name"));
   ("update_creatio_account", ("phone", "Phone"));
   ("update_creatio_account", ("email", "Email"));
   ("update_creatio_account", ("web", "Web"));
   ("update_creatio_account", ("address", "Address"));
   ("update_creatio_account", ("city", "City"))].

(** What the create tool and the update tool send for an argument bag. *)
Definition createBody (args : jsval) (r : Request) : Prop :=
  isLogin r \/
  exists name phone email web address city,
    get_prop args "phone" = Ok phone /\ get_prop args "email" = Ok email /\
    get_prop args "web" = Ok web /\ get_prop args "address" = Ok address /\
    get_prop args "city" = Ok city /\
    req_method r = "POST" /\
    req_body r
    = Some (JObj ([("Name", name)] ++ optional "Phone" phone ++
                  optional "Email" email ++ optional "Web" web ++
                  optional "Address" address ++ optional "City" city)%list).

Definition updateBody (args : jsval) (r : Request) : Prop :=
  isLogin r \/
  exists name phone email web address city,
    get_prop args "name" = Ok name /\
    get_prop args "phone" = Ok phone /\ get_prop args "email" = Ok email /\
    get_prop args "web" = Ok web /\ get_prop args "address" = Ok address /\
    get_prop args "city" = Ok city /\
    req_method r = "PATCH" /\
    req_body r
    = Some (JObj (optional "Name" name ++ optional "Phone" phone ++
                  optional "Email" email ++ optional "Web" web ++
                  optional "Address" address ++ optional "City" city)%list).

(** The request has no field [K] in its body, and if it is a partial update
    none of its fields is the empty text. *)
Definition omits (K : string) (req : Request) : Prop :=
  (forall body, req_body req = Some body -> ~ In K (keys body)) /\
  (req_method req = "PATCH" ->
   forall fields K' v', req_body req = Some (JObj fields) ->
                        In (K', v') fields -> v' <> JStr "").

(** ** Postconditions *)

(** [wp m Q w]: running [m] from [w] ends, with a value or an exception, in
    a world that satisfies [Q]. *)
Definition wp {A} (m : M A) (Q : result A -> World -> Prop) (w : World) : Prop :=
  Q (fst (m w)) (snd (m w)).

(** ** A concrete world for the examples *)

Module Sample.

Definition emptyClient : CreatioClient :=
  {| config := JUndefined; session := None |}.

(** A freshly started process at instant [1000]. *)
Definition boot : World :=
  {| now := 1000; clients := fun _ => emptyClient; allocated := 0%nat;
     currentClient := None; mcpServer_client := None;
     activeTransports := ∅; sent := [] |}.

(** A parser that knows the two login bodies used below. *)
Definition parse (s : string) : result jsval :=
  if String.eqb s "accepted" then Ok (JObj [("Code", JNum 0)])
  else if String.eqb s "rejected"
       then Ok (JObj [("Code", JNum 1); ("Message", JStr "Invalid credentials")])
       else Throw (Exn "SyntaxError" "Unexpected token").

Definition stringify (v : jsval) : string := ToString v.
Definition iso (t : Z) : string := Text.of_Z t.
Definition any_url (s : string) : bool := String.prefix "https://" s.

Definition reply (st : Z) (stt body : string) (ctype : option string)
    (cookies : list string) : Response :=
  {| status := st; statusText := stt; content_type := ctype;
     set_cookie := cookies; text := body |}.

Definition loginCookies : list string :=
  ["BPMCSRF=tok; path=/"; ".ASPXAUTH=ticket; path=/; HttpOnly";
   "BPMLOADER=ld; path=/"; "UserName=sup; path=/"].

(** An upstream that refuses every login with status 401. *)
Definition refusing (_ : list Request) (_ : Request) : result Response :=
  Ok (reply 401 "Unauthorized" "" None []).

(** An upstream that answers every login with a non-zero [Code]. *)
Definition rejecting (_ : list Request) (_ : Request) : result Response :=
  Ok (reply 200 "OK" "rejected" (Some "application/json") []).

(** An upstream that accepts every login and every other request. *)
Definition accepting (_ : list Request) (r : Request) : result Response :=
  if String.eqb (req_method r) "POST" && Text.includes "/Login" (req_url r)
  then Ok (reply 200 "OK" "accepted" (Some "application/json") loginCookies)
  else Ok (reply 200 "OK" "accepted" (Some "application/json") []).

Definition goodConfig : jsval :=
  JObj [("baseUrl", JStr "https://crm.example.com/");
        ("username", JStr "sup"); ("password", JStr "secret")].

(** The process after a client was connected long ago: its session
    expired at instant [5]. *)
Definition stale : World :=
  {| now := 1000;
     clients := fun _ =>
       {| config := goodConfig;
          session := Some {| cookies := "BPMCSRF=old"; csrfToken := "old";
                             expiresAt := 5 |} |};
     allocated := 1%nat;
     currentClient := Some 0%nat; mcpServer_client := Some 0%nat;
     activeTransports := ∅; sent := [] |}.

(** The process with a connected client whose session is still valid. *)
Definition fresh : World :=
  {| now := 1000;
     clients := fun _ =>
       {| config := goodConfig;
          session := Some {| cookies := "BPMCSRF=tok"; csrfToken := "tok";
                             expiresAt := 5000 |} |};
     allocated := 1%nat;
     currentClient := Some 0%nat; mcpServer_client := Some 0%nat;
     activeTransports := ∅; sent := [] |}.

(** An upstream that answers everything with its sign-in page, status 200. *)
Definition loginPage (_ : list Request) (_ : Request) : result Response :=
  Ok (reply 200 "OK" "<html><title>Sign in</title></html>"
        (Some "text/html; charset=utf-8") []).

(** An upstream that answers everything with its sign-in page, status 200,
    and spells the media type with capital letters. *)
Definition capitalised (_ : list Request) (_ : Request) : result Response :=
  Ok (reply 200 "OK" "<html><title>Sign in</title></html>"
        (Some "Text/HTML; charset=utf-8") []).

(** An upstream that accepts the login and answers every other request with
    its sign-in page, status 200. *)
Definition pageAfterLogin (log : list Request) (r : Request) : result Response :=
  if String.eqb (req_method r) "POST" then accepting log r else loginPage log r.

(** A parser that reads every text as an empty record set. *)
Definition lenient (_ : string) : result jsval := Ok (JObj [("value", JArr [])]).

(** A transport that accepts every message. *)
Definition handle (_ : Transport) (_ : jsval) (w : World)
  : result unit * Res * World :=
  (Ok tt, Some {| code := 202; payload := JStr "Accepted" |}, w).

(** A [server.connect] that starts every transport. *)
Definition attach (_ : Transport) (_ : bool) : result unit := Ok tt.

(** A [server.connect] whose transport writes the head of the response when
    it starts, as [SSEServerTransport.start] does with [res.writeHead]: it
    throws when the headers were already sent. *)
Definition start (_ : Transport) (headersSent : bool) : result unit :=
  if headersSent
  then Throw (Error "Cannot write headers after they are sent to the client")
  else Ok tt.

(** A transport that was never started: it answers 500 itself and throws. *)
Definition unstarted (_ : Transport) (_ : jsval) (w : World)
  : result unit * Res * World :=
  (Throw (Error "SSE connection not established"),
   Some {| code := 500; payload := JStr "SSE connection not established" |}, w).

End Sample.

(** ** Vocabulary of the further properties *)

(** Every character of the text satisfies [p]. *)
Fixpoint all_chars (p : ascii -> bool) (s : string) : bool :=
  match s with
  | EmptyString => true
  | String c s' => p c && all_chars p s'
  end.

Fixpoint last_char (s : string) : option ascii :=
  match s with
  | EmptyString => None
  | String c EmptyString => Some c
  | String _ s' => last_char s'
  end.

(** A [Set-Cookie] line that the split pattern does not cut, and a line
    that the pattern takes for the start of a cookie when it follows a comma
    and a space. *)
Definition uncut (line : string) : Prop := Cookies.split line = [line].
Definition named (line : string) : Prop :=
  Cookies.lookahead (String " " line) = true.

(** The headers that [getHeaders] builds from a session. *)
Definition sessionHeaders (s : CreatioSession) : list (string * string) :=
  [("Accept", "application/json");
   ("Content-Type", "application/json; charset=utf-8; IEEE754Compatible=true");
   ("ForceUseSession", "true");
   ("BPMCSRF", csrfToken s);
   ("Cookie", cookies s)].

(** The five data operations of the client, with their arguments. *)
Inductive Operation : Type :=
| OpQuery (params : QueryParams)
| OpGet (id : jsval)
| OpCreate (account : jsval)
| OpUpdate (id updates : jsval)
| OpDelete (id : jsval).

Section Perform.

Variable upstream : list Request -> Request -> result Response.
Variable JSON_parse : string -> result jsval.
Variable has_getSetCookie : bool.

(** Run an operation and drop its value. *)
Definition perform (op : Operation) (this : nat) : M unit :=
  match op with
  | OpQuery params =>
      queryAccounts upstream JSON_parse has_getSetCookie this params ;; ret tt
  | OpGet id =>
      getAccountById upstream JSON_parse has_getSetCookie this id ;; ret tt
  | OpCreate account =>
      createAccount upstream JSON_parse has_getSetCookie this account ;; ret tt
  | OpUpdate id updates =>
      updateAccount upstream JSON_parse has_getSetCookie this id updates
  | OpDelete id => deleteAccount upstream JSON_parse has_getSetCookie this id
  end.

(** The login request that [authenticate] sends from [w], if it gets that
    far. *)
Definition loginOf (this : nat) (w : World) : list Request :=
  match loginRequestOf this w with
  | Some r => [r]
  | None => []
  end.

(** The login request of this run, or a request whose headers are those of
    the session built from the response to that login, a response that is
    not a failed login. *)
Definition freshly (this : nat) (w : World) (r : Request) : Prop :=
  loginRequestOf this w = Some r \/
  exists response,
    loginResponse upstream this w = Some response /\
    loginFails JSON_parse response = false /\
    req_headers r
    = sessionHeaders (newSession has_getSetCookie response (now w)).

(** From [w] to [w'] the log grew by such requests, and by the login request
    alone when the login got no response or failed. *)
Definition traced (this : nat) (w w' : World) : Prop :=
  exists l, sent w' = (sent w ++ l)%list /\
            Forall (freshly this w) l /\
            ((forall response, loginResponse upstream this w = Some response ->
                               loginFails JSON_parse response = true) ->
             l = loginOf this w).

End Perform.

(** ** More concrete upstreams and worlds for the examples *)

Module Scene.

(** An upstream that knows no account: every request is answered 404. *)
Definition missing (_ : list Request) (_ : Request) : result Response :=
  Ok (Sample.reply 404 "Not Found" "" None []).

(** An upstream that answers every request 204 without a body. *)
Definition noContent (_ : list Request) (_ : Request) : result Response :=
  Ok (Sample.reply 204 "No Content" "" None []).


(** A transport whose handler fails on every message before it answers. *)
Definition failing (_ : Transport) (_ : jsval) (w : World)
  : result unit * Res * World :=
  (Throw (Error "stream closed"), None, w).

(** An upstream that refuses with an error page. *)
Definition denied (_ : list Request) (_ : Request) : result Response :=
  Ok (Sample.reply 403 "Forbidden"
        "<html><head><title>Access Denied</title></head></html>"
        (Some "text/html") []).

End Scene.

(** From [w] to [w'] neither pointer to the active client has moved, the
    session registry is the same and no client object was created. *)
Definition keeps (w w' : World) : Prop :=
  currentClient w' = currentClient w /\
  mcpServer_client w' = mcpServer_client w /\
  activeTransports w' = activeTransports w /\
  allocated w' = allocated w.

(** The tools that work on records. *)
Definition recordTools : list string :=
  ["get_creatio_account"; "create_creatio_account"; "update_creatio_account";
   "delete_creatio_account"].

(** The four routes for single records, with their inputs. *)
Inductive Route : Type :=
| GetAccount (id : string)
| CreateAccount (body : jsval)
| UpdateAccount (id : string) (body : jsval)
| DeleteAccount (id : string).

Section Serve.

Variable upstream : list Request -> Request -> result Response.
Variable JSON_parse : string -> result jsval.
Variable has_getSetCookie : bool.

Definition serve (r : Route) : M HttpResponse :=
  match r with
  | GetAccount id => route_getAccount upstream JSON_parse has_getSetCookie id
  | CreateAccount body =>
      route_createAccount upstream JSON_parse has_getSetCookie body
  | UpdateAccount id body =>
      route_updateAccount upstream JSON_parse has_getSetCookie id body
  | DeleteAccount id => route_deleteAccount upstream JSON_parse has_getSetCookie id
  end.

End Serve.

(** The characters of a query-string piece that cannot end it or start
    another one: the characters that [encodeURIComponent] keeps, and the
    percent, equals and dollar signs. *)
Definition urlsafe (c : ascii) : bool :=
  Uri.unreserved c || Text.is_char "%" c || Text.is_char "=" c ||
  Text.is_char "$" c.

(** The text [s] begins with a title element whose text is [t]: an opening
    tag [<title>] in any letter case, the text [t], which is not empty and
    holds no [<], and a closing tag [</title>] in any letter case. *)
Definition titleAt (s t : string) : Prop :=
  exists o c rest,
    s = o +:+ t +:+ c +:+ rest /\ lower o = "<title>" /\ lower c = "</title>" /\
    t <> "" /\ all_chars (Text.not_char "<") t = true.

(** [t] is the text of the first such element of the page: the page is
    [before] followed by a text that begins with the element, and no text
    that starts inside [before] begins with one. *)
Definition firstTitle (page t : string) : Prop :=
  exists before s,
    page = before +:+ s /\ titleAt s t /\
    forall b1 b2 t', before = b1 +:+ b2 -> b2 <> "" -> ~ titleAt (b2 +:+ s) t'.

(** The page holds no such element. *)
Definition noTitle (page : string) : Prop :=
  forall before s t, page = before +:+ s -> ~ titleAt s t.

(** The attempt of the title pattern at the head of a text. *)
Definition titleHere (s : string) : option string :=
  if Text.prefix_ci "<title>" s then
    let '(t, rest) := Text.span (Text.not_char "<") (Text.skip 7 s) in
    if Text.nonempty t && Text.prefix_ci "</title>" rest then Some t else None
  else None.

(** The numbers that a template literal prints with all their digits: the
    integers of magnitude below 2^53. *)
Definition safeInteger (n : Z) : Prop := - 2 ^ 53 < n < 2 ^ 53.

(** The numeric parameters of a query are such numbers. *)
Definition safeNumbers (p : TypedParams) : Prop :=
  (forall n, t_top p = Some n -> safeInteger n) /\
  (forall n, t_skip p = Some n -> safeInteger n).

(** A query whose filter tries to add a parameter of its own. *)
Definition injecting : TypedParams :=
  {| t_filter := Some "Name eq 'A&B'&$top=1000#"; t_select := None;
     t_top := Some 5; t_skip := Some 10; t_orderby := Some "Name asc";
     t_expand := None |}.

(** * Properties *)

(** ** Laws of the monad *)

Lemma bind_ok {A B} (m : M A) (k : A -> M B) w a w' :
  m w = (Ok a, w') -> bind m k w = k a w'.
Proof. intros H. unfold bind. rewrite H. reflexivity. Qed.

Lemma bind_throw {A B} (m : M A) (k : A -> M B) w e w' :
  m w = (Throw e, w') -> bind m k w = (Throw e, w').
Proof. intros H. unfold bind. rewrite H. reflexivity. Qed.

Lemma try_catch_ok {A} (m : M A) h w a w' :
  m w = (Ok a, w') -> try_catch m h w = (Ok a, w').
Proof. intros H. unfold try_catch. rewrite H. reflexivity. Qed.

Lemma try_catch_throw {A} (m : M A) h w e w' :
  m w = (Throw e, w') -> try_catch m h w = h e w'.
Proof. intros H. unfold try_catch. rewrite H. reflexivity. Qed.

(** ** Rules for postconditions *)

Lemma wp_bind {A B} (m : M A) (k : A -> M B) Q w :
  wp m (fun r w1 => match r with
                    | Ok a => wp (k a) Q w1
                    | Throw e => Q (Throw e) w1
                    end) w ->
  wp (bind m k) Q w.
Proof. unfold wp, bind. destruct (m w) as [[a|e] w1]; simpl; auto. Qed.

Lemma wp_try_catch {A} (m : M A) (h : exn -> M A) Q w :
  wp m (fun r w1 => match r with
                    | Ok a => Q (Ok a) w1
                    | Throw e => wp (h e) Q w1
                    end) w ->
  wp (try_catch m h) Q w.
Proof. unfold wp, try_catch. destruct (m w) as [[a|e] w1]; simpl; auto. Qed.

Lemma wp_ret {A} (a : A) (Q : result A -> World -> Prop) w :
  Q (Ok a) w -> wp (ret a) Q w.
Proof. auto. Qed.

Lemma wp_throw {A} e (Q : result A -> World -> Prop) w :
  Q (Throw e) w -> wp (throw e) Q w.
Proof. auto. Qed.

Lemma wp_lift {A} (r : result A) (Q : result A -> World -> Prop) w :
  Q r w -> wp (lift r) Q w.
Proof. auto. Qed.

Lemma wp_gets {A} (f : World -> A) (Q : result A -> World -> Prop) w :
  Q (Ok (f w)) w -> wp (gets f) Q w.
Proof. auto. Qed.

Lemma wp_modify f (Q : result unit -> World -> Prop) w :
  Q (Ok tt) (f w) -> wp (modify f) Q w.
Proof. auto. Qed.

Lemma wp_fetch upstream r (Q : result Response -> World -> Prop) w :
  Q (upstream (sent w) r) (with_sent (sent w ++ [r]) w) ->
  wp (fetch upstream r) Q w.
Proof. auto. Qed.

Lemma wp_mono {A} (m : M A) (P Q : result A -> World -> Prop) w :
  wp m P w -> (forall r w', P r w' -> Q r w') -> wp m Q w.
Proof. unfold wp. auto. Qed.

(** One step of symbolic execution. *)
Ltac wp_step :=
  lazymatch goal with
  | |- wp (bind _ _) _ _ => apply wp_bind
  | |- wp (try_catch _ _) _ _ => apply wp_try_catch
  | |- wp (ret _) _ _ => apply wp_ret
  | |- wp (throw _) _ _ => apply wp_throw
  | |- wp (lift _) _ _ => apply wp_lift
  | |- wp (gets _) _ _ => apply wp_gets
  | |- wp (modify _) _ _ => apply wp_modify
  | |- wp (fetch _ _) _ _ => apply wp_fetch
  | |- wp (if ?b then _ else _) _ _ => destruct b eqn:?
  | |- wp (match ?x with _ => _ end) _ _ => destruct x eqn:?
  | |- match ?x with _ => _ end => destruct x eqn:?
  end.

Lemma wp_new cfg (Q : result nat -> World -> Prop) w :
  Q (Ok (allocated w))
    (with_clients
       (fun l' => if Nat.eqb l' (allocated w)
                  then {| config := cfg; session := None |} else clients w l')
       (S (allocated w)) w) ->
  wp (new_CreatioClient cfg) Q w.
Proof. auto. Qed.

Ltac wp_go := repeat first [apply wp_new | wp_step].

Ltac unfold_client :=
  unfold authenticate, ensureAuthenticated, isSessionValid, getHeaders,
    baseUrl, this_config, this_session, response_json, Date_now, set_session.

(** ** Unknown tools (C8) *)

Lemma not_listed (name : string) :
  ~ In name toolNames ->
  String.eqb name "test_creatio_connection" = false /\
  String.eqb name "query_creatio_accounts" = false /\
  String.eqb name "get_creatio_account" = false /\
  String.eqb name "create_creatio_account" = false /\
  String.eqb name "update_creatio_account" = false /\
  String.eqb name "delete_creatio_account" = false.
Proof.
  intros H. repeat split; apply String.eqb_neq; intros ->; apply H;
    unfold toolNames; simpl; tauto.
Qed.

Section Unknown.

Variable upstream : list Request -> Request -> result Response.
Variable JSON_parse : string -> result jsval.
Variable has_getSetCookie : bool.
Variable JSON_stringify : jsval -> string.
Variable toISOString : Z -> string.

Lemma dispatch_unknown getClient setClient name args w :
  ~ In name toolNames ->
  dispatch upstream JSON_parse has_getSetCookie JSON_stringify toISOString
    getClient setClient name args w
  = (Ok {| content := ["Unknown tool: " +:+ name]; isError := Some true |}, w).
Proof.
  intros H. destruct (not_listed name H) as (H1 & H2 & H3 & H4 & H5 & H6).
  unfold dispatch. rewrite H1, H2, H3, H4, H5, H6. reflexivity.
Qed.

(** C8. For a name that is not in the registry and any argument bag, both
    dispatchers return (they do not throw) the result whose only content
    block is "Unknown tool: <name>" and whose [isError] is true; the world
    is left as it was. *)
Theorem unknown_tool_result (d : Dispatcher) (name : string) (args : jsval)
    (w : World) :
  ~ In name toolNames ->
  run upstream JSON_parse has_getSetCookie JSON_stringify toISOString
    d name args w
  = (Ok {| content := ["Unknown tool: " +:+ name]; isError := Some true |}, w).
Proof.
  intros H.
  destruct d; unfold run, MCPServer_executeTool, callTool, execute;
    (erewrite try_catch_ok; [reflexivity | apply dispatch_unknown; exact H]).
Qed.

End Unknown.

Lemma unknown_tool_result_witness :
  ~ In "drop_database" toolNames /\
  run Sample.refusing Sample.parse true Sample.stringify Sample.iso
    ViaRegistry "drop_database" JUndefined Sample.boot
  = (Ok {| content := ["Unknown tool: drop_database"]; isError := Some true |},
     Sample.boot) /\
  run Sample.refusing Sample.parse true Sample.stringify Sample.iso
    ViaStream "drop_database" JUndefined Sample.boot
  = (Ok {| content := ["Unknown tool: drop_database"]; isError := Some true |},
     Sample.boot).
Proof.
  assert (H : ~ In "drop_database" toolNames).
  { unfold toolNames; simpl. intros [H|[H|[H|[H|[H|[H|[]]]]]]]; discriminate H. }
  split; [exact H |].
  split.
  - apply (unknown_tool_result Sample.refusing Sample.parse true Sample.stringify
             Sample.iso ViaRegistry "drop_database" JUndefined Sample.boot H).
  - apply (unknown_tool_result Sample.refusing Sample.parse true Sample.stringify
             Sample.iso ViaStream "drop_database" JUndefined Sample.boot H).
Defined.

(** ** Query without an active client (C6) *)

Section NotConnected.

Variable upstream : list Request -> Request -> result Response.
Variable JSON_parse : string -> result jsval.
Variable has_getSetCookie : bool.
Variable JSON_stringify : jsval -> string.
Variable toISOString : Z -> string.

(** While the pointer that a dispatcher reads is unset, dispatching
    [query_creatio_accounts] with any arguments returns the result with
    [isError] true and the text "Not connected. Use test_creatio_connection
    first."; the world is unchanged, in particular the log of requests
    handed to [fetch], so nothing is sent. *)
Lemma query_without_client (d : Dispatcher) (args : jsval) (w : World) :
  activeClient d w = None ->
  let out :=
    run upstream JSON_parse has_getSetCookie JSON_stringify toISOString
      d "query_creatio_accounts" args w in
  out = (Ok {| content := ["Not connected. Use test_creatio_connection first."];
               isError := Some true |}, w)
  /\ sent (snd out) = sent w.
Proof.
  intros H out.
  assert (E : out = (Ok notConnected, w)).
  { subst out. destruct d; simpl in H;
      unfold run, MCPServer_executeTool, callTool, execute, try_catch, dispatch;
      simpl; unfold tool_queryAccounts, bind, getCreatioClient, gets;
      rewrite H; reflexivity. }
  rewrite E. split; reflexivity.
Qed.

End NotConnected.

Lemma query_without_client_witness :
  activeClient ViaRegistry Sample.boot = None /\
  activeClient ViaStream Sample.boot = None /\
  run Sample.accepting Sample.parse true Sample.stringify Sample.iso
    ViaRegistry "query_creatio_accounts" (JObj [("top", JNum 5)]) Sample.boot
  = (Ok notConnected, Sample.boot) /\
  run Sample.accepting Sample.parse true Sample.stringify Sample.iso
    ViaStream "query_creatio_accounts" (JObj [("top", JNum 5)]) Sample.boot
  = (Ok notConnected, Sample.boot).
Proof.
  split; [reflexivity |]. split; [reflexivity |]. split.
  - exact (proj1 (query_without_client Sample.accepting Sample.parse true
                    Sample.stringify Sample.iso ViaRegistry
                    (JObj [("top", JNum 5)]) Sample.boot eq_refl)).
  - exact (proj1 (query_without_client Sample.accepting Sample.parse true
                    Sample.stringify Sample.iso ViaStream
                    (JObj [("top", JNum 5)]) Sample.boot eq_refl)).
Defined.


(** ** The session registry (C7) *)

Section SessionRegistry.

Variable server_connect : Transport -> bool -> result unit.
Variable handlePostMessage :
  Transport -> jsval -> World -> result unit * Res * World.

Lemma post_unknown (sid : string) (message : jsval) (w : World) :
  sid <> "" ->
  activeTransports w !! sid = None ->
  post_messages handlePostMessage (Some sid) message w
  = (Ok tt, Some sessionNotFound, w).
Proof.
  intros Hne Hnone. unfold post_messages, Text.nonempty.
  destruct (String.eqb sid "") eqn:E.
  - apply String.eqb_eq in E. contradiction.
  - simpl. rewrite Hnone. reflexivity.
Qed.

Lemma post_known (sid : string) (t : Transport) (message : jsval) (w : World) :
  sid <> "" ->
  activeTransports w !! sid = Some t ->
  post_messages handlePostMessage (Some sid) message w
  = match handlePostMessage t message w with
    | (Ok _, res, w') => (Ok tt, res, w')
    | (Throw _, res, w') => (res_json internalError res, w')
    end.
Proof.
  intros Hne Hsome. unfold post_messages, Text.nonempty.
  destruct (String.eqb sid "") eqn:E.
  - apply String.eqb_eq in E. contradiction.
  - simpl. rewrite Hsome. reflexivity.
Qed.

(** The handler of the stream ends as [server.connect] does, and has then
    stored the transport under the handle. *)
Lemma sse_open_outcome (sid : string) (t : Transport) (w : World) :
  sse_open server_connect sid t w
  = (match server_connect t true with
     | Ok _ => Ok (sse_close sid)
     | Throw e => Throw e
     end,
     with_activeTransports (<[sid := t]> (activeTransports w)) w).
Proof.
  unfold sse_open, bind, modify, lift, ret.
  destruct (server_connect t true) as [[]|e]; reflexivity.
Qed.

Lemma closed_is_absent (sid : string) (w : World) :
  activeTransports (snd (sse_close sid w)) !! sid = None.
Proof. simpl. apply lookup_delete_eq. Qed.

(** When [server.connect] returns, the connection behaves as the claim says:
    after its close the handle is gone and a message posted with it is
    answered 404, as for any handle that the registry does not hold. *)
Lemma closed_connection_is_forgotten (sid : string) (transport : Transport)
    (message : jsval) (w : World) :
  sid <> "" ->
  server_connect transport true = Ok tt ->
  let closed := snd (register_then_close server_connect sid transport w) in
  activeTransports closed !! sid = None
  /\ post_messages handlePostMessage (Some sid) message closed
     = (Ok tt, Some sessionNotFound, closed).
Proof.
  intros Hne Hc closed.
  assert (Ha : activeTransports closed !! sid = None).
  { subst closed. unfold register_then_close. rewrite sse_open_outcome, Hc.
    apply closed_is_absent. }
  split; [exact Ha | apply post_unknown; assumption].
Qed.

(** C7 (defect of the stream handler). The listener that removes the handle
    is registered after [await server.connect(transport)].  For every handle
    [sid] (a generated identifier, so not the empty text) whose
    [server.connect] throws: the handler has stored the handle and ends
    without a listener, so after the close of the connection the registry
    still maps the handle to its transport.  A message posted with it is
    handed to that transport: an answer the transport sends is the one
    delivered, and the 404 of the claim is delivered only if the transport
    itself sends it.  A handle that the registry does not hold is answered
    404 "Session not found", and a message without a handle 400. *)
Theorem failed_connect_keeps_session_handle (sid : string) (transport : Transport)
    (message : jsval) (w : World) (e : exn) :
  sid <> "" ->
  server_connect transport true = Throw e ->
  let closed := snd (register_then_close server_connect sid transport w) in
  fst (sse_open server_connect sid transport w) = Throw e
  /\ activeTransports closed !! sid = Some transport
  /\ (forall a,
        delivered (handlePostMessage transport message closed) = Some a ->
        delivered (post_messages handlePostMessage (Some sid) message closed)
        = Some a)
  /\ (delivered (post_messages handlePostMessage (Some sid) message closed)
      = Some sessionNotFound ->
      delivered (handlePostMessage transport message closed) = Some sessionNotFound)
  /\ (forall w', activeTransports w' !! sid = None ->
        post_messages handlePostMessage (Some sid) message w'
        = (Ok tt,
           Some {| code := 404;
                   payload := JObj [("error", JStr "Session not found")] |}, w'))
  /\ (forall w',
        post_messages handlePostMessage None message w'
        = (Ok tt,
           Some {| code := 400;
                   payload := JObj [("error", JStr "Session ID required")] |}, w')).
Proof.
  intros Hne Hc closed.
  assert (Ha : activeTransports closed !! sid = Some transport).
  { subst closed. unfold register_then_close. rewrite sse_open_outcome, Hc.
    simpl. apply lookup_insert_eq. }
  split; [rewrite sse_open_outcome, Hc; reflexivity |].
  split; [exact Ha |].
  rewrite (post_known sid transport message closed Hne Ha).
  unfold delivered.
  destruct (handlePostMessage transport message closed) as [[[u|e'] res] w'];
    simpl.
  - repeat split; auto. intros w'' Hn. apply post_unknown; assumption.
  - destruct res as [a0|]; simpl.
    + repeat split; auto. intros w'' Hn. apply post_unknown; assumption.
    + repeat split; try discriminate.
      intros w'' Hn. apply post_unknown; assumption.
Qed.

End SessionRegistry.

Lemma failed_connect_keeps_session_handle_witness :
  activeTransports
    (snd (register_then_close Sample.start "6f1c9a52-0d3b-4e57-9a61-2b7d8c4e1f00"
            7%nat Sample.boot))
  !! "6f1c9a52-0d3b-4e57-9a61-2b7d8c4e1f00" = Some 7%nat
  /\ delivered
       (post_messages Sample.unstarted
          (Some "6f1c9a52-0d3b-4e57-9a61-2b7d8c4e1f00") JNull
          (snd (register_then_close Sample.start
                  "6f1c9a52-0d3b-4e57-9a61-2b7d8c4e1f00" 7%nat Sample.boot)))
     = Some {| code := 500; payload := JStr "SSE connection not established" |}.
Proof.
  assert (Hne : "6f1c9a52-0d3b-4e57-9a61-2b7d8c4e1f00" <> "") by discriminate.
  destruct (failed_connect_keeps_session_handle Sample.start Sample.unstarted
              "6f1c9a52-0d3b-4e57-9a61-2b7d8c4e1f00" 7%nat JNull Sample.boot
              (Error "Cannot write headers after they are sent to the client")
              Hne eq_refl) as (_ & Ha & Hd & _).
  split; [exact Ha |].
  apply Hd. reflexivity.
Defined.

(** The same connection when [server.connect] returns: the close removes the
    handle and the message is answered 404. *)
Example started_connection_is_forgotten :
  let sid := "6f1c9a52-0d3b-4e57-9a61-2b7d8c4e1f00" in
  let closed := snd (register_then_close Sample.attach sid 7%nat Sample.boot) in
  activeTransports closed !! sid = None
  /\ post_messages Sample.handle (Some sid) JNull closed
     = (Ok tt, Some sessionNotFound, closed).
Proof.
  intros sid closed.
  apply (closed_connection_is_forgotten Sample.attach Sample.handle sid 7%nat
           JNull Sample.boot); [discriminate | reflexivity].
Qed.

(** ** Failed authentication (C9) *)

Section Authenticate.

Variable upstream : list Request -> Request -> result Response.
Variable JSON_parse : string -> result jsval.
Variable has_getSetCookie : bool.

Local Abbreviation authenticate :=
  (authenticate upstream JSON_parse has_getSetCookie).

(** An exception out of [authenticate] leaves every client object as it
    was. *)
Lemma authenticate_throw_keeps_clients (this : nat) (w : World) :
  wp (authenticate this)
    (fun r w' => match r with
                 | Throw _ => clients w' = clients w
                 | Ok _ => True
                 end) w.
Proof. unfold_client. repeat wp_step; solve [reflexivity | exact I]. Qed.

(** A normal return of [authenticate] comes from a login that did not
    fail, and stores the session built from its response. *)
Lemma authenticate_ok_stores_session (this : nat) (w : World) :
  wp (authenticate this)
    (fun r w' =>
       match r with
       | Throw _ => True
       | Ok _ =>
           exists response,
             loginResponse upstream this w = Some response /\
             loginFails JSON_parse response = false /\
             session (clients w' this)
             = Some (newSession has_getSetCookie response (now w)) /\
             (forall l, l <> this -> clients w' l = clients w l)
       end) w.
Proof.
  unfold_client. repeat wp_step; try exact I.
  match goal with H : upstream _ _ = Ok ?r |- _ => exists r end.
  repeat split.
  - unfold loginResponse, loginRequestOf, baseUrl, this_config, bind, gets, lift.
    rewrite Heqr. simpl. rewrite Heqr0, Heqr1. reflexivity.
  - unfold loginFails. rewrite Heqb, Heqr2, Heqr3, Heqb0. reflexivity.
  - simpl. rewrite Nat.eqb_refl. simpl. unfold newSession.
    rewrite Heqp. reflexivity.
  - intros l Hl. simpl. apply Nat.eqb_neq in Hl. rewrite Hl. reflexivity.
Qed.

(** C9. For every client and world: if the login response is a failure (a
    non-success status, a body that does not parse, or a [Code] other than
    zero) then [authenticate] throws and the client's [session] field is
    what it was, expired or not; whenever [authenticate] throws, for any
    reason, no client object has changed; and when it returns, the login
    did not fail and the stored session is the complete one built from the
    login response. *)
Theorem failed_authenticate_keeps_session (this : nat) (w : World) :
  (forall response,
      loginResponse upstream this w = Some response ->
      loginFails JSON_parse response = true ->
      exists e w',
        authenticate this w = (Throw e, w') /\
        session (clients w' this) = session (clients w this))
  /\ (forall e w',
        authenticate this w = (Throw e, w') -> clients w' = clients w)
  /\ (forall w',
        authenticate this w = (Ok tt, w') ->
        exists response,
          loginResponse upstream this w = Some response /\
          loginFails JSON_parse response = false /\
          session (clients w' this)
          = Some (newSession has_getSetCookie response (now w))).
Proof.
  pose proof (authenticate_throw_keeps_clients this w) as Ht.
  pose proof (authenticate_ok_stores_session this w) as Ho.
  unfold wp in Ht, Ho.
  destruct (authenticate this w) as [[[]|e] w1] eqn:E; simpl in Ht, Ho.
  - destruct Ho as (response & Hr & Hf & Hs & _).
    split; [| split].
    + intros response' Hr' Hf'. rewrite Hr in Hr'. inversion Hr'; subst.
      rewrite Hf in Hf'. discriminate.
    + intros e w' H. discriminate H.
    + intros w' H. inversion H; subst. exists response. auto.
  - split; [| split].
    + intros _ _ _. exists e, w1. split; [reflexivity |]. rewrite Ht. reflexivity.
    + intros e' w' H. inversion H; subst. exact Ht.
    + intros w' H. discriminate H.
Qed.

End Authenticate.

Lemma failed_authenticate_keeps_session_witness :
  exists e w',
    authenticate Sample.refusing Sample.parse true 0%nat Sample.stale = (Throw e, w') /\
    session (clients w' 0%nat) = session (clients Sample.stale 0%nat).
Proof.
  exact (proj1 (failed_authenticate_keeps_session Sample.refusing Sample.parse
                  true 0%nat Sample.stale)
           (Sample.reply 401 "Unauthorized" "" None []) eq_refl eq_refl).
Defined.

Example rejected_login_keeps_expired_session :
  let out := authenticate Sample.rejecting Sample.parse true 0%nat Sample.stale in
  fst out = Throw (Error "Invalid credentials") /\
  session (clients (snd out) 0%nat) = session (clients Sample.stale 0%nat).
Proof. split; reflexivity. Qed.

Example accepted_login_replaces_session :
  let out := authenticate Sample.accepting Sample.parse true 0%nat Sample.stale in
  fst out = Ok tt /\
  session (clients (snd out) 0%nat)
  = Some {| cookies := "BPMCSRF=tok; .ASPXAUTH=ticket; BPMLOADER=ld; UserName=sup";
            csrfToken := "tok"; expiresAt := 1801000 |} /\
  List.map req_url (sent (snd out))
  = ["https://crm.example.com/ServiceModel/AuthService.svc/Login"].
Proof. repeat split; reflexivity. Qed.

(** ** Failed login and the active-client pointer (C1) *)

Section Connect.

Variable upstream : list Request -> Request -> result Response.
Variable JSON_parse : string -> result jsval.
Variable has_getSetCookie : bool.
Variable JSON_stringify : jsval -> string.
Variable toISOString : Z -> string.
Variable is_url : string -> bool.

(** The connect route answers 200 for every valid config and leaves
    [currentClient] on the client it has just created, whatever the login
    gave: [createCreatioClient] sets the pointer before the test runs. *)
Lemma route_connect_sets_currentClient (body cfg : jsval) (w : World) :
  creatioConfigSchema_parse is_url body = Ok cfg ->
  wp (route_connect upstream JSON_parse has_getSetCookie toISOString is_url body)
    (fun r w' => currentClient w' = Some (allocated w) /\
                 exists p, r = Ok {| code := 200; payload := p |}) w.
Proof.
  intros H.
  unfold route_connect, createCreatioClient, setCreatioClient,
    MCPServer_setClient, testConnection, timestamp.
  unfold_client. rewrite H. wp_go.
  all: simpl; split; [reflexivity | eexists; reflexivity].
Qed.

(** The connection-test tool of either dispatcher, when the test fails,
    leaves both pointers as they were; the client it created has no
    session. *)
Lemma tool_test_failure_keeps_pointers (d : Dispatcher) (args : jsval) (w : World) :
  wp (run upstream JSON_parse has_getSetCookie JSON_stringify toISOString
        d "test_creatio_connection" args)
    (fun r w' =>
       match r with
       | Ok t =>
           isError t = Some true ->
           currentClient w' = currentClient w /\
           mcpServer_client w' = mcpServer_client w /\
           session (clients w' (allocated w)) = None
       | Throw _ => False
       end) w.
Proof.
  destruct d; unfold run, MCPServer_executeTool, callTool, execute, dispatch;
    simpl;
    unfold tool_testConnection, setCreatioClient, MCPServer_setClient,
      testConnection, timestamp;
    unfold_client.
  all: wp_go.
  all: simpl; try (intros; discriminate).
  all: intros _; rewrite ?Nat.eqb_refl; auto.
Qed.

End Connect.

(** C1 (defect of the connect route). A valid config is posted to
    [/api/creatio/connect] while no client is active, and the upstream
    answers the login with status 401.  The route reports the failure and the
    client it created holds no session, but [currentClient], which was unset
    before the call, now refers to that client; on the same input the
    connection-test tool leaves the pointer unset. *)
Theorem connect_failed_login_moves_pointer :
  let before := Sample.boot in
  let out :=
    route_connect Sample.refusing Sample.parse true Sample.iso Sample.any_url
      Sample.goodConfig before in
  let tool :=
    callTool Sample.refusing Sample.parse true Sample.stringify Sample.iso
      "test_creatio_connection" Sample.goodConfig before in
  creatioConfigSchema_parse Sample.any_url Sample.goodConfig = Ok Sample.goodConfig
  /\ fst out
     = Ok {| code := 200;
             payload :=
               JObj [("success", JBool false);
                     ("message", JStr "Authentication failed: 401 Unauthorized");
                     ("timestamp", JStr "1000")] |}
  /\ session (clients (snd out) 0%nat) = None
  /\ currentClient before = None
  /\ currentClient (snd out) = Some 0%nat
  /\ mcpServer_client (snd out) = None
  /\ currentClient (snd tool) = None.
Proof. repeat split; reflexivity. Qed.

(** The same happens when the upstream answers 200 with a non-zero [Code]. *)
Example connect_rejected_login_moves_pointer :
  let out :=
    route_connect Sample.rejecting Sample.parse true Sample.iso Sample.any_url
      Sample.goodConfig Sample.boot in
  fst out
  = Ok {| code := 200;
          payload :=
            JObj [("success", JBool false);
                  ("message", JStr "Invalid credentials");
                  ("timestamp", JStr "1000")] |}
  /\ currentClient (snd out) = Some 0%nat
  /\ session (clients (snd out) 0%nat) = None.
Proof. repeat split; reflexivity. Qed.

(** ** The query with a valid session *)

Section Classify.

Variable upstream : list Request -> Request -> result Response.
Variable JSON_parse : string -> result jsval.
Variable has_getSetCookie : bool.

(** With a valid session, [queryAccounts] sends one GET request and reads
    its response. *)
Lemma queryAccounts_with_session (this : nat) (params : QueryParams) (w : World)
    (s : CreatioSession) (b : string) :
  session (clients w this) = Some s ->
  (now w <? expiresAt s) = true ->
  get_prop (config (clients w this)) "baseUrl" = Ok (JStr b) ->
  queryAccounts upstream JSON_parse has_getSetCookie this params w
  = let request :=
      queryRequest (strip_trailing_slash b) params
        [("Accept", "application/json");
         ("Content-Type", "application/json; charset=utf-8; IEEE754Compatible=true");
         ("ForceUseSession", "true");
         ("BPMCSRF", csrfToken s);
         ("Cookie", cookies s)] in
    (match upstream (sent w) request with
     | Ok response => queryResult JSON_parse response
     | Throw e => Throw e
     end,
     with_sent (sent w ++ [request]) w).
Proof.
  intros Hs Hv Hb.
  unfold queryAccounts. unfold_client.
  unfold bind, gets, lift, ret, fetch. rewrite Hs, Hv, Hb. simpl.
  rewrite Hs. simpl.
  destruct (upstream _ _); reflexivity.
Qed.

End Classify.

(** End to end: the upstream answers the query with its sign-in page and
    status 200; the tool call ends as an error result with the message of
    the content-type failure, after one GET request. *)
Example query_answered_with_login_page :
  let out :=
    callTool Sample.loginPage Sample.parse true Sample.stringify Sample.iso
      "query_creatio_accounts"
      (JObj [("filter", JStr "contains(Name,'Tech')"); ("top", JNum 5)])
      Sample.fresh in
  fst out
  = Ok {| content :=
            ["Error executing query_creatio_accounts: Creatio returned HTML instead of JSON: Sign in. Check that your user has OData API access permissions."];
          isError := Some true |}
  /\ List.map (fun r => (req_method r, req_url r)) (sent (snd out))
     = [("GET",
         "https://crm.example.com/0/odata/Account?$filter=contains(Name%2C'Tech')&$top=5&$orderby=Name%20asc")].
Proof. split; reflexivity. Qed.

(** ** The query string (C5) *)






Example query_string_sample :
  queryString
    (untyped {| t_filter := Some "contains(Name,'Tech')"; t_select := Some "";
                t_top := Some 5; t_skip := None;
                t_orderby := Some "Name asc"; t_expand := None |})
  = "?$filter=contains(Name%2C'Tech')&$top=5&$orderby=Name%20asc".
Proof. reflexivity. Qed.

(** ** Cookie extraction (C3) *)

Section Extraction.
Import Text Cookies CookieSpec.

Lemma scan_from (headers : list string) (parts : list string) (tok : string) :
  fold_left step headers (parts, tok)
  = ((parts ++ List.map render (kept headers))%list, direct headers tok).
Proof.
  revert parts tok.
  induction headers as [|h rest IH]; intros parts tok.
  - simpl. rewrite app_nil_r. reflexivity.
  - cbn [fold_left kept direct].
    replace (step (parts, tok) h)
      with (match parsed h with
            | Some nv =>
                ((if is_known (fst nv) then parts ++ [render nv] else parts)%list,
                 if String.eqb (fst nv) "BPMCSRF" then snd nv else tok)
            | None => (parts, tok)
            end)
      by (unfold step, parsed; destruct (cookieMatch h) as [[n v]|]; reflexivity).
    destruct (parsed h) as [nv|]; [| apply IH].
    rewrite IH. destruct (is_known (fst nv)); [| reflexivity].
    cbn [List.map]. rewrite <- app_assoc. reflexivity.
Qed.

(** With the multi-value accessor, the assembled string holds the pairs of
    the known names and nothing else, in the order of the header lines,
    and a non-empty value of the [BPMCSRF] line is the token. *)
Lemma multi_value_extraction (lines : list string) :
  fst (fromResponse true lines) = join "; " (List.map render (kept lines))
  /\ (nonempty (direct lines "") = true ->
      snd (fromResponse true lines) = direct lines "").
Proof.
  unfold fromResponse, setCookieHeaders, extract, scan.
  rewrite scan_from. simpl. split; [reflexivity |].
  intros H. rewrite H. reflexivity.
Qed.

(** After a comma and a space, a name that starts with a dot is not taken
    for the start of a cookie: the comma is not a cut. *)
Lemma lookahead_rejects_dot (s : string) :
  lookahead (String " " (String "." s)) = false.
Proof. reflexivity. Qed.

End Extraction.

(** C3 (defect of the combined-header path). The login response carries the
    four known cookies, each on its own [Set-Cookie] line with attributes.
    With the multi-value accessor the assembled string holds the four pairs
    in order.  Without it the lines arrive as one text joined by commas; the
    cut before [.ASPXAUTH] is missed, because the pattern asks for a letter
    or an underscore after the comma, and the assembled string holds three
    pairs only: the auth ticket is lost. *)
Theorem combined_header_loses_auth_ticket :
  let lines := Sample.loginCookies in
  Cookies.fromResponse true lines
  = ("BPMCSRF=tok; .ASPXAUTH=ticket; BPMLOADER=ld; UserName=sup", "tok")
  /\ Cookies.headers_get_set_cookie lines
     = Some "BPMCSRF=tok; path=/, .ASPXAUTH=ticket; path=/; HttpOnly, BPMLOADER=ld; path=/, UserName=sup; path=/"
  /\ Cookies.setCookieHeaders false lines
     = ["BPMCSRF=tok; path=/, .ASPXAUTH=ticket; path=/; HttpOnly";
        " BPMLOADER=ld; path=/"; " UserName=sup; path=/"]
  /\ Cookies.fromResponse false lines
     = ("BPMCSRF=tok; BPMLOADER=ld; UserName=sup", "tok").
Proof. repeat split; reflexivity. Qed.

(** A comma inside an attribute is not a cut, and a token that is only
    inside another cookie's value is found by the fallback. *)
Example split_keeps_expires :
  Cookies.split "A=1; expires=Wed, 21 Oct 2030 07:28:00 GMT, B=2"
  = ["A=1; expires=Wed, 21 Oct 2030 07:28:00 GMT"; " B=2"].
Proof. reflexivity. Qed.

Example token_by_fallback :
  Cookies.fromResponse true ["UserName=x BPMCSRF=abc; path=/"]
  = ("UserName=x BPMCSRF=abc", "abc").
Proof. reflexivity. Qed.

(** ** The tool catalogues (C2) *)

Lemma registry_is_streaming : Registry.MCP_TOOLS = Streaming.listTools.
Proof. reflexivity. Qed.

Lemma same_params_refl (ps : list Param) : same_params ps ps.
Proof. intros x. tauto. Qed.

Lemma covered_refl (A : list Shape) : covered A A.
Proof. intros n ps H. exists ps. split; [exact H | apply same_params_refl]. Qed.

Lemma panel_covered_by_registry : covered panelShapes registryShapes.
Proof.
  intros n ps H. exists ps. split; [| apply same_params_refl].
  vm_compute in H. destruct H as [H|[H|[H|[]]]]; inversion H; subst;
    vm_compute; tauto.
Qed.

Lemma registry_not_covered_by_panel : ~ covered registryShapes panelShapes.
Proof.
  intros H.
  destruct (H "delete_creatio_account" [("id", "string", true)])
    as (qs & Hin & _).
  - vm_compute. tauto.
  - vm_compute in Hin. destruct Hin as [E|[E|[E|[]]]]; discriminate E.
Qed.

(** C2, as the code has it. The registry and the list of the streaming
    server are the same declarations, so they agree on every tool; the
    dashboard panel declares three tools only (query, get, connection test),
    and each of them has, under the same name, the parameters, types and
    required flags of the registry. *)
Theorem catalogues_registry_streaming_panel :
  Registry.MCP_TOOLS = Streaming.listTools
  /\ agree registryShapes streamingShapes
  /\ covered panelShapes registryShapes
  /\ List.map fst panelShapes
     = ["query_creatio_accounts"; "get_creatio_account"; "test_creatio_connection"]
  /\ List.map fst registryShapes
     = ["test_creatio_connection"; "query_creatio_accounts"; "get_creatio_account";
        "create_creatio_account"; "update_creatio_account"; "delete_creatio_account"].
Proof.
  split; [reflexivity |]. split.
  - unfold streamingShapes, registryShapes. rewrite <- registry_is_streaming.
    split; apply covered_refl.
  - split; [apply panel_covered_by_registry |]. split; reflexivity.
Qed.

(** C2, as stated, fails: the three declarations do not agree, the panel
    has no [delete_creatio_account] (nor create, nor update). *)
Lemma catalogues_do_not_agree : ~ cataloguesAgree.
Proof.
  intros (_ & [H _] & _). exact (registry_not_covered_by_panel H).
Qed.

(** ** Falsy optional fields (C10) *)

Lemma sends_refl P w : sends P w w.
Proof. exists []. split; [symmetry; apply app_nil_r | constructor]. Qed.

Lemma sends_trans P w1 w2 w3 : sends P w1 w2 -> sends P w2 w3 -> sends P w1 w3.
Proof.
  intros (l1 & E1 & F1) (l2 & E2 & F2). exists (l1 ++ l2)%list. split.
  - rewrite E2, E1, app_assoc. reflexivity.
  - apply Forall_app. split; assumption.
Qed.

Lemma sends_fetch (P : Request -> Prop) w r : P r -> sends P w (with_sent (sent w ++ [r]) w).
Proof. intros H. exists [r]. split; [reflexivity | repeat constructor; exact H]. Qed.

Lemma sends_mono (P Q : Request -> Prop) w w' :
  (forall r, P r -> Q r) -> sends P w w' -> sends Q w w'.
Proof.
  intros H (l & E & F). exists l. split; [exact E |].
  eapply Forall_impl; eauto.
Qed.

Lemma requestsOf_sends {A} P (m : M A) w :
  sends P w (snd (m w)) -> Forall P (requestsOf m w).
Proof.
  intros (l & E & F). unfold requestsOf. rewrite E.
  rewrite skipn_app, Nat.sub_diag, skipn_all. simpl. exact F.
Qed.

Section Writes.

Variable upstream : list Request -> Request -> result Response.
Variable JSON_parse : string -> result jsval.
Variable has_getSetCookie : bool.
Variable JSON_stringify : jsval -> string.
Variable toISOString : Z -> string.

Lemma loginRequest_isLogin base cfg r : loginRequest base cfg = Ok r -> isLogin r.
Proof.
  unfold loginRequest. destruct (get_prop cfg "username"), (get_prop cfg "password"); intros H; inversion H; subst.
  split; [reflexivity | eexists; eexists; reflexivity].
Qed.

Ltac close_login :=
  simpl;
  first [ apply sends_refl
        | apply sends_fetch; eapply loginRequest_isLogin; eassumption
        | eapply sends_trans;
          [apply sends_fetch; eapply loginRequest_isLogin; eassumption
          | apply sends_refl] ].

Lemma authenticate_sends this w :
  wp (authenticate upstream JSON_parse has_getSetCookie this) (fun _ w' => sends isLogin w w') w.
Proof. unfold_client. wp_go. all: close_login. Qed.

Lemma ensureAuthenticated_sends this w :
  wp (ensureAuthenticated upstream JSON_parse has_getSetCookie this) (fun _ w' => sends isLogin w w') w.
Proof. unfold_client. wp_go. all: first [close_login | apply authenticate_sends]. Qed.

Ltac after_login Hs :=
  unfold_client; wp_go; simpl;
  first [ eapply sends_mono; [| exact Hs]; intros ? ?; left; assumption
        | eapply sends_trans;
          [ eapply sends_mono; [| exact Hs]; intros ? ?; left; assumption
          | apply sends_fetch; right; split; reflexivity ] ].

Lemma createAccount_sends this account w :
  wp (createAccount upstream JSON_parse has_getSetCookie this account)
     (fun _ w' => sends (carries "POST" account) w w') w.
Proof.
  unfold createAccount. apply wp_bind.
  eapply wp_mono; [apply ensureAuthenticated_sends |].
  intros [[]|e] w1 Hs; after_login Hs.
Qed.

Lemma updateAccount_sends this id updates w :
  wp (updateAccount upstream JSON_parse has_getSetCookie this id updates)
     (fun _ w' => sends (carries "PATCH" updates) w w') w.
Proof.
  unfold updateAccount. apply wp_bind.
  eapply wp_mono; [apply ensureAuthenticated_sends |].
  intros [[]|e] w1 Hs; after_login Hs.
Qed.

Lemma create_sends d args w :
  wp (run upstream JSON_parse has_getSetCookie JSON_stringify toISOString d "create_creatio_account" args)
     (fun _ w' => sends (createBody args) w w') w.
Proof.
  destruct d; unfold run, MCPServer_executeTool, callTool, execute, dispatch; simpl;
    unfold tool_createAccount, getCreatioClient, arg.
  all: wp_go; simpl; try apply sends_refl.
  all: (eapply wp_mono; [apply createAccount_sends |]).
  all: intros r w' Hs; assert (Hs' : sends (createBody args) w w')
    by (eapply sends_mono; [| exact Hs]; intros q [Hq|[Hm Hb]];
        [left; exact Hq | right; do 6 eexists; repeat split; eassumption]).
  all: destruct r; simpl; wp_go; simpl; exact Hs'.
Qed.

Lemma update_sends d args w :
  wp (run upstream JSON_parse has_getSetCookie JSON_stringify toISOString d "update_creatio_account" args)
     (fun _ w' => sends (updateBody args) w w') w.
Proof.
  destruct d; unfold run, MCPServer_executeTool, callTool, execute, dispatch; simpl;
    unfold tool_updateAccount, getCreatioClient, arg.
  all: wp_go; simpl; try apply sends_refl.
  all: (eapply wp_mono; [apply updateAccount_sends |]).
  all: intros r w' Hs; assert (Hs' : sends (updateBody args) w w')
    by (eapply sends_mono; [| exact Hs]; intros q [Hq|[Hm Hb]];
        [left; exact Hq | right; do 6 eexists; repeat split; eassumption]).
  all: destruct r; simpl; wp_go; simpl; exact Hs'.
Qed.

Lemma optional_keys K K' v :
  In K (List.map fst (optional K' v)) -> K = K' /\ truthy v = true.
Proof.
  unfold optional. destruct (truthy v); simpl; [| tauto].
  intros [H|[]]. auto.
Qed.

Lemma optional_values K K' v v' :
  In (K, v') (optional K' v) -> truthy v' = true.
Proof.
  unfold optional. destruct (truthy v) eqn:E; simpl; [| tauto].
  intros [H|[]]. inversion H; subst. exact E.
Qed.

Lemma truthy_not_empty v : truthy v = true -> v <> JStr "".
Proof. intros H ->. discriminate H. Qed.

Lemma isLogin_omits K r :
  K <> "UserName" -> K <> "UserPassword" -> isLogin r -> omits K r.
Proof.
  intros H1 H2 (Hm & u & p & Hb). split.
  - intros body Hb'. rewrite Hb in Hb'. inversion Hb'; subst. simpl.
    intros [E|[E|[]]]; congruence.
  - intros HP. rewrite Hm in HP. discriminate HP.
Qed.

Lemma createBody_omits args k K q :
  In ("create_creatio_account", (k, K)) optionalFields ->
  (forall v, get_prop args k = Ok v -> truthy v = false) ->
  createBody args q -> omits K q.
Proof.
  intros Hin Hf [Hl | (name & phone & email & web & address & city &
                       Hp & He & Hw & Ha & Hc & Hm & Hb)].
  - apply isLogin_omits; [| | exact Hl];
      simpl in Hin; intuition congruence.
  - split.
    + intros body Hb'. rewrite Hb in Hb'. inversion Hb'; subst body.
      simpl. rewrite !map_app, !in_app_iff.
      simpl in Hin.
      repeat (destruct Hin as [Hin|Hin]; [inversion Hin; subst; clear Hin |]);
        try contradiction;
        try discriminate;
        intros HK;
        repeat (destruct HK as [HK|HK]);
        try (apply optional_keys in HK; destruct HK as [HK1 HK2]);
        first [discriminate | erewrite Hf in HK2 by eassumption; discriminate].
    + intros HP. rewrite Hm in HP. discriminate HP.
Qed.

Lemma updateBody_omits args k K q :
  In ("update_creatio_account", (k, K)) optionalFields ->
  (forall v, get_prop args k = Ok v -> truthy v = false) ->
  updateBody args q -> omits K q.
Proof.
  intros Hin Hf [Hl | (name & phone & email & web & address & city &
                       Hn & Hp & He & Hw & Ha & Hc & Hm & Hb)].
  - apply isLogin_omits; [| | exact Hl];
      simpl in Hin; intuition congruence.
  - split.
    + intros body Hb'. rewrite Hb in Hb'. inversion Hb'; subst body.
      simpl. rewrite !map_app, !in_app_iff.
      simpl in Hin.
      repeat (destruct Hin as [Hin|Hin]; [inversion Hin; subst; clear Hin |]);
        try contradiction;
        try discriminate;
        intros HK;
        repeat (destruct HK as [HK|HK]);
        try (apply optional_keys in HK; destruct HK as [HK1 HK2]);
        first [discriminate | erewrite Hf in HK2 by eassumption; discriminate].
    + intros _ fields K' v' Hb' HK. rewrite Hb in Hb'. inversion Hb'; subst fields.
      apply truthy_not_empty.
      rewrite !in_app_iff in HK.
      repeat (destruct HK as [HK|HK]); eapply optional_values; exact HK.
Qed.

(** C10. For either dispatcher, for the create tool and the update tool,
    and for each optional field of the tool: when the argument of the field
    is falsy (absent, the empty text, zero, null, false), no request sent
    during the dispatch has that field in its body; and no field of a
    partial update (a PATCH request) is ever the empty text. *)
Theorem falsy_optional_field_is_omitted (d : Dispatcher) (tool k K : string)
    (args : jsval) (w : World) :
  In (tool, (k, K)) optionalFields ->
  (forall v, get_prop args k = Ok v -> truthy v = false) ->
  Forall (omits K)
    (requestsOf
       (run upstream JSON_parse has_getSetCookie JSON_stringify toISOString d tool args) w).
Proof.
  intros Hin Hf. apply requestsOf_sends.
  assert (Ht : tool = "create_creatio_account" \/ tool = "update_creatio_account").
  { simpl in Hin.
    repeat (destruct Hin as [Hin|Hin]; [inversion Hin; auto |]). contradiction. }
  destruct Ht as [-> | ->].
  - eapply sends_mono; [| apply (create_sends d args w)].
    intros q. apply (createBody_omits args k K q); assumption.
  - eapply sends_mono; [| apply (update_sends d args w)].
    intros q. apply (updateBody_omits args k K q); assumption.
Qed.
End Writes.

Lemma falsy_optional_field_is_omitted_witness :
  Forall (omits "Phone")
    (requestsOf
       (run Sample.accepting Sample.parse true Sample.stringify Sample.iso
          ViaStream "update_creatio_account"
          (JObj [("id", JStr "42"); ("name", JStr "Acme"); ("phone", JStr "")]))
       Sample.stale).
Proof.
  apply (falsy_optional_field_is_omitted Sample.accepting Sample.parse true
           Sample.stringify Sample.iso ViaStream "update_creatio_account"
           "phone" "Phone").
  - simpl. tauto.
  - intros v H. vm_compute in H. inversion H. reflexivity.
Defined.

Example update_sends_truthy_fields_only :
  List.map (fun r => (req_method r, req_url r, req_body r))
    (requestsOf
       (run Sample.accepting Sample.parse true Sample.stringify Sample.iso
          ViaStream "update_creatio_account"
          (JObj [("id", JStr "42"); ("name", JStr "Acme"); ("phone", JStr "");
                 ("city", JNull)]))
       Sample.stale)
  = [("POST", "https://crm.example.com/ServiceModel/AuthService.svc/Login",
      Some (JObj [("UserName", JStr "sup"); ("UserPassword", JStr "secret")]));
     ("PATCH", "https://crm.example.com/0/odata/Account(42)",
      Some (JObj [("Name", JStr "Acme")]))].
Proof. reflexivity. Qed.

(** ** Classification of the query response (C4) *)

Lemma prefix_app (n b : string) : String.prefix n (n +:+ b) = true.
Proof.
  induction n as [|c n IH]; [destruct b; reflexivity |].
  change (String c n +:+ b) with (String c (n +:+ b)). simpl.
  destruct (Ascii.ascii_dec c c) as [_|H]; [exact IH | contradiction].
Qed.

Lemma includes_prefix (n s : string) :
  String.prefix n s = true -> Text.includes n s = true.
Proof. intros H. destruct s; cbn [Text.includes]; rewrite H; reflexivity. Qed.

Lemma includes_app (n a b : string) : Text.includes n (a +:+ n +:+ b) = true.
Proof.
  induction a as [|c a IH].
  - apply includes_prefix. exact (prefix_app n b).
  - replace (String c a +:+ (n +:+ b)) with (String c (a +:+ (n +:+ b)))
      by reflexivity.
    cbn [Text.includes]. rewrite IH. apply orb_true_r.
Qed.

Section Classification.

Variable upstream : list Request -> Request -> result Response.
Variable JSON_parse : string -> result jsval.
Variable has_getSetCookie : bool.

Lemma baseUrl_keeps (this : nat) (w : World) : snd (baseUrl this w) = w.
Proof.
  unfold baseUrl, this_config, bind, gets, lift, ret, throw.
  destruct (get_prop (config (clients w this)) "baseUrl") as [[]|]; reflexivity.
Qed.

Lemma getHeaders_keeps (this : nat) (w : World) : snd (getHeaders this w) = w.
Proof.
  unfold getHeaders, this_session, bind, gets, ret, throw.
  destruct (session (clients w this)); reflexivity.
Qed.

Lemma logins_are_posts (l pre : list Request) (req : Request) :
  Forall isLogin l -> l = (pre ++ [req])%list -> req_method req = "GET" -> False.
Proof.
  intros Hl -> Hg. apply Forall_app in Hl. destruct Hl as [_ Hl].
  inversion Hl as [|? ? [Hp _] _]; subst. rewrite Hp in Hg. discriminate.
Qed.

Lemma skipn_sent (l0 l : list Request) : skipn (length l0) (l0 ++ l) = l.
Proof. rewrite skipn_app, Nat.sub_diag, skipn_all. reflexivity. Qed.

(** The run of [queryAccounts] whose last request is a GET. *)
Lemma queryAccounts_inv (this : nat) (params : QueryParams) (w : World)
    (pre : list Request) (req : Request) :
  requestsOf (queryAccounts upstream JSON_parse has_getSetCookie this params) w
  = (pre ++ [req])%list ->
  req_method req = "GET" ->
  exists w1,
    ensureAuthenticated upstream JSON_parse has_getSetCookie this w = (Ok tt, w1)
    /\ sent w1 = (sent w ++ pre)%list
    /\ forall parse : string -> result jsval,
         ensureAuthenticated upstream parse has_getSetCookie this w = (Ok tt, w1) ->
         queryAccounts upstream parse has_getSetCookie this params w
         = (match upstream (sent w1) req with
            | Ok response => queryResult parse response
            | Throw e => Throw e
            end, with_sent (sent w1 ++ [req]) w1).
Proof.
  intros Hreq Hget.
  pose proof (ensureAuthenticated_sends upstream JSON_parse has_getSetCookie this w)
    as Hs.
  unfold wp in Hs. unfold requestsOf, queryAccounts in Hreq.
  destruct (ensureAuthenticated upstream JSON_parse has_getSetCookie this w)
    as [[[]|e] w1] eqn:E1; simpl in Hs; destruct Hs as (l & Hl & Hlog).
  2: { exfalso. rewrite (bind_throw _ _ _ _ _ E1) in Hreq. simpl in Hreq.
       rewrite Hl, skipn_sent in Hreq. eapply logins_are_posts; eauto. }
  rewrite (bind_ok _ _ _ _ _ E1) in Hreq.
  pose proof (baseUrl_keeps this w1) as Kb.
  destruct (baseUrl this w1) as [[base|e] wb] eqn:E2; simpl in Kb; subst wb.
  2: { exfalso. rewrite (bind_throw _ _ _ _ _ E2) in Hreq. simpl in Hreq.
       rewrite Hl, skipn_sent in Hreq. eapply logins_are_posts; eauto. }
  rewrite (bind_ok _ _ _ _ _ E2) in Hreq.
  pose proof (getHeaders_keeps this w1) as Kh.
  destruct (getHeaders this w1) as [[hdrs|e] wh] eqn:E3; simpl in Kh; subst wh.
  2: { exfalso. rewrite (bind_throw _ _ _ _ _ E3) in Hreq. simpl in Hreq.
       rewrite Hl, skipn_sent in Hreq. eapply logins_are_posts; eauto. }
  rewrite (bind_ok _ _ _ _ _ E3) in Hreq.
  assert (Hsent :
            sent (snd (bind (fetch upstream (queryRequest base params hdrs))
                         (fun response => lift (queryResult JSON_parse response))
                         w1))
            = (sent w1 ++ [queryRequest base params hdrs])%list).
  { unfold bind, fetch, lift. destruct (upstream _ _); reflexivity. }
  rewrite Hsent, Hl, <- app_assoc, skipn_sent in Hreq.
  apply app_inj_tail in Hreq. destruct Hreq as [-> <-].
  exists w1. split; [reflexivity |]. split; [exact Hl |].
  intros parse Ep. unfold queryAccounts.
  rewrite (bind_ok _ _ _ _ _ Ep), (bind_ok _ _ _ _ _ E2), (bind_ok _ _ _ _ _ E3).
  unfold bind, fetch, lift. destruct (upstream _ _); reflexivity.
Qed.

Lemma isSessionValid_keeps (this : nat) (w : World) :
  snd (isSessionValid this w) = w.
Proof.
  unfold isSessionValid, this_session, Date_now, bind, gets, ret.
  destruct (session (clients w this)); reflexivity.
Qed.

(** [ensureAuthenticated] uses the parser on the body of the login response
    only. *)
Lemma ensureAuthenticated_parser (parse : string -> result jsval) (this : nat)
    (w : World) :
  (forall login, loginResponse upstream this w = Some login ->
                 parse (text login) = JSON_parse (text login)) ->
  ensureAuthenticated upstream parse has_getSetCookie this w
  = ensureAuthenticated upstream JSON_parse has_getSetCookie this w.
Proof.
  intros Hag. unfold ensureAuthenticated.
  pose proof (isSessionValid_keeps this w) as K.
  destruct (isSessionValid this w) as [[[|]|e] w0] eqn:E; simpl in K; subst w0.
  - rewrite !(bind_ok _ _ _ _ _ E). reflexivity.
  - rewrite !(bind_ok _ _ _ _ _ E). unfold authenticate.
    pose proof (baseUrl_keeps this w) as Kb.
    destruct (baseUrl this w) as [[base|e] wb] eqn:E2; simpl in Kb; subst wb.
    2: { rewrite !(bind_throw _ _ _ _ _ E2). reflexivity. }
    rewrite !(bind_ok _ _ _ _ _ E2).
    unfold this_config, response_json, bind, gets, lift, fetch.
    destruct (loginRequest base (config (clients w this))) as [request|e] eqn:E3;
      [| reflexivity].
    destruct (upstream (sent w) request) as [response|e] eqn:E4; [| reflexivity].
    destruct (negb (ok response)); [reflexivity |].
    rewrite (Hag response); [reflexivity |].
    unfold loginResponse, loginRequestOf. rewrite E2, E3, E4. reflexivity.
  - rewrite !(bind_throw _ _ _ _ _ E). reflexivity.
Qed.

(** C4, as amended. Whenever the query request of [queryAccounts] is
    answered with a success status and a content type that contains
    [text/html] in these lower-case letters, the operation throws the error
    of [UnexpectedContentType], with the title of the page; this holds with a
    valid session and after a new login alike.  The body is not parsed: the
    whole run is the same under every parser that reads the body of the
    login response, if there was a login, as [JSON.parse] does. *)
Theorem html_success_is_unexpected_content_type (this : nat) (params : QueryParams)
    (w : World) (pre : list Request) (req : Request) (response : Response)
    (before after : string) :
  requestsOf (queryAccounts upstream JSON_parse has_getSetCookie this params) w
  = (pre ++ [req])%list ->
  req_method req = "GET" ->
  upstream (sent w ++ pre) req = Ok response ->
  ok response = true ->
  content_type response = Some (before +:+ "text/html" +:+ after) ->
  classifyQuery JSON_parse response
  = inl (UnexpectedContentType (errorTitle (text response) "Unknown Error"))
  /\ fst (queryAccounts upstream JSON_parse has_getSetCookie this params w)
     = Throw (Error ("Creatio returned HTML instead of JSON: " +:+
                     errorTitle (text response) "Unknown Error" +:+
                     ". Check that your user has OData API access permissions."))
  /\ (forall parse : string -> result jsval,
        (forall login, loginResponse upstream this w = Some login ->
                       parse (text login) = JSON_parse (text login)) ->
        queryAccounts upstream parse has_getSetCookie this params w
        = queryAccounts upstream JSON_parse has_getSetCookie this params w).
Proof.
  intros Hreq Hget Hup Hok Hct.
  assert (Hc : forall parse,
             classifyQuery parse response
             = inl (UnexpectedContentType
                      (errorTitle (text response) "Unknown Error"))).
  { intros parse. unfold classifyQuery. rewrite Hok, Hct. simpl.
    rewrite includes_app. reflexivity. }
  destruct (queryAccounts_inv this params w pre req Hreq Hget)
    as (w1 & E1 & Hl & Hq).
  rewrite <- Hl in Hup.
  split; [apply Hc |]. split.
  - rewrite (Hq JSON_parse E1), Hup. unfold queryResult. rewrite Hc. reflexivity.
  - intros parse Hag.
    rewrite (Hq JSON_parse E1).
    rewrite (Hq parse); [| rewrite ensureAuthenticated_parser; assumption].
    rewrite Hup. unfold queryResult. rewrite !Hc. reflexivity.
Qed.

End Classification.

Lemma html_success_is_unexpected_content_type_witness :
  fst (queryAccounts Sample.loginPage Sample.parse true 0%nat (untyped noParams)
         Sample.fresh)
  = Throw (Error "Creatio returned HTML instead of JSON: Sign in. Check that your user has OData API access permissions.")
  /\ fst (queryAccounts Sample.pageAfterLogin Sample.parse true 0%nat
            (untyped noParams) Sample.stale)
     = Throw (Error "Creatio returned HTML instead of JSON: Sign in. Check that your user has OData API access permissions.").
Proof.
  split.
  - exact (proj1 (proj2
      (html_success_is_unexpected_content_type Sample.loginPage Sample.parse true
         0%nat (untyped noParams) Sample.fresh []
         (queryRequest "https://crm.example.com" (untyped noParams)
            [("Accept", "application/json");
             ("Content-Type",
              "application/json; charset=utf-8; IEEE754Compatible=true");
             ("ForceUseSession", "true"); ("BPMCSRF", "tok");
             ("Cookie", "BPMCSRF=tok")])
         (Sample.reply 200 "OK" "<html><title>Sign in</title></html>"
            (Some "text/html; charset=utf-8") [])
         "" "; charset=utf-8" eq_refl eq_refl eq_refl eq_refl eq_refl))).
  - exact (proj1 (proj2
      (html_success_is_unexpected_content_type Sample.pageAfterLogin Sample.parse
         true 0%nat (untyped noParams) Sample.stale
         [{| req_method := "POST";
             req_url := "https://crm.example.com/ServiceModel/AuthService.svc/Login";
             req_headers := [("Content-Type", "application/json")];
             req_body := Some (JObj [("UserName", JStr "sup");
                                     ("UserPassword", JStr "secret")]) |}]
         (queryRequest "https://crm.example.com" (untyped noParams)
            [("Accept", "application/json");
             ("Content-Type",
              "application/json; charset=utf-8; IEEE754Compatible=true");
             ("ForceUseSession", "true"); ("BPMCSRF", "tok");
             ("Cookie",
              "BPMCSRF=tok; .ASPXAUTH=ticket; BPMLOADER=ld; UserName=sup")])
         (Sample.reply 200 "OK" "<html><title>Sign in</title></html>"
            (Some "text/html; charset=utf-8") [])
         "" "; charset=utf-8" eq_refl eq_refl eq_refl eq_refl eq_refl))).
Defined.

(** C4, as stated, fails: the test for HTML compares letters as they are.  A
    response with status 200 whose content type names HTML with capital
    letters is handed to [JSON.parse]: with the sign-in page as body the
    operation throws the malformed-response error, not the one of
    [UnexpectedContentType], and under a parser that accepts the body it
    returns records. *)
Lemma capitalised_html_is_parsed :
  ok (Sample.reply 200 "OK" "<html><title>Sign in</title></html>"
        (Some "Text/HTML; charset=utf-8") []) = true
  /\ declaresHtml
       (Sample.reply 200 "OK" "<html><title>Sign in</title></html>"
          (Some "Text/HTML; charset=utf-8") []) = true
  /\ fst (queryAccounts Sample.capitalised Sample.parse true 0%nat
            (untyped noParams) Sample.fresh)
     = Throw (Error "Invalid response from Creatio. Expected JSON but received: <html><title>Sign in</title></html>...")
  /\ fst (queryAccounts Sample.capitalised Sample.lenient true 0%nat
            (untyped noParams) Sample.fresh)
     = Ok (JArr [])
  /\ fst (queryAccounts Sample.capitalised Sample.parse true 0%nat
            (untyped noParams) Sample.fresh)
     <> Throw (Error "Creatio returned HTML instead of JSON: Sign in. Check that your user has OData API access permissions.").
Proof. repeat split; try reflexivity. discriminate. Qed.

(** * Further properties *)

(** ** Texts *)

Lemma append_cons (c : ascii) (a b : string) :
  String c a +:+ b = String c (a +:+ b).
Proof. reflexivity. Qed.

Lemma join_cons (sep x : string) (l : list string) :
  l <> [] -> Text.join sep (x :: l) = x +:+ sep +:+ Text.join sep l.
Proof. destruct l; [contradiction | reflexivity]. Qed.

Lemma is_char_eq (a c : ascii) : Text.is_char a c = true -> c = a.
Proof. unfold Text.is_char. apply Ascii.eqb_eq. Qed.

Lemma not_char_false (a c : ascii) : Text.not_char a c = false -> c = a.
Proof.
  unfold Text.not_char. intros H. apply negb_false_iff in H.
  apply Ascii.eqb_eq in H. exact H.
Qed.

Lemma span_app (p : ascii -> bool) (s : string) :
  fst (Text.span p s) +:+ snd (Text.span p s) = s.
Proof.
  induction s as [|c s' IH]; [reflexivity |].
  simpl. destruct (p c); [| reflexivity].
  destruct (Text.span p s') as [a b]. simpl in *. rewrite append_cons, IH.
  reflexivity.
Qed.

Lemma span_all (p : ascii -> bool) (s : string) :
  all_chars p (fst (Text.span p s)) = true.
Proof.
  induction s as [|c s' IH]; [reflexivity |].
  simpl. destruct (p c) eqn:E; [| reflexivity].
  destruct (Text.span p s') as [a b]. simpl in *. rewrite E, IH. reflexivity.
Qed.

Lemma span_stop (p : ascii -> bool) (s : string) :
  match snd (Text.span p s) with
  | EmptyString => True
  | String c _ => p c = false
  end.
Proof.
  induction s as [|c s' IH]; [exact I |].
  simpl. destruct (p c) eqn:E; [| exact E].
  destruct (Text.span p s') as [a b]. exact IH.
Qed.

Lemma span_cons_true (p : ascii -> bool) (c : ascii) (s : string) :
  p c = true ->
  Text.span p (String c s) = (String c (fst (Text.span p s)), snd (Text.span p s)).
Proof. intros H. simpl. rewrite H. destruct (Text.span p s); reflexivity. Qed.

Lemma drop_while_app (p : ascii -> bool) (s : string) (c : ascii) (t : string) :
  p c = false ->
  Text.drop_while p (s +:+ String c t) = Text.drop_while p s +:+ String c t.
Proof.
  intros H. induction s as [|a s' IH].
  - simpl. rewrite H. reflexivity.
  - rewrite append_cons. simpl. destruct (p a); [exact IH | reflexivity].
Qed.

Lemma all_chars_drop_while (p q : ascii -> bool) (s : string) :
  all_chars p s = true -> all_chars p (Text.drop_while q s) = true.
Proof.
  induction s as [|c s IH]; [reflexivity |].
  intros H. simpl. destruct (q c); [| exact H].
  simpl in H. apply andb_true_iff in H. apply IH. tauto.
Qed.

Lemma all_chars_rev_acc (p : ascii -> bool) (s acc : string) :
  all_chars p s = true -> all_chars p acc = true ->
  all_chars p (Text.rev_acc s acc) = true.
Proof.
  revert acc. induction s as [|c s IH]; intros acc Hs Ha; [exact Ha |].
  simpl in *. apply andb_true_iff in Hs. destruct Hs as [Hc Hs].
  apply IH; [exact Hs |]. simpl. rewrite Hc, Ha. reflexivity.
Qed.

Lemma all_chars_trim (p : ascii -> bool) (s : string) :
  all_chars p s = true -> all_chars p (Text.trim s) = true.
Proof.
  intros H. unfold Text.trim, Text.rev.
  apply all_chars_rev_acc; [| reflexivity].
  apply all_chars_drop_while. apply all_chars_rev_acc; [| reflexivity].
  apply all_chars_drop_while. exact H.
Qed.

(** ** The split of a combined header *)

Section Splitting.
Import Text Cookies CookieSpec.

Lemma split_nonempty (s : string) : split s <> [].
Proof.
  destruct s as [|c s']; simpl; [discriminate |].
  destruct (is_char "," c && lookahead s'); [discriminate |].
  destruct (split s'); discriminate.
Qed.

(** X1. Joining the pieces of the split with commas gives the text back, and
    the split has at least one piece: the split loses nothing but the commas
    at which it cuts. *)
Theorem split_join (s : string) : join "," (split s) = s /\ split s <> [].
Proof.
  split; [| apply split_nonempty].
  induction s as [|c s' IH]; [reflexivity |].
  simpl. destruct (is_char "," c && lookahead s') eqn:E.
  - apply andb_true_iff in E. destruct E as [E _]. apply is_char_eq in E. subst c.
    rewrite join_cons by apply split_nonempty. rewrite IH. reflexivity.
  - destruct (split s') as [|seg rest] eqn:Es;
      [exfalso; eapply split_nonempty; eauto |].
    destruct rest as [|r rest'].
    + simpl in *. rewrite IH. reflexivity.
    + rewrite join_cons by discriminate. rewrite join_cons in IH by discriminate.
      rewrite <- IH. reflexivity.
Qed.

(** X2. When the cookie pattern matches a header line, the line is the name,
    an equals sign, the value and a remainder that is empty or starts with a
    semicolon; the name is not empty and holds no equals sign, and the value
    holds no semicolon. *)
Theorem cookieMatch_parts (h n v : string) :
  cookieMatch h = Some (n, v) ->
  exists rest,
    h = n +:+ "=" +:+ v +:+ rest /\
    n <> "" /\
    all_chars (not_char "=") n = true /\
    all_chars (not_char ";") v = true /\
    String.prefix ";" rest = negb (String.eqb rest "").
Proof.
  unfold cookieMatch. intros H.
  pose proof (span_app (not_char "=") h) as Happ.
  pose proof (span_all (not_char "=") h) as Hall.
  pose proof (span_stop (not_char "=") h) as Hstop.
  destruct (span (not_char "=") h) as [name rest]. simpl in *.
  destruct name as [|c0 name']; [discriminate |].
  destruct rest as [|e after]; [discriminate |].
  inversion H; subst n v; clear H.
  apply not_char_false in Hstop. subst e.
  pose proof (span_app (not_char ";") after) as Happ2.
  pose proof (span_all (not_char ";") after) as Hall2.
  pose proof (span_stop (not_char ";") after) as Hstop2.
  destruct (span (not_char ";") after) as [val rest2]. simpl in *.
  exists rest2. repeat split.
  - rewrite Happ2. symmetry. exact Happ.
  - discriminate.
  - exact Hall.
  - exact Hall2.
  - destruct rest2 as [|c r]; [reflexivity |].
    apply not_char_false in Hstop2. subst c. simpl. destruct r; reflexivity.
Qed.

Lemma is_known_In (name : string) : is_known name = true -> In name KNOWN.
Proof.
  unfold is_known. intros H. apply existsb_exists in H.
  destruct H as (k & Hk & E). apply String.eqb_eq in E. subst. exact Hk.
Qed.

Lemma parsed_value_clean (h : string) (nv : string * string) :
  parsed h = Some nv -> all_chars (not_char ";") (snd nv) = true.
Proof.
  unfold parsed, cookieMatch.
  destruct (span (not_char "=") h) as [name rest].
  destruct name as [|c0 name']; [discriminate |].
  destruct rest as [|e after]; [discriminate |].
  intros H. inversion H; subst nv; clear H. simpl.
  apply all_chars_trim. apply span_all.
Qed.

Lemma kept_sound (headers : list string) :
  Forall (fun nv =>
            In (fst nv) KNOWN /\
            all_chars (not_char ";") (snd nv) = true /\
            exists piece, In piece headers /\ parsed piece = Some nv)
    (kept headers)
  /\ (length (kept headers) <= length headers)%nat.
Proof.
  induction headers as [|h rest [IH1 IH2]]; [split; [constructor | reflexivity] |].
  assert (IH1' : Forall (fun nv =>
            In (fst nv) KNOWN /\
            all_chars (not_char ";") (snd nv) = true /\
            exists piece, In piece (h :: rest) /\ parsed piece = Some nv)
            (kept rest)).
  { eapply Forall_impl; [exact IH1 |]. intros nv (H1 & H2 & piece & H3 & H4).
    repeat split; auto. exists piece. split; [right; exact H3 | exact H4]. }
  simpl. destruct (parsed h) as [nv|] eqn:P.
  - destruct (is_known (fst nv)) eqn:E; simpl.
    + split; [| lia]. constructor; [| exact IH1'].
      split; [apply is_known_In; exact E |].
      split; [eapply parsed_value_clean; exact P |].
      exists h. split; [left; reflexivity | exact P].
    + split; [exact IH1' | lia].
  - split; [exact IH1' | lia].
Qed.

(** X3. Whichever way the [Set-Cookie] lines are delivered, the assembled
    cookie string is a list of name=value pairs joined by a semicolon and a
    space.  Every pair is the trimmed name and value that the cookie pattern
    reads from one header piece; its name is one of the four known names and
    its value holds no semicolon, so the pairs can be read back from the
    string.  There is at most one pair for each piece, and with the
    multi-value accessor the pieces are the lines themselves. *)
Theorem assembled_pairs_are_known (has_getSetCookie : bool) (lines : list string) :
  exists pairs : list (string * string),
    fst (fromResponse has_getSetCookie lines) = join "; " (List.map render pairs) /\
    Forall (fun nv =>
              In (fst nv) KNOWN /\
              all_chars (not_char ";") (snd nv) = true /\
              exists piece,
                In piece (setCookieHeaders has_getSetCookie lines) /\
                parsed piece = Some nv) pairs /\
    (length pairs <= length (setCookieHeaders has_getSetCookie lines))%nat /\
    (has_getSetCookie = true -> setCookieHeaders has_getSetCookie lines = lines).
Proof.
  exists (kept (setCookieHeaders has_getSetCookie lines)).
  destruct (kept_sound (setCookieHeaders has_getSetCookie lines)) as [H1 H2].
  split; [| split; [exact H1 | split; [exact H2 |]]].
  - unfold fromResponse, extract, scan. rewrite scan_from. reflexivity.
  - intros ->. reflexivity.
Qed.

Lemma lookahead_app_sep (s t : string) :
  lookahead (s +:+ String "," t) = lookahead s.
Proof.
  unfold lookahead. rewrite drop_while_app by reflexivity.
  destruct (drop_while is_space s) as [|c s']; [reflexivity |].
  rewrite append_cons. rewrite drop_while_app by reflexivity.
  destruct (drop_while is_name_char s') as [|e r]; [| reflexivity].
  simpl. rewrite andb_false_r. reflexivity.
Qed.

Lemma split_app_cut (a t : string) :
  split a = [a] -> lookahead t = true ->
  split (a +:+ String "," t) = a :: split t.
Proof.
  intros Ha Ht. induction a as [|c a' IH].
  - simpl. rewrite Ht. reflexivity.
  - rewrite append_cons. simpl in *. rewrite lookahead_app_sep.
    destruct (is_char "," c && lookahead a').
    + inversion Ha.
    + destruct (split a') as [|seg rest] eqn:E;
        [exfalso; eapply split_nonempty; eauto |].
      inversion Ha; subst. rewrite IH by reflexivity. reflexivity.
Qed.

Lemma split_space (x : string) :
  split (String " " x)
  = match split x with
    | seg :: r => String " " seg :: r
    | [] => [String " " EmptyString]
    end.
Proof. reflexivity. Qed.

Lemma split_joined (l1 : string) (rest : list string) :
  Forall uncut (l1 :: rest) -> Forall named rest ->
  split (join ", " (l1 :: rest)) = l1 :: List.map (String " ") rest.
Proof.
  revert l1. induction rest as [|l2 rest IH]; intros l1 Hu Hn.
  - simpl. inversion Hu; subst. assumption.
  - rewrite join_cons by discriminate.
    inversion Hu as [|? ? Hu1 Hu']; subst. inversion Hn as [|? ? Hn2 Hn']; subst.
    change (l1 +:+ ", " +:+ join ", " (l2 :: rest))
      with (l1 +:+ String "," (String " " (join ", " (l2 :: rest)))).
    assert (Hs : split (String " " (join ", " (l2 :: rest)))
                 = String " " l2 :: List.map (String " ") rest).
    { rewrite split_space, (IH l2 Hu' Hn'). reflexivity. }
    rewrite split_app_cut.
    + rewrite Hs. reflexivity.
    + exact Hu1.
    + destruct rest as [|l3 rest'].
      * exact Hn2.
      * rewrite join_cons by discriminate.
        change (String " " (l2 +:+ ", " +:+ join ", " (l3 :: rest')))
          with (String " " l2 +:+ String "," (String " " (join ", " (l3 :: rest')))).
        rewrite lookahead_app_sep. exact Hn2.
Qed.

Lemma named_step (st : list string * string) (l : string) :
  named l -> step st (String " " l) = step st l.
Proof.
  unfold named, step. intros H. destruct st as [parts tok].
  unfold cookieMatch.
  rewrite span_cons_true by reflexivity.
  destruct (span (not_char "=") l) as [a b] eqn:E. simpl fst. simpl snd.
  destruct a as [|c0 a'].
  - exfalso. destruct l as [|c l']; [discriminate H |].
    simpl in E. destruct (not_char "=" c) eqn:Ec.
    + destruct (span (not_char "=") l'); discriminate E.
    + apply not_char_false in Ec. subst c. discriminate H.
  - destruct b as [|e after]; reflexivity.
Qed.

Lemma named_scan (rest : list string) (st : list string * string) :
  Forall named rest ->
  fold_left step (List.map (String " ") rest) st = fold_left step rest st.
Proof.
  revert st. induction rest as [|l rest IH]; intros st H; [reflexivity |].
  inversion H; subst. simpl. rewrite named_step by assumption.
  apply IH. assumption.
Qed.

Lemma join_empty (l1 : string) (rest : list string) :
  nonempty (join ", " (l1 :: rest)) = false -> l1 = "" /\ rest = [].
Proof.
  unfold nonempty. intros H. apply negb_false_iff in H. apply String.eqb_eq in H.
  destruct rest.
  - simpl in H. auto.
  - rewrite join_cons in H by discriminate. destruct l1; discriminate H.
Qed.

(** X4. When the pattern cuts no [Set-Cookie] line in itself (a comma inside
    an attribute, as in an [expires] date, is not followed by a name and an
    equals sign) and every line after the first starts with a name that the
    pattern accepts (a letter or an underscore, then letters, digits,
    underscores or hyphens, then an equals sign), the combined header gives
    the same cookie string and the same token as the multi-value accessor. *)
Theorem combined_agrees_with_multi_value (lines : list string) :
  Forall uncut lines -> Forall named (tail lines) ->
  fromResponse false lines = fromResponse true lines.
Proof.
  intros Hu Hn. unfold fromResponse, setCookieHeaders.
  destruct lines as [|l1 rest]; [reflexivity |].
  unfold headers_get_set_cookie. simpl in Hn.
  destruct (nonempty (join ", " (l1 :: rest))) eqn:E.
  - rewrite (split_joined l1 rest Hu Hn).
    unfold extract, scan. simpl fold_left. rewrite named_scan by assumption.
    reflexivity.
  - apply join_empty in E. destruct E; subst. reflexivity.
Qed.

End Splitting.

Lemma cookieMatch_parts_witness :
  exists rest,
    "BPMCSRF=tok; path=/" = "BPMCSRF" +:+ "=" +:+ "tok" +:+ rest /\
    "BPMCSRF" <> "" /\
    all_chars (Text.not_char "=") "BPMCSRF" = true /\
    all_chars (Text.not_char ";") "tok" = true /\
    String.prefix ";" rest = negb (String.eqb rest "").
Proof.
  exact (cookieMatch_parts "BPMCSRF=tok; path=/" "BPMCSRF" "tok" eq_refl).
Defined.

Lemma combined_agrees_with_multi_value_witness :
  Cookies.fromResponse false
    ["BPMCSRF=tok; expires=Wed, 21 Oct 2030 07:28:00 GMT; path=/";
     "BPMLOADER=ld; path=/"; "UserName=sup; path=/"]
  = Cookies.fromResponse true
      ["BPMCSRF=tok; expires=Wed, 21 Oct 2030 07:28:00 GMT; path=/";
       "BPMLOADER=ld; path=/"; "UserName=sup; path=/"].
Proof.
  apply combined_agrees_with_multi_value.
  - repeat constructor; reflexivity.
  - repeat constructor; reflexivity.
Defined.

(** On the combined-header path a line whose name the split pattern does not
    accept is not cut off: it stays inside the value of the cookie before
    it. *)
Example uncut_cookie_rides_in_the_value :
  Cookies.fromResponse false ["BPMCSRF=tok"; ".Other=x; path=/"]
  = ("BPMCSRF=tok, .Other=x", "tok, .Other=x")
  /\ Cookies.fromResponse true ["BPMCSRF=tok"; ".Other=x; path=/"]
     = ("BPMCSRF=tok", "tok").
Proof. split; reflexivity. Qed.

(** ** The session of the client *)

Lemma wp_and {A} (m : M A) (P Q : result A -> World -> Prop) w :
  wp m P w -> wp m Q w -> wp m (fun r w' => P r w' /\ Q r w') w.
Proof. unfold wp. auto. Qed.

Lemma wp_any {A} (m : M A) (Q : result A -> World -> Prop) w :
  (forall r w', Q r w') -> wp m Q w.
Proof. unfold wp. auto. Qed.

Lemma wp_ext {A} (m m' : M A) (Q : result A -> World -> Prop) w :
  m w = m' w -> wp m' Q w -> wp m Q w.
Proof. unfold wp. intros ->. auto. Qed.


Lemma strip_added_slash (s : string) : strip_trailing_slash (s +:+ "/") = s.
Proof.
  induction s as [|c s' IH]; [reflexivity |].
  rewrite append_cons. simpl. rewrite IH.
  destruct (s' +:+ "/") eqn:E; [destruct s'; discriminate E | reflexivity].
Qed.

Lemma strip_no_slash (s : string) :
  last_char s <> Some "/"%char -> strip_trailing_slash s = s.
Proof.
  induction s as [|c s' IH]; [reflexivity |].
  intros H. simpl in *. destruct s' as [|c' s''].
  - unfold Text.is_char. destruct (Ascii.eqb c "/") eqn:E; [| reflexivity].
    apply Ascii.eqb_eq in E. subst. contradiction.
  - rewrite IH by exact H. reflexivity.
Qed.

(** X5. The base URL of a client is its configured URL without one trailing
    slash: a configured URL that is [b] followed by a slash gives [b] (only
    that slash is removed, also when [b] itself ends with one), and a URL
    that does not end with a slash is used as it is. *)
Theorem baseUrl_drops_one_slash (this : nat) (w : World) (b : string) :
  (get_prop (config (clients w this)) "baseUrl" = Ok (JStr (b +:+ "/")) ->
   baseUrl this w = (Ok b, w))
  /\ (get_prop (config (clients w this)) "baseUrl" = Ok (JStr b) ->
      last_char b <> Some "/"%char ->
      baseUrl this w = (Ok b, w)).
Proof.
  split.
  - intros H. unfold baseUrl, this_config, bind, gets, lift. rewrite H. simpl.
    unfold ret. rewrite strip_added_slash. reflexivity.
  - intros H Hl. unfold baseUrl, this_config, bind, gets, lift. rewrite H. simpl.
    unfold ret. rewrite strip_no_slash by exact Hl. reflexivity.
Qed.

Lemma baseUrl_drops_one_slash_witness :
  baseUrl 0%nat Sample.stale = (Ok "https://crm.example.com", Sample.stale)
  /\ baseUrl 0%nat
       (snd (new_CreatioClient (JObj [("baseUrl", JStr "http://localhost:8080")])
               Sample.boot))
     = (Ok "http://localhost:8080",
        snd (new_CreatioClient (JObj [("baseUrl", JStr "http://localhost:8080")])
               Sample.boot)).
Proof.
  split.
  - exact (proj1 (baseUrl_drops_one_slash 0%nat Sample.stale
                    "https://crm.example.com") eq_refl).
  - apply (proj2 (baseUrl_drops_one_slash 0%nat
                    (snd (new_CreatioClient
                            (JObj [("baseUrl", JStr "http://localhost:8080")])
                            Sample.boot))
                    "http://localhost:8080")).
    + reflexivity.
    + simpl. discriminate.
Defined.

Section Session.

Variable upstream : list Request -> Request -> result Response.
Variable JSON_parse : string -> result jsval.
Variable has_getSetCookie : bool.

Lemma authenticate_keeps_now (this : nat) (w : World) :
  wp (authenticate upstream JSON_parse has_getSetCookie this)
    (fun _ w' => now w' = now w) w.
Proof. unfold_client. wp_go. all: reflexivity. Qed.

(** X6. After [authenticate] has returned, the client's session is valid:
    [ensureAuthenticated] changes nothing and sends nothing, and the headers
    of the next request carry the token and the cookies taken from that
    login response. *)
Theorem authenticated_session_is_reused (this : nat) (w w' : World) :
  authenticate upstream JSON_parse has_getSetCookie this w = (Ok tt, w') ->
  exists response,
    loginResponse upstream this w = Some response /\
    ensureAuthenticated upstream JSON_parse has_getSetCookie this w' = (Ok tt, w') /\
    getHeaders this w'
    = (Ok (sessionHeaders (newSession has_getSetCookie response (now w))), w').
Proof.
  intros H.
  pose proof (authenticate_ok_stores_session upstream JSON_parse has_getSetCookie
                this w) as Ho.
  pose proof (authenticate_keeps_now this w) as Hn.
  unfold wp in Ho, Hn. rewrite H in Ho, Hn. simpl in Ho, Hn.
  destruct Ho as (response & Hr & _ & Hs & _).
  exists response. split; [exact Hr |]. split.
  - unfold ensureAuthenticated, isSessionValid, this_session, Date_now, bind, gets, ret.
    rewrite Hs. simpl. rewrite Hn.
    replace (now w <? now w + sessionTimeout) with true; [reflexivity |].
    symmetry. apply Z.ltb_lt. unfold sessionTimeout. lia.
  - unfold getHeaders, this_session, bind, gets, ret. rewrite Hs. reflexivity.
Qed.

Lemma ensure_invalid (this : nat) (w : World) :
  fst (isSessionValid this w) = Ok false ->
  ensureAuthenticated upstream JSON_parse has_getSetCookie this w
  = authenticate upstream JSON_parse has_getSetCookie this w.
Proof.
  unfold ensureAuthenticated, isSessionValid, this_session, Date_now, bind, gets, ret.
  destruct (session (clients w this)) as [s|]; simpl; [| reflexivity].
  intros H. inversion H as [E]. rewrite E. reflexivity.
Qed.

Lemma authenticate_requests (this : nat) (w : World) :
  wp (authenticate upstream JSON_parse has_getSetCookie this)
    (fun _ w' => sent w' = (sent w ++ loginOf this w)%list) w.
Proof.
  unfold_client. wp_go.
  all: simpl; unfold loginOf, loginRequestOf, baseUrl, this_config, bind, gets, lift.
  all: repeat match goal with
              | H : get_prop _ _ = _ |- _ => rewrite H; clear H
              | H : loginRequest _ _ = _ |- _ => rewrite H; clear H
              end; simpl.
  all: repeat match goal with
              | H : loginRequest _ _ = _ |- _ => rewrite H; clear H
              end; simpl.
  all: try (rewrite app_nil_r; reflexivity); try reflexivity.
Qed.

Lemma authenticate_trace (this : nat) (w : World) :
  wp (authenticate upstream JSON_parse has_getSetCookie this)
    (fun r w' =>
       sent w' = (sent w ++ loginOf this w)%list /\
       match r with
       | Ok _ =>
           exists response,
             loginResponse upstream this w = Some response /\
             loginFails JSON_parse response = false /\
             session (clients w' this)
             = Some (newSession has_getSetCookie response (now w))
       | Throw _ => True
       end) w.
Proof.
  apply wp_and; [apply authenticate_requests |].
  eapply wp_mono; [apply authenticate_ok_stores_session |].
  intros [[]|e] w' H; [| exact I].
  destruct H as (response & Hr & Hf & Hs & _). exists response. auto.
Qed.

Lemma loginOf_freshly (this : nat) (w : World) :
  Forall (freshly upstream JSON_parse has_getSetCookie this w) (loginOf this w).
Proof.
  unfold loginOf. destruct (loginRequestOf this w) eqn:E.
  - constructor; [left; exact E | constructor].
  - constructor.
Qed.

Lemma traced_login (this : nat) (w w' : World) :
  sent w' = (sent w ++ loginOf this w)%list ->
  traced upstream JSON_parse has_getSetCookie this w w'.
Proof.
  intros H. exists (loginOf this w). split; [exact H |].
  split; [apply loginOf_freshly | reflexivity].
Qed.

Lemma traced_data (this : nat) (w w1 : World) (response : Response) (r : Request) :
  sent w1 = (sent w ++ loginOf this w)%list ->
  loginResponse upstream this w = Some response ->
  loginFails JSON_parse response = false ->
  req_headers r = sessionHeaders (newSession has_getSetCookie response (now w)) ->
  traced upstream JSON_parse has_getSetCookie this w (with_sent (sent w1 ++ [r]) w1).
Proof.
  intros H Hr Hf Hh. exists (loginOf this w ++ [r])%list. simpl.
  split; [rewrite H, app_assoc; reflexivity |]. split.
  - apply Forall_app. split; [apply loginOf_freshly |].
    constructor; [| constructor]. right. exists response. auto.
  - intros Hall. rewrite (Hall response Hr) in Hf. discriminate Hf.
Qed.

Ltac after_traced H Hr Hf Hs :=
  unfold_client; wp_go; simpl;
  first [ apply traced_login; exact H
        | eapply traced_data; [exact H | exact Hr | exact Hf |];
          simpl; inversion Hs; subst; reflexivity ].

(** X7. When the client has no session or its session has expired (the
    current instant is not before [expiresAt]), every request that a data
    operation sends is either the login request of this run or carries the
    headers of the session built from the response to that login, which was
    not a failed login: the old token and cookies are never sent.  When the
    login gets no response or fails, the login request is the only request
    sent (and nothing is sent when the login request cannot be built). *)
Theorem stale_session_is_not_reused (op : Operation) (this : nat) (w : World) :
  fst (isSessionValid this w) = Ok false ->
  Forall (freshly upstream JSON_parse has_getSetCookie this w)
    (requestsOf (perform upstream JSON_parse has_getSetCookie op this) w)
  /\ ((forall response, loginResponse upstream this w = Some response ->
                        loginFails JSON_parse response = true) ->
      requestsOf (perform upstream JSON_parse has_getSetCookie op this) w
      = loginOf this w).
Proof.
  intros Hinv.
  assert (T : traced upstream JSON_parse has_getSetCookie this w
                (snd (perform upstream JSON_parse has_getSetCookie op this w))).
  { change (wp (perform upstream JSON_parse has_getSetCookie op this)
              (fun _ w' => traced upstream JSON_parse has_getSetCookie this w w') w).
    destruct op; unfold perform, queryAccounts, getAccountById, createAccount,
      updateAccount, deleteAccount.
    all: wp_go.
    all: eapply wp_ext; [apply ensure_invalid; exact Hinv |].
    all: eapply wp_mono; [apply authenticate_trace |].
    all: intros [[]|e] w1 [H Hok];
      [ destruct Hok as (response & Hr & Hf & Hs)
      | simpl; apply traced_login; exact H ].
    all: after_traced H Hr Hf Hs. }
  destruct T as (l & Hl & Hfr & Honly).
  assert (E : requestsOf (perform upstream JSON_parse has_getSetCookie op this) w = l).
  { unfold requestsOf. rewrite Hl, skipn_app, Nat.sub_diag, skipn_all. reflexivity. }
  rewrite E. split; assumption.
Qed.

Section Valid.

Variable this : nat.
Variable w : World.
Variable s : CreatioSession.
Variable b : string.
Hypothesis Hs : session (clients w this) = Some s.
Hypothesis Hv : (now w <? expiresAt s) = true.
Hypothesis Hb : get_prop (config (clients w this)) "baseUrl" = Ok (JStr b).










End Valid.

End Session.

Lemma authenticated_session_is_reused_witness :
  exists response,
    loginResponse Sample.accepting 0%nat Sample.stale = Some response /\
    ensureAuthenticated Sample.accepting Sample.parse true 0%nat
      (snd (authenticate Sample.accepting Sample.parse true 0%nat Sample.stale))
    = (Ok tt, snd (authenticate Sample.accepting Sample.parse true 0%nat Sample.stale)) /\
    getHeaders 0%nat
      (snd (authenticate Sample.accepting Sample.parse true 0%nat Sample.stale))
    = (Ok (sessionHeaders (newSession true response (now Sample.stale))),
       snd (authenticate Sample.accepting Sample.parse true 0%nat Sample.stale)).
Proof.
  exact (authenticated_session_is_reused Sample.accepting Sample.parse true 0%nat
           Sample.stale
           (snd (authenticate Sample.accepting Sample.parse true 0%nat Sample.stale))
           eq_refl).
Defined.

Lemma stale_session_is_not_reused_witness :
  Forall (freshly Sample.accepting Sample.parse true 0%nat Sample.stale)
    (requestsOf (perform Sample.accepting Sample.parse true (OpDelete (JStr "42")) 0%nat)
       Sample.stale)
  /\ requestsOf (perform Sample.refusing Sample.parse true (OpDelete (JStr "42")) 0%nat)
       Sample.stale
     = loginOf 0%nat Sample.stale.
Proof.
  split.
  - exact (proj1 (stale_session_is_not_reused Sample.accepting Sample.parse true
                    (OpDelete (JStr "42")) 0%nat Sample.stale eq_refl)).
  - apply (proj2 (stale_session_is_not_reused Sample.refusing Sample.parse true
                    (OpDelete (JStr "42")) 0%nat Sample.stale eq_refl)).
    intros response H. inversion H. reflexivity.
Defined.

Example stale_session_requests :
  List.map (fun r => (req_method r, List.map snd (req_headers r)))
    (requestsOf (perform Sample.accepting Sample.parse true (OpDelete (JStr "42")) 0%nat)
       Sample.stale)
  = [("POST", ["application/json"]);
     ("DELETE",
      ["application/json";
       "application/json; charset=utf-8; IEEE754Compatible=true"; "true"; "tok";
       "BPMCSRF=tok; .ASPXAUTH=ticket; BPMLOADER=ld; UserName=sup"])].
Proof. reflexivity. Qed.



Example delete_answers :
  fst (deleteAccount Scene.noContent Sample.parse true 0%nat (JStr "42") Sample.fresh)
  = Ok tt
  /\ fst (deleteAccount Scene.missing Sample.parse true 0%nat (JStr "42") Sample.fresh)
     = Throw (Error "Delete account failed: 404 Not Found - ").
Proof. split; reflexivity. Qed.

(** ** An account that does not exist *)

Section NotFound.

Variable upstream : list Request -> Request -> result Response.
Variable JSON_parse : string -> result jsval.
Variable has_getSetCookie : bool.
Variable JSON_stringify : jsval -> string.
Variable toISOString : Z -> string.


End NotFound.


(** ** The dispatchers *)

Section Dispatchers.

Variable upstream : list Request -> Request -> result Response.
Variable JSON_parse : string -> result jsval.
Variable has_getSetCookie : bool.
Variable JSON_stringify : jsval -> string.
Variable toISOString : Z -> string.

Local Abbreviation run' :=
  (run upstream JSON_parse has_getSetCookie JSON_stringify toISOString).

Ltac skip_call := apply wp_any; intros [?|?] ?; simpl.

Lemma run_one_block (d : Dispatcher) (name : string) (args : jsval) (w : World) :
  wp (run' d name args)
    (fun r _ => exists t, r = Ok t /\ length (content t) = 1%nat) w.
Proof.
  destruct d; unfold run, MCPServer_executeTool, callTool, execute, dispatch,
    tool_testConnection, tool_queryAccounts, tool_getAccount, tool_createAccount,
    tool_updateAccount, tool_deleteAccount, getCreatioClient, setCreatioClient,
    MCPServer_setClient, timestamp, arg, Date_now.
  all: repeat (wp_go; try skip_call).
  all: eexists; split; reflexivity.
Qed.

(** X11. Whatever the tool name, the arguments and the state, and whatever
    the upstream answers, a dispatcher returns a tool result and does not
    throw; the result has exactly one content block. *)
Theorem dispatch_always_answers (d : Dispatcher) (name : string) (args : jsval)
    (w : World) :
  exists t, fst (run' d name args w) = Ok t /\ length (content t) = 1%nat.
Proof. exact (run_one_block d name args w). Qed.

Lemma keeps_refl (w : World) : keeps w w.
Proof. unfold keeps. auto. Qed.

Ltac op_keeps :=
  unfold queryAccounts, getAccountById, createAccount, updateAccount, deleteAccount,
    ensureAuthenticated;
  unfold_client; wp_go; simpl; unfold keeps; simpl; auto.

Lemma queryAccounts_keeps this params w :
  wp (queryAccounts upstream JSON_parse has_getSetCookie this params)
    (fun _ w' => keeps w w') w.
Proof. op_keeps. Qed.

Lemma getAccountById_keeps this id w :
  wp (getAccountById upstream JSON_parse has_getSetCookie this id)
    (fun _ w' => keeps w w') w.
Proof. op_keeps. Qed.

Lemma createAccount_keeps this a w :
  wp (createAccount upstream JSON_parse has_getSetCookie this a)
    (fun _ w' => keeps w w') w.
Proof. op_keeps. Qed.

Lemma updateAccount_keeps this id u w :
  wp (updateAccount upstream JSON_parse has_getSetCookie this id u)
    (fun _ w' => keeps w w') w.
Proof. op_keeps. Qed.

Lemma deleteAccount_keeps this id w :
  wp (deleteAccount upstream JSON_parse has_getSetCookie this id)
    (fun _ w' => keeps w w') w.
Proof. op_keeps. Qed.

(** X12. A dispatch of any name other than [test_creatio_connection], known
    or not, leaves both active-client pointers, the session registry and the
    set of client objects as they were: the tools that work on records read
    the active client and never replace it. *)
Theorem only_connection_test_moves_pointers (d : Dispatcher) (name : string)
    (args : jsval) (w : World) :
  name <> "test_creatio_connection" ->
  keeps w (snd (run' d name args w)).
Proof.
  intros Hne.
  change (wp (run' d name args) (fun _ w' => keeps w w') w).
  destruct d; unfold run, MCPServer_executeTool, callTool, execute, dispatch,
    tool_queryAccounts, tool_getAccount, tool_createAccount, tool_updateAccount,
    tool_deleteAccount, getCreatioClient, arg.
  all: wp_go.
  all: try (exfalso; apply Hne; apply String.eqb_eq; assumption).
  all: try (simpl; apply keeps_refl).
  all: (eapply wp_mono;
        [ first [ apply queryAccounts_keeps | apply getAccountById_keeps
                | apply createAccount_keeps | apply updateAccount_keeps
                | apply deleteAccount_keeps ] |]).
  all: intros r w1 K; destruct r; simpl; wp_go; simpl; exact K.
Qed.

Lemma authenticate_keeps_rest (this : nat) (w : World) :
  wp (authenticate upstream JSON_parse has_getSetCookie this)
    (fun _ w' =>
       keeps w w' /\ now w' = now w /\
       forall l, config (clients w' l) = config (clients w l)) w.
Proof.
  unfold_client. wp_go.
  all: simpl; unfold keeps; simpl; repeat split; try reflexivity.
  all: intros l; destruct (Nat.eqb l this) eqn:E; [| reflexivity].
  all: apply Nat.eqb_eq in E; subst; reflexivity.
Qed.

Lemma test_promotes (d : Dispatcher) (args : jsval) (w : World) :
  wp (run' d "test_creatio_connection" args)
    (fun r w' =>
       forall t, r = Ok t -> isError t = Some false ->
         activeClient d w' = Some (allocated w) /\
         config (clients w' (allocated w)) = args /\
         (exists response,
            loginResponse upstream (allocated w) (snd (new_CreatioClient args w))
            = Some response /\
            loginFails JSON_parse response = false /\
            session (clients w' (allocated w))
            = Some (newSession has_getSetCookie response (now w))) /\
         match d with
         | ViaRegistry => currentClient w' = currentClient w
         | ViaStream => mcpServer_client w' = mcpServer_client w
         end) w.
Proof.
  destruct d; unfold run, MCPServer_executeTool, callTool, execute, dispatch;
    simpl;
    unfold tool_testConnection, setCreatioClient, MCPServer_setClient,
      testConnection, timestamp, Date_now.
  all: apply wp_try_catch; apply wp_bind; apply wp_new; apply wp_bind;
    apply wp_try_catch; apply wp_bind.
  all: eapply wp_mono;
    [ apply wp_and;
      [ apply (authenticate_ok_stores_session upstream JSON_parse has_getSetCookie)
      | apply authenticate_keeps_rest ] |].
  all: intros [[]|e] w1 [Ho (Hk & Hn & Hc)].
  all: wp_go.
  all: simpl; intros t Ht Herr; inversion Ht; subst; try discriminate Herr.
  all: try match goal with H : fst (false, _) = true |- _ => discriminate H end.
  all: simpl in Ho; destruct Ho as (response & Hr & Hf & Hs & _).
  all: destruct Hk as (Hk1 & Hk2 & _ & _); simpl in Hk1, Hk2, Hn.
  all: repeat split; try reflexivity; try assumption.
  all: try (rewrite Hc; simpl; rewrite Nat.eqb_refl; reflexivity).
  all: exists response; auto.
Qed.

(** X13. When the connection-test tool reports success, the dispatcher's own
    pointer refers to the client object created by this call, whose config is
    the argument bag and whose session is the one built, at the current
    instant, from the response that the upstream gave to the login request
    of that client, a response that is not a failed login; the pointer of
    the other dispatcher is not touched, so a connection made through one
    surface does not connect the other. *)
Theorem successful_test_promotes (d : Dispatcher) (args : jsval) (w : World)
    (t : ToolResult) :
  fst (run' d "test_creatio_connection" args w) = Ok t ->
  isError t = Some false ->
  let w' := snd (run' d "test_creatio_connection" args w) in
  activeClient d w' = Some (allocated w) /\
  config (clients w' (allocated w)) = args /\
  (exists response,
     loginResponse upstream (allocated w) (snd (new_CreatioClient args w))
     = Some response /\
     loginFails JSON_parse response = false /\
     session (clients w' (allocated w))
     = Some (newSession has_getSetCookie response (now w))) /\
  match d with
  | ViaRegistry => currentClient w' = currentClient w
  | ViaStream => mcpServer_client w' = mcpServer_client w
  end.
Proof.
  intros Ht Herr. exact (test_promotes d args w t Ht Herr).
Qed.

Lemma tools_without_client (d : Dispatcher) (tool : string) (args : jsval)
    (w : World) :
  activeClient d w = None ->
  In tool ("query_creatio_accounts" :: recordTools) ->
  (tool = "get_creatio_account" \/ tool = "delete_creatio_account" ->
   exists id, get_prop args "id" = Ok id) ->
  run' d tool args w = (Ok notConnected, w).
Proof.
  intros Hd Hin Hid.
  simpl in Hin.
  destruct Hin as [<-|[<-|[<-|[<-|[<-|[]]]]]];
    destruct d; simpl in Hd;
    unfold run, MCPServer_executeTool, callTool, execute;
    (erewrite try_catch_ok; [reflexivity |]);
    unfold dispatch; simpl;
    unfold tool_queryAccounts, tool_getAccount, tool_createAccount,
      tool_updateAccount, tool_deleteAccount, getCreatioClient, arg, bind, gets, lift.
  3-4: destruct (Hid (or_introl eq_refl)) as [id ->]; rewrite Hd; reflexivity.
  7-8: destruct (Hid (or_intror eq_refl)) as [id ->]; rewrite Hd; reflexivity.
  all: rewrite Hd; reflexivity.
Qed.

(** X14. While a dispatcher has no active client, each of the four record
    tools answers the not-connected result and leaves the world as it was
    (nothing is sent): the create and update tools for every argument value,
    the get and delete tools for every argument bag from which [id] can be
    read. *)
Theorem record_tools_without_client (d : Dispatcher) (tool : string)
    (args : jsval) (w : World) :
  activeClient d w = None ->
  In tool recordTools ->
  (tool = "get_creatio_account" \/ tool = "delete_creatio_account" ->
   exists id, get_prop args "id" = Ok id) ->
  run' d tool args w = (Ok notConnected, w).
Proof.
  intros Hd Hin Hid. apply tools_without_client; [exact Hd | | exact Hid].
  right. exact Hin.
Qed.

End Dispatchers.

Lemma only_connection_test_moves_pointers_witness :
  keeps Sample.stale
    (snd (run Sample.accepting Sample.parse true Sample.stringify Sample.iso
            ViaStream "delete_creatio_account" (JObj [("id", JStr "42")])
            Sample.stale)).
Proof.
  apply only_connection_test_moves_pointers. discriminate.
Defined.

Lemma successful_test_promotes_witness :
  activeClient ViaStream
    (snd (run Sample.accepting Sample.parse true Sample.stringify Sample.iso
            ViaStream "test_creatio_connection" Sample.goodConfig Sample.boot))
  = Some 0%nat /\
  session
    (clients
       (snd (run Sample.accepting Sample.parse true Sample.stringify Sample.iso
               ViaStream "test_creatio_connection" Sample.goodConfig Sample.boot))
       0%nat)
  = Some (newSession true
            (Sample.reply 200 "OK" "accepted" (Some "application/json")
               Sample.loginCookies) 1000) /\
  mcpServer_client
    (snd (run Sample.accepting Sample.parse true Sample.stringify Sample.iso
            ViaStream "test_creatio_connection" Sample.goodConfig Sample.boot))
  = None.
Proof.
  destruct (successful_test_promotes Sample.accepting Sample.parse true
              Sample.stringify Sample.iso ViaStream Sample.goodConfig Sample.boot
              _ eq_refl eq_refl) as (H1 & _ & (response & Hr & _ & Hs) & H4).
  split; [exact H1 |]. split; [| exact H4].
  refine (eq_trans Hs _).
  assert (E : Some response
              = Some (Sample.reply 200 "OK" "accepted" (Some "application/json")
                        Sample.loginCookies))
    by (rewrite <- Hr; reflexivity).
  inversion E. reflexivity.
Defined.

Lemma record_tools_without_client_witness :
  run Sample.accepting Sample.parse true Sample.stringify Sample.iso
    ViaRegistry "delete_creatio_account" (JObj [("id", JStr "42")]) Sample.boot
  = (Ok notConnected, Sample.boot)
  /\ run Sample.accepting Sample.parse true Sample.stringify Sample.iso
       ViaStream "create_creatio_account" JUndefined Sample.boot
     = (Ok notConnected, Sample.boot).
Proof.
  split.
  - apply record_tools_without_client.
    + reflexivity.
    + simpl. tauto.
    + intros _. exists (JStr "42"). reflexivity.
  - apply record_tools_without_client.
    + reflexivity.
    + simpl. tauto.
    + intros [H|H]; discriminate H.
Defined.

(** Without an argument bag the get tool fails on reading [id], before it
    looks for a client. *)
Example get_without_arguments :
  fst (run Sample.accepting Sample.parse true Sample.stringify Sample.iso
         ViaStream "get_creatio_account" JUndefined Sample.boot)
  = Ok {| content :=
            ["Error executing get_creatio_account: Cannot read properties of undefined"];
          isError := Some true |}.
Proof. reflexivity. Qed.

(** ** The session registry and the message endpoint *)

Section Messages.

Variable server_connect : Transport -> bool -> result unit.
Variable handlePostMessage :
  Transport -> jsval -> World -> result unit * Res * World.

(** X15. Once the handler of a stream has stored a transport under a handle,
    also when [server.connect] has then thrown, a message posted with that
    handle is handed to that transport, in the state the handler left: what
    the transport sends is delivered, and the fixed 500 is attempted only
    when the transport throws.  The handler and the close listener of one
    handle change the registry entry of no other handle. *)
Theorem registered_session_receives (sid : string) (t : Transport) (message : jsval)
    (w : World) :
  sid <> "" ->
  let opened := snd (sse_open server_connect sid t w) in
  post_messages handlePostMessage (Some sid) message opened
  = match handlePostMessage t message opened with
    | (Ok _, res, w') => (Ok tt, res, w')
    | (Throw _, res, w') => (res_json internalError res, w')
    end
  /\ (forall other, other <> sid ->
        activeTransports opened !! other = activeTransports w !! other /\
        activeTransports (snd (sse_close sid w)) !! other
        = activeTransports w !! other).
Proof.
  intros Hne opened. subst opened. rewrite sse_open_outcome. simpl. split.
  - apply post_known; [exact Hne |]. simpl. apply lookup_insert_eq.
  - intros other Ho. split.
    + apply lookup_insert_ne. congruence.
    + apply lookup_delete_ne. congruence.
Qed.

(** X16. An answer that the transport has sent is the one delivered.  The
    handler of the message endpoint ends with an exception only when the
    addressed transport has sent an answer and then thrown: the 500 of the
    catch can then not be sent.  When the transport throws before it has
    answered, the fixed 500 "Internal server error" is delivered, which does
    not carry the exception's message. *)
Theorem message_endpoint_keeps_first_answer (sid : option string) (message : jsval)
    (w : World) :
  let out := post_messages handlePostMessage sid message w in
  (forall e, fst (fst out) = Throw e ->
     exists s t a e',
       sid = Some s /\ activeTransports w !! s = Some t /\
       fst (handlePostMessage t message w) = (Throw e', Some a) /\
       delivered out = Some a)
  /\ (forall s t a,
        sid = Some s -> s <> "" -> activeTransports w !! s = Some t ->
        delivered (handlePostMessage t message w) = Some a ->
        delivered out = Some a)
  /\ (forall s t e' w',
        sid = Some s -> s <> "" -> activeTransports w !! s = Some t ->
        handlePostMessage t message w = (Throw e', None, w') ->
        out = (Ok tt, Some internalError, w')).
Proof.
  intros out. subst out. unfold delivered. destruct sid as [s|].
  2: { repeat split; intros; discriminate. }
  destruct (String.eqb s "") eqn:E.
  { apply String.eqb_eq in E. subst s. repeat split.
    - intros e H. discriminate H.
    - intros s t a Hs Hne. inversion Hs; subst. contradiction.
    - intros s t e' w' Hs Hne. inversion Hs; subst. contradiction. }
  assert (Hne : s <> "") by (intros ->; discriminate E).
  destruct (activeTransports w !! s) as [t|] eqn:L.
  2: { rewrite (post_unknown handlePostMessage s message w Hne L). repeat split.
       - intros e H. discriminate H.
       - intros s' t a Hs _ Ht. inversion Hs; subst. rewrite L in Ht. discriminate Ht.
       - intros s' t e' w' Hs _ Ht. inversion Hs; subst. rewrite L in Ht.
         discriminate Ht. }
  rewrite (post_known handlePostMessage s t message w Hne L).
  destruct (handlePostMessage t message w) as [[[u|e0] [a0|]] w0] eqn:H; simpl.
  all: repeat split.
  all: try (intros e He; discriminate He).
  all: try (intros s' t' a Hs _ Ht Ha; inversion Hs; subst; rewrite L in Ht;
            inversion Ht; subst; rewrite H in Ha; simpl in Ha;
            first [exact Ha | discriminate Ha]).
  all: try (intros s' t' e' w' Hs _ Ht Hh; inversion Hs; subst; rewrite L in Ht;
            inversion Ht; subst; rewrite H in Hh; inversion Hh; subst; reflexivity).
  intros e _. exists s, t, a0, e0. rewrite H. auto.
Qed.

(** X17. The count that [/mcp/health] reports is the number of handles in
    the registry.  A connection with a new handle adds one as soon as its
    handler has stored the handle; the close of the connection takes that
    one away exactly when [server.connect] had returned, and the registry is
    then as before.  After a connection whose [server.connect] threw, the
    count stays one higher. *)
Theorem active_sessions_count (sid : string) (t : Transport) (w : World) :
  activeTransports w !! sid = None ->
  fst (activeSessions (snd (sse_open server_connect sid t w)))
  = Ok (S (size (activeTransports w)))
  /\ fst (activeSessions (snd (register_then_close server_connect sid t w)))
     = Ok (match server_connect t true with
           | Ok _ => size (activeTransports w)
           | Throw _ => S (size (activeTransports w))
           end)
  /\ (server_connect t true = Ok tt ->
      activeTransports (snd (register_then_close server_connect sid t w))
      = activeTransports w).
Proof.
  intros Hn. unfold register_then_close. rewrite sse_open_outcome.
  unfold activeSessions, gets. simpl.
  assert (Hs : size (<[sid := t]> (activeTransports w))
               = S (size (activeTransports w))).
  { rewrite map_size_insert, Hn. reflexivity. }
  split; [rewrite Hs; reflexivity |].
  destruct (server_connect t true) as [[]|e]; simpl.
  - rewrite delete_insert_id by exact Hn. split; reflexivity.
  - rewrite Hs. split; [reflexivity | intros H; discriminate H].
Qed.

End Messages.

Lemma registered_session_receives_witness :
  post_messages Sample.handle (Some "6f1c9a52") JNull
    (snd (sse_open Sample.start "6f1c9a52" 7%nat Sample.boot))
  = (Ok tt, Some {| code := 202; payload := JStr "Accepted" |},
     snd (sse_open Sample.start "6f1c9a52" 7%nat Sample.boot)).
Proof.
  assert (H : "6f1c9a52" <> "") by discriminate.
  exact (proj1 (registered_session_receives Sample.start Sample.handle "6f1c9a52"
                  7%nat JNull Sample.boot H)).
Defined.

Lemma message_endpoint_keeps_first_answer_witness :
  post_messages Scene.failing (Some "6f1c9a52") JNull
    (snd (sse_open Sample.attach "6f1c9a52" 7%nat Sample.boot))
  = (Ok tt, Some internalError,
     snd (sse_open Sample.attach "6f1c9a52" 7%nat Sample.boot)).
Proof.
  apply (proj2 (proj2 (message_endpoint_keeps_first_answer Scene.failing
                         (Some "6f1c9a52") JNull
                         (snd (sse_open Sample.attach "6f1c9a52" 7%nat Sample.boot))))
           "6f1c9a52" 7%nat (Error "stream closed")).
  - reflexivity.
  - discriminate.
  - simpl. apply lookup_insert_eq.
  - reflexivity.
Defined.

(** A transport that was never started answers 500 itself and throws: the
    handler of the endpoint ends with the exception of the second answer. *)
Example unstarted_transport_answers_itself :
  post_messages Sample.unstarted (Some "6f1c9a52") JNull
    (snd (sse_open Sample.start "6f1c9a52" 7%nat Sample.boot))
  = (Throw (Error "Cannot set headers after they are sent to the client"),
     Some {| code := 500; payload := JStr "SSE connection not established" |},
     snd (sse_open Sample.start "6f1c9a52" 7%nat Sample.boot)).
Proof.
  rewrite post_known with (t := 7%nat);
    [reflexivity | discriminate | simpl; apply lookup_insert_eq].
Qed.

Lemma active_sessions_count_witness :
  fst (activeSessions
         (snd (register_then_close Sample.start "6f1c9a52" 7%nat Sample.boot)))
  = Ok 1%nat
  /\ fst (activeSessions
            (snd (register_then_close Sample.attach "6f1c9a52" 7%nat Sample.boot)))
     = Ok 0%nat.
Proof.
  assert (H : activeTransports Sample.boot !! "6f1c9a52" = None)
    by apply lookup_empty.
  split.
  - exact (proj1 (proj2 (active_sessions_count Sample.start "6f1c9a52" 7%nat
                           Sample.boot H))).
  - exact (proj1 (proj2 (active_sessions_count Sample.attach "6f1c9a52" 7%nat
                           Sample.boot H))).
Defined.

(** ** The routes for single records *)

Section RecordRoutes.

Variable upstream : list Request -> Request -> result Response.
Variable JSON_parse : string -> result jsval.
Variable has_getSetCookie : bool.
Variable JSON_stringify : jsval -> string.
Variable toISOString : Z -> string.

Local Abbreviation serve' := (serve upstream JSON_parse has_getSetCookie).

Lemma serve_without_client (r : Route) (w : World) :
  currentClient w = None -> serve' r w = (Ok notConnectedResponse, w).
Proof.
  intros H. destruct r; unfold serve, route_getAccount, route_createAccount,
    route_updateAccount, route_deleteAccount, try_catch, getCreatioClient, bind, gets;
    rewrite H; reflexivity.
Qed.

(** X18. While [currentClient] is not set, each of the four routes for single
    records answers 401 "Not connected to Creatio. Please connect first."
    for every input, also a missing body, and leaves the world as it was:
    nothing is sent upstream. *)
Theorem routes_without_client (r : Route) (w : World) :
  currentClient w = None ->
  serve' r w
  = (Ok {| code := 401;
           payload := JObj [("success", JBool false);
                            ("error",
                             JStr "Not connected to Creatio. Please connect first.")] |},
     w).
Proof. apply serve_without_client. Qed.

Ltac skip_call := apply wp_any; intros [?|?] ?; simpl.

(** X19. Each of the four routes for single records always answers, with one
    of the status codes 200, 201, 400, 401, 404 and 500: an exception of the
    client or of the upstream ends as the answer 500 and does not leave the
    route. *)
Theorem routes_always_answer (r : Route) (w : World) :
  exists a,
    fst (serve' r w) = Ok a /\ In (code a) [200; 201; 400; 401; 404; 500].
Proof.
  change (wp (serve' r)
            (fun x _ => exists a,
                 x = Ok a /\ In (code a) [200; 201; 400; 401; 404; 500]) w).
  destruct r; unfold serve, route_getAccount, route_createAccount,
    route_updateAccount, route_deleteAccount, serverError, getCreatioClient.
  all: repeat (wp_go; try skip_call).
  all: eexists; split; [reflexivity | simpl; tauto].
Qed.

(** X20. With a client set, the create route answers 400 "Account name is
    required" and sends nothing when the body has no [Name] or a falsy one
    (the empty text, null, zero); the field is read with its capital letter,
    so a body that only has [name] is refused too. *)
Theorem create_route_requires_name (body : jsval) (this : nat) (w : World)
    (name : jsval) :
  currentClient w = Some this ->
  get_prop body "Name" = Ok name ->
  truthy name = false ->
  route_createAccount upstream JSON_parse has_getSetCookie body w
  = (Ok {| code := 400;
           payload := JObj [("success", JBool false);
                            ("error", JStr "Account name is required")] |}, w).
Proof.
  intros Hc Hn Ht.
  unfold route_createAccount, try_catch, getCreatioClient, bind, gets, lift.
  rewrite Hc, Hn, Ht. reflexivity.
Qed.


(** X22. The disconnect route clears [currentClient] and nothing else: no
    client object and no session changes, nothing is sent, and the pointer of
    [mcpServer] stays.  After it every route for single records answers 401
    and every record or query tool of the streaming dispatcher answers not
    connected, while the dispatcher behind the execute route keeps its
    client. *)
Theorem disconnect_clears_currentClient (w : World) :
  let w' := snd (route_disconnect w) in
  currentClient w' = None
  /\ mcpServer_client w' = mcpServer_client w
  /\ clients w' = clients w
  /\ sent w' = sent w
  /\ (forall r, serve' r w' = (Ok notConnectedResponse, w'))
  /\ (forall tool args,
        In tool ("query_creatio_accounts" :: recordTools) ->
        (tool = "get_creatio_account" \/ tool = "delete_creatio_account" ->
         exists id, get_prop args "id" = Ok id) ->
        run upstream JSON_parse has_getSetCookie JSON_stringify toISOString
          ViaStream tool args w'
        = (Ok notConnected, w')).
Proof.
  intros w'. repeat split.
  - intros r. apply serve_without_client. reflexivity.
  - intros tool args Hin Hid.
    apply tools_without_client; [reflexivity | exact Hin | exact Hid].
Qed.

End RecordRoutes.

Lemma routes_without_client_witness :
  serve Sample.accepting Sample.parse true (UpdateAccount "42" JUndefined) Sample.boot
  = (Ok notConnectedResponse, Sample.boot).
Proof.
  exact (routes_without_client Sample.accepting Sample.parse true
           (UpdateAccount "42" JUndefined) Sample.boot eq_refl).
Defined.

Lemma create_route_requires_name_witness :
  route_createAccount Sample.accepting Sample.parse true
    (JObj [("name", JStr "Acme")]) Sample.fresh
  = (Ok {| code := 400;
           payload := JObj [("success", JBool false);
                            ("error", JStr "Account name is required")] |},
     Sample.fresh).
Proof.
  exact (create_route_requires_name Sample.accepting Sample.parse true
           (JObj [("name", JStr "Acme")]) 0%nat Sample.fresh JUndefined
           eq_refl eq_refl eq_refl).
Defined.


Example execute_route_not_connected :
  fst (route_execute Sample.accepting Sample.parse true Sample.stringify Sample.iso
         (JObj [("tool", JStr "query_creatio_accounts")]) Sample.boot)
  = Ok {| code := 200;
          payload :=
            JObj [("success", JBool false);
                  ("result",
                   JArr [JObj [("type", JStr "text");
                               ("text",
                                JStr "Not connected. Use test_creatio_connection first.")]]);
                  ("isError", JBool true)] |}.
Proof. reflexivity. Qed.

Lemma disconnect_clears_currentClient_witness :
  run Sample.accepting Sample.parse true Sample.stringify Sample.iso
    ViaStream "update_creatio_account" (JObj [("id", JStr "42")])
    (snd (route_disconnect Sample.fresh))
  = (Ok notConnected, snd (route_disconnect Sample.fresh))
  /\ mcpServer_client (snd (route_disconnect Sample.fresh)) = Some 0%nat.
Proof.
  destruct (disconnect_clears_currentClient Sample.accepting Sample.parse true
              Sample.stringify Sample.iso Sample.fresh)
    as (_ & H2 & _ & _ & _ & H6).
  split; [| exact H2].
  apply H6.
  - simpl. tauto.
  - intros [H|H]; discriminate H.
Defined.

(** ** The query string and the query response *)

Lemma all_chars_app (p : ascii -> bool) (a b : string) :
  all_chars p (a +:+ b) = all_chars p a && all_chars p b.
Proof.
  induction a as [|c a IH]; [reflexivity |].
  rewrite append_cons. simpl. rewrite IH. rewrite andb_assoc. reflexivity.
Qed.

Lemma hex_digit_safe (n : nat) : (n < 16)%nat -> urlsafe (Uri.hex_digit n) = true.
Proof.
  intros H. do 16 (destruct n as [|n]; [reflexivity |]). lia.
Qed.

Lemma percent_safe (c : ascii) : all_chars urlsafe (Uri.percent c) = true.
Proof.
  unfold Uri.percent.
  change (urlsafe "%" && (urlsafe (Uri.hex_digit (Text.code c / 16)) &&
          (urlsafe (Uri.hex_digit (Text.code c mod 16)) && true)) = true).
  rewrite !hex_digit_safe; [reflexivity | |].
  - apply Nat.mod_upper_bound. discriminate.
  - unfold Text.code. pose proof (nat_ascii_bounded c).
    apply Nat.Div0.div_lt_upper_bound. lia.
Qed.

Lemma encode_safe (s : string) :
  all_chars urlsafe (Uri.encodeURIComponent s) = true.
Proof.
  induction s as [|c s IH]; [reflexivity |].
  simpl. destruct (Uri.unreserved c) eqn:E.
  - simpl. unfold urlsafe at 1. rewrite E, IH. reflexivity.
  - rewrite all_chars_app, percent_safe, IH. reflexivity.
Qed.

Lemma uint_safe (d : Decimal.uint) :
  all_chars urlsafe (NilEmpty.string_of_uint d) = true.
Proof. induction d; simpl; try rewrite IHd; reflexivity. Qed.

Lemma of_Z_safe (n : Z) : all_chars urlsafe (Text.of_Z n) = true.
Proof.
  unfold Text.of_Z, NilEmpty.string_of_int.
  destruct (Z.to_int n); simpl; rewrite uint_safe; reflexivity.
Qed.

(** X23. For query parameters of the types of the schema, texts and
    integers that are printed with all their digits (magnitude below 2^53),
    every piece of the query string consists of characters that
    [encodeURIComponent] keeps and of percent, equals and dollar signs: no
    value can hold an ampersand, a question mark, a hash sign or a space, so
    a value cannot end its parameter or add another one. *)
Theorem typed_values_stay_inside_their_parameter (p : TypedParams) :
  safeNumbers p ->
  Forall (fun part => all_chars urlsafe part = true) (queryParts (untyped p)).
Proof.
  intros _. unfold queryParts, untyped; simpl.
  repeat (apply Forall_app; split).
  all: match goal with
       | |- Forall _ (if truthy (ofText ?o) then _ else _) =>
           destruct o as [s|]; simpl; [destruct (negb (String.eqb s "")) |];
           repeat constructor
       | |- Forall _ (if truthy (ofNumber ?o) then _ else _) =>
           destruct o as [n|]; simpl; [destruct (negb (n =? 0)) |];
           repeat constructor
       end.
  all: rewrite all_chars_app; first [rewrite encode_safe | rewrite of_Z_safe];
       reflexivity.
Qed.

Lemma typed_values_stay_inside_their_parameter_witness :
  Forall (fun part => all_chars urlsafe part = true)
    (queryParts (untyped injecting)).
Proof.
  apply typed_values_stay_inside_their_parameter.
  split; intros n H; inversion H; subst; unfold safeInteger; lia.
Defined.

Example injecting_filter_is_encoded :
  queryString (untyped injecting)
  = "?$filter=Name%20eq%20'A%26B'%26%24top%3D1000%23&$top=5&$skip=10&$orderby=Name%20asc".
Proof. reflexivity. Qed.

(** The tool path does not check the type of [top]: a text given as [top] is
    appended as it is. *)
Example untyped_top_is_not_encoded :
  queryString
    {| q_filter := JUndefined; q_select := JUndefined;
       q_top := JStr "5&$expand=Contacts"; q_skip := JUndefined;
       q_orderby := JUndefined; q_expand := JUndefined |}
  = "?$top=5&$expand=Contacts".
Proof. reflexivity. Qed.

Section Responses.

Variable JSON_parse : string -> result jsval.



End Responses.

Lemma titleMatch_step (c : ascii) (s : string) :
  Html.titleMatch (String c s)
  = match titleHere (String c s) with
    | Some t => Some t
    | None => Html.titleMatch s
    end.
Proof. reflexivity. Qed.

Lemma to_lower_lt (c : ascii) : Text.to_lower c = "<"%char -> c = "<"%char.
Proof.
  destruct c as [[] [] [] [] [] [] [] []]; vm_compute; intros H;
    first [reflexivity | discriminate H].
Qed.

Lemma prefix_ci_split (lit s : string) :
  Text.prefix_ci lit s = true ->
  exists o rest,
    s = o +:+ rest /\ lower o = lit /\ Text.skip (String.length lit) s = rest.
Proof.
  revert s. induction lit as [|a lit IH]; intros s H.
  - exists "", s. repeat split; try (destruct s; reflexivity).
  - destruct s as [|b s]; [discriminate H |]. simpl in H.
    destruct (Ascii.eqb a (Text.to_lower b)) eqn:E; [| discriminate H].
    apply Ascii.eqb_eq in E. destruct (IH s H) as (o & rest & -> & Hl & Hs).
    exists (String b o), rest. repeat split.
    + simpl. rewrite Hl, E. reflexivity.
    + exact Hs.
Qed.

Lemma prefix_ci_joined (o rest : string) :
  Text.prefix_ci (lower o) (o +:+ rest) = true
  /\ Text.skip (String.length (lower o)) (o +:+ rest) = rest.
Proof.
  induction o as [|b o [IH1 IH2]].
  - split; [reflexivity | destruct rest; reflexivity].
  - replace (String b o +:+ rest) with (String b (o +:+ rest)) by reflexivity.
    simpl. rewrite Ascii.eqb_refl. split; assumption.
Qed.

Lemma span_exact (p : ascii -> bool) (t r : string) :
  all_chars p t = true ->
  match r with
  | EmptyString => True
  | String c _ => p c = false
  end ->
  Text.span p (t +:+ r) = (t, r).
Proof.
  intros Ht Hr. induction t as [|c t IH].
  - replace (EmptyString +:+ r) with r by reflexivity.
    destruct r as [|c r]; [reflexivity |]. simpl. rewrite Hr. reflexivity.
  - replace (String c t +:+ r) with (String c (t +:+ r)) by reflexivity.
    simpl in Ht. apply andb_true_iff in Ht. destruct Ht as [Hc Ht].
    simpl. rewrite Hc, (IH Ht). reflexivity.
Qed.

Lemma closing_starts (c rest : string) :
  lower c = "</title>" ->
  match c +:+ rest with
  | EmptyString => True
  | String x _ => Text.not_char "<" x = false
  end.
Proof.
  destruct c as [|x c]; [discriminate |]. intros H.
  replace (String x c +:+ rest) with (String x (c +:+ rest)) by reflexivity.
  simpl in H. inversion H as [[Hx Hc]]. apply to_lower_lt in Hx. subst x.
  reflexivity.
Qed.

Lemma titleHere_complete (s t : string) : titleAt s t -> titleHere s = Some t.
Proof.
  intros (o & c & rest & -> & Ho & Hc & Hne & Hall).
  unfold titleHere.
  destruct (prefix_ci_joined o (t +:+ c +:+ rest)) as [P1 P2].
  rewrite Ho in P1, P2. rewrite P1. change (String.length "<title>") with 7%nat in P2.
  rewrite P2, (span_exact _ t (c +:+ rest) Hall (closing_starts c rest Hc)).
  destruct (prefix_ci_joined c rest) as [Q1 _]. rewrite Hc in Q1. rewrite Q1.
  unfold Text.nonempty. destruct (String.eqb t "") eqn:E; [| reflexivity].
  apply String.eqb_eq in E. contradiction.
Qed.

Lemma titleHere_sound (s t : string) : titleHere s = Some t -> titleAt s t.
Proof.
  unfold titleHere. intros H.
  destruct (Text.prefix_ci "<title>" s) eqn:P; [| discriminate H].
  destruct (prefix_ci_split _ _ P) as (o & r & -> & Ho & Hs).
  change (String.length "<title>") with 7%nat in Hs. rewrite Hs in H.
  pose proof (span_app (Text.not_char "<") r) as Happ.
  pose proof (span_all (Text.not_char "<") r) as Hall.
  destruct (Text.span (Text.not_char "<") r) as [t0 r0]. simpl in Happ, Hall.
  destruct (Text.nonempty t0 && Text.prefix_ci "</title>" r0) eqn:E;
    [| discriminate H].
  inversion H; subst t0; clear H. apply andb_true_iff in E. destruct E as [E1 E2].
  destruct (prefix_ci_split _ _ E2) as (c & rest & -> & Hc & _).
  exists o, c, rest. rewrite Happ. repeat split; auto.
  unfold Text.nonempty in E1. intros ->. discriminate E1.
Qed.

Lemma titleAt_nonempty (t : string) : ~ titleAt "" t.
Proof.
  intros (o & c & rest & H & Ho & _). destruct o; discriminate.
Qed.

Lemma titleMatch_sound (page t : string) :
  Html.titleMatch page = Some t -> firstTitle page t.
Proof.
  induction page as [|x page IH].
  - intros H. vm_compute in H. discriminate H.
  - rewrite titleMatch_step. destruct (titleHere (String x page)) as [t0|] eqn:E.
    + intros H. inversion H; subst t0. exists "", (String x page).
      split; [reflexivity |]. split; [apply titleHere_sound; exact E |].
      intros b1 b2 t' Hb Hn. destruct b1; destruct b2; try discriminate Hb.
      contradiction.
    + intros H. destruct (IH H) as (before & s & -> & Hat & Hmin).
      exists (String x before), s. split; [reflexivity |]. split; [exact Hat |].
      intros b1 b2 t' Hb Hn Ht'. destruct b1 as [|y b1].
      * replace (EmptyString +:+ b2) with b2 in Hb by reflexivity. subst b2.
        apply titleHere_complete in Ht'.
        replace (String x before +:+ s) with (String x (before +:+ s)) in Ht'
          by reflexivity.
        rewrite E in Ht'. discriminate Ht'.
      * replace (String y b1 +:+ b2) with (String y (b1 +:+ b2)) in Hb
          by reflexivity.
        inversion Hb; subst. exact (Hmin b1 b2 t' eq_refl Hn Ht').
Qed.

Lemma titleMatch_none (page : string) :
  Html.titleMatch page = None -> noTitle page.
Proof.
  induction page as [|x page IH]; intros H before s t Hp Hat.
  - destruct before; [| discriminate Hp].
    replace (EmptyString +:+ s) with s in Hp by reflexivity. subst s.
    exact (titleAt_nonempty t Hat).
  - rewrite titleMatch_step in H.
    destruct (titleHere (String x page)) as [t0|] eqn:E; [discriminate H |].
    destruct before as [|y before].
    + replace (EmptyString +:+ s) with s in Hp by reflexivity. subst s.
      apply titleHere_complete in Hat. rewrite E in Hat. discriminate Hat.
    + replace (String y before +:+ s) with (String y (before +:+ s)) in Hp
        by reflexivity.
      inversion Hp; subst. exact (IH H before s t eq_refl Hat).
Qed.

Lemma titleMatch_first (before s t : string) :
  titleAt s t ->
  (forall b1 b2 t', before = b1 +:+ b2 -> b2 <> "" -> ~ titleAt (b2 +:+ s) t') ->
  Html.titleMatch (before +:+ s) = Some t.
Proof.
  intros Hat. induction before as [|x before IH]; intros Hmin.
  - replace (EmptyString +:+ s) with s by reflexivity.
    destruct s as [|y s]; [exfalso; exact (titleAt_nonempty t Hat) |].
    rewrite titleMatch_step, (titleHere_complete _ _ Hat). reflexivity.
  - replace (String x before +:+ s) with (String x (before +:+ s)) by reflexivity.
    rewrite titleMatch_step.
    destruct (titleHere (String x (before +:+ s))) as [t0|] eqn:E.
    + exfalso. apply titleHere_sound in E.
      apply (Hmin "" (String x before) t0); [reflexivity | discriminate | exact E].
    + apply IH. intros b1 b2 t' Hb Hn.
      apply (Hmin (String x b1) b2 t'); [rewrite Hb; reflexivity | exact Hn].
Qed.

(** X26. The title that a query error names is the text of the first title
    element of the page: the first place where an opening tag [<title>], in
    any letter case, is followed by a text that is not empty and holds no
    [<] and then by the closing tag.  When the page holds no such element
    the fallback is used.  So the title is never empty and holds no [<]
    when the fallback is such a text. *)
Theorem error_title_is_first_title (page fallback : string) :
  (forall t, firstTitle page t -> errorTitle page fallback = t)
  /\ (noTitle page -> errorTitle page fallback = fallback)
  /\ (firstTitle page (errorTitle page fallback)
      \/ (noTitle page /\ errorTitle page fallback = fallback))
  /\ (fallback <> "" -> all_chars (Text.not_char "<") fallback = true ->
      errorTitle page fallback <> ""
      /\ all_chars (Text.not_char "<") (errorTitle page fallback) = true).
Proof.
  unfold errorTitle.
  assert (Hfirst : forall t, firstTitle page t -> Html.titleMatch page = Some t).
  { intros t (before & s & -> & Hat & Hmin). apply titleMatch_first; assumption. }
  split; [intros t Ht; rewrite (Hfirst t Ht); reflexivity |].
  destruct (Html.titleMatch page) as [t|] eqn:E; simpl.
  - pose proof (titleMatch_sound page t E) as Hs.
    split.
    { intros Hno. exfalso. destruct Hs as (before & s & Hp & Hat & _).
      exact (Hno before s t Hp Hat). }
    split; [left; exact Hs |].
    intros _ _. destruct Hs as (_ & _ & _ & (_ & _ & _ & _ & _ & _ & Hne & Hall) & _).
    split; assumption.
  - split; [reflexivity |].
    split; [right; split; [apply titleMatch_none; exact E | reflexivity] |].
    intros Hf Ha. split; assumption.
Qed.



Lemma error_title_is_first_title_witness :
  errorTitle "<html><body>Forbidden</body></html>" "Access Denied"
  = "Access Denied".
Proof.
  apply (proj1 (proj2 (error_title_is_first_title
                         "<html><body>Forbidden</body></html>" "Access Denied"))).
  apply titleMatch_none. reflexivity.
Defined.

Example error_title_reads_first_title :
  errorTitle
    "<html><head><title></title><TITLE>Access Denied</TITLE><title>x</title></head></html>"
    "Unknown Error"
  = "Access Denied".
Proof. reflexivity. Qed.
